(** * Vibe Context Bridge: security scanner, continuity checker,
      context memory and context validation

    A shallow embedding of the TypeScript sources
    [SecurityValidator], [ContinuityChecker], [ContextMemory] and
    [ProjectContextManager], followed by the properties their
    specification states about them.

    Conventions of the embedding.
    - A JavaScript string is a [string]: a sequence of code units below
      256.  Case mapping and the white-space class are those of
      JavaScript on that range.
    - An optional property [p?: T] is an [option T]; [undefined] is [None].
    - A JavaScript exception is an explicit [Throw] result.
    - [new Date().toISOString()] reads a clock: the value read is an
      argument of the operation that reads it.
    - A compiled [RegExp] is a record holding the parsed pattern, its
      flags and the mutable [lastIndex]. *)

From Stdlib Require Import String Ascii List Bool Arith ZArith Lia DecimalString.
From Stdlib Require Import Permutation Sorted.
Import ListNotations.

Open Scope string_scope.
Open Scope list_scope.
Open Scope nat_scope.

(* ================================================================== *)
(** * JavaScript strings and arrays *)
(* ================================================================== *)

Module JS.

Definition code (c : ascii) : nat := nat_of_ascii c.

(** The double-quote character, and a text between double quotes. *)
Definition dquote : ascii := ascii_of_nat 34.

Definition quoted (s : string) : string :=
  String dquote (s ++ String dquote EmptyString).

(** The line feed, on which file contents are split into lines. *)
Definition newline : ascii := ascii_of_nat 10.

(** Template insertion of a number. *)
Definition numberToString (n : nat) : string :=
  NilEmpty.string_of_uint (Nat.to_uint n).

Definition between (lo n hi : nat) : bool := (lo <=? n) && (n <=? hi).

(** [String.prototype.toLowerCase] on one code unit. *)
Definition lowerChar (c : ascii) : ascii :=
  let n := code c in
  if between 65 n 90 || (between 192 n 222 && negb (n =? 215))
  then ascii_of_nat (n + 32) else c.

(** Upper-case counterpart of a code unit, when it is again a single
    code unit below 256 (the [Canonicalize] operation of a
    case-insensitive, non-unicode [RegExp]). *)
Definition upperChar (c : ascii) : ascii :=
  let n := code c in
  if between 97 n 122 || (between 224 n 254 && negb (n =? 247))
  then ascii_of_nat (n - 32) else c.

Fixpoint toLowerCase (s : string) : string :=
  match s with
  | EmptyString => EmptyString
  | String c s' => String (lowerChar c) (toLowerCase s')
  end.

(** [String.prototype.toUpperCase]; the three code units 181, 223 and
    255, whose upper case is not one code unit below 256, are kept. *)
Fixpoint toUpperCase (s : string) : string :=
  match s with
  | EmptyString => EmptyString
  | String c s' => String (upperChar c) (toUpperCase s')
  end.

(** [s.startsWith(p)] *)
Definition startsWith (p s : string) : bool := String.prefix p s.

(** [s.includes(p)] *)
Fixpoint includes (p s : string) : bool :=
  String.prefix p s ||
  match s with
  | EmptyString => false
  | String _ s' => includes p s'
  end.

(** [s.endsWith(p)] *)
Fixpoint endsWith (p s : string) : bool :=
  String.eqb p s ||
  match s with
  | EmptyString => false
  | String _ s' => endsWith p s'
  end.

(** [s.split(sep)] for a one-character separator: never empty. *)
Fixpoint split (sep : ascii) (s : string) : list string :=
  match s with
  | EmptyString => [EmptyString]
  | String c s' =>
      if Ascii.eqb c sep then EmptyString :: split sep s'
      else match split sep s' with
           | [] => [String c EmptyString]
           | w :: ws => String c w :: ws
           end
  end.

(** Suffix of [s] from index [n]. *)
Fixpoint drop (n : nat) (s : string) : string :=
  match n, s with
  | 0, _ => s
  | S n', String _ s' => drop n' s'
  | S _, EmptyString => EmptyString
  end.

(** [a.slice(0, e)] on an array, for an integer [e]: a negative [e]
    counts from the end. *)
Definition slice0 {A} (e : Z) (a : list A) : list A :=
  let len := Z.of_nat (List.length a) in
  let e' := if (e <? 0)%Z then Z.max (len + e) 0 else Z.min e len in
  firstn (Z.to_nat e') a.

(** [a.slice(-n)] on an array, for a positive [n]: the last [n]
    elements. *)
Definition sliceLast {A} (n : nat) (a : list A) : list A :=
  skipn (List.length a - n) a.

(** [a.includes(x)] on an array of strings. *)
Definition arrayIncludes (x : string) (a : list string) : bool :=
  existsb (String.eqb x) a.

End JS.

(* ================================================================== *)
(** * Regular expressions *)
(* ================================================================== *)

(** The backtracking matcher of ECMAScript, for the pattern syntax the
    sources use: literals, [.], character classes, sequence, alternation,
    greedy quantifiers and negative lookahead.  Capture groups only group. *)

Module RegExp.

Inductive ClassItem : Type :=
| CChar (c : ascii)
| CRange (lo hi : ascii)
| CSpace.                                        (* \s *)

Inductive regex : Type :=
| Empty
| Chr (c : ascii)
| AnyChar                                        (* .  *)
| Class (negated : bool) (items : list ClassItem)
| Seq (r1 r2 : regex)
| Alt (r1 r2 : regex)
| Repeat (min : nat) (max : option nat) (r : regex)
| NegLookahead (r : regex).                      (* (?!r) *)

(** A literal run of characters. *)
Fixpoint Lit (s : string) : regex :=
  match s with
  | EmptyString => Empty
  | String c EmptyString => Chr c
  | String c s' => Seq (Chr c) (Lit s')
  end.

Definition Star (r : regex) : regex := Repeat 0 None r.          (* r*    *)
Definition Plus (r : regex) : regex := Repeat 1 None r.          (* r+    *)
Definition Opt (r : regex) : regex := Repeat 0 (Some 1) r.       (* r?    *)
Definition AtLeast (n : nat) (r : regex) : regex := Repeat n None r. (* r{n,} *)

Fixpoint SeqN (rs : list regex) : regex :=
  match rs with
  | [] => Empty
  | [r] => r
  | r :: rs' => Seq r (SeqN rs')
  end.

Fixpoint AltN (rs : list regex) : regex :=
  match rs with
  | [] => Empty
  | [r] => r
  | r :: rs' => Alt r (AltN rs')
  end.

Definition isWhiteSpace (c : ascii) : bool :=
  let n := JS.code c in
  JS.between 9 n 13 || (n =? 32) || (n =? 160).

Definition isLineTerminator (c : ascii) : bool :=
  let n := JS.code c in (n =? 10) || (n =? 13).

Definition canonicalize (ignoreCase : bool) (c : ascii) : ascii :=
  if ignoreCase then JS.upperChar c else c.

(** The code units with the same canonical form as [c]. *)
Definition variants (ignoreCase : bool) (c : ascii) : list ascii :=
  if ignoreCase then [c; JS.lowerChar c; JS.upperChar c] else [c].

Definition itemHas (it : ClassItem) (c : ascii) : bool :=
  match it with
  | CChar a => Ascii.eqb a c
  | CRange lo hi => JS.between (JS.code lo) (JS.code c) (JS.code hi)
  | CSpace => isWhiteSpace c
  end.

Definition classHas (ignoreCase : bool) (items : list ClassItem) (c : ascii) : bool :=
  existsb (fun v => existsb (fun it => itemHas it v) items) (variants ignoreCase c).

(** A matcher takes the text left to match and a continuation, and
    returns what is left of the text after the whole match. *)
Definition Matcher : Type := string -> (string -> option string) -> option string.

(** A matcher that only looks at its continuation on texts no longer
    than the one it is given. *)
Definition Local (m : Matcher) : Prop :=
  forall s k k',
    (forall s', String.length s' <= String.length s -> k s' = k' s') ->
    m s k = m s k'.

(** RepeatMatcher: [m] repeated from [min] to [max] times, greedily,
    then [k].  An iteration that consumes nothing is refused once [min]
    iterations are done, so every round lowers [min] or shortens [s],
    and [min + length s + 1] rounds of [fuel] are never used up. *)
Fixpoint repeatMatcher (m : Matcher) (k : string -> option string)
         (fuel min : nat) (max : option nat) (s : string) {struct fuel}
  : option string :=
  match fuel with
  | 0 => None
  | S fuel' =>
      match max with
      | Some 0 => k s
      | _ =>
          let d := fun s' =>
            if (min =? 0) && (String.length s' =? String.length s)
            then None
            else repeatMatcher m k fuel' (pred min) (option_map pred max) s' in
          if min =? 0 then
            match m s d with
            | Some e => Some e
            | None => k s
            end
          else m s d
      end
  end.

(** [matchRe i r s k]: match [r] at the start of [s], then continue
    with [k] on what is left; the result is what is left of [s] after
    the whole match.  Alternatives are tried in priority order. *)
Fixpoint matchRe (i : bool) (r : regex) (s : string)
         (k : string -> option string) {struct r} : option string :=
  match r with
  | Empty => k s
  | Chr c =>
      match s with
      | String a s' =>
          if Ascii.eqb (canonicalize i c) (canonicalize i a) then k s' else None
      | EmptyString => None
      end
  | AnyChar =>
      match s with
      | String a s' => if isLineTerminator a then None else k s'
      | EmptyString => None
      end
  | Class negated items =>
      match s with
      | String a s' => if xorb negated (classHas i items a) then k s' else None
      | EmptyString => None
      end
  | Seq r1 r2 => matchRe i r1 s (fun s1 => matchRe i r2 s1 k)
  | Alt r1 r2 =>
      match matchRe i r1 s k with
      | Some e => Some e
      | None => matchRe i r2 s k
      end
  | Repeat min max r1 =>
      repeatMatcher (matchRe i r1) k (S (min + String.length s)) min max s
  | NegLookahead r1 =>
      match matchRe i r1 s (fun s' => Some s') with
      | Some _ => None
      | None => k s
      end
  end.

(** Leftmost match in [s], whose first code unit has index [pos] in the
    subject: the indices where the match starts and ends. *)
Fixpoint search (i : bool) (r : regex) (s : string) (pos : nat)
  : option (nat * nat) :=
  match matchRe i r s (fun s' => Some s') with
  | Some rest => Some (pos, pos + (String.length s - String.length rest))
  | None =>
      match s with
      | EmptyString => None
      | String _ s' => search i r s' (S pos)
      end
  end.

(** A [RegExp] object. *)
Record t : Type := mk {
  source : regex;
  ignoreCase : bool;
  global : bool;
  lastIndex : nat
}.

(** [new RegExp(source, flags)] *)
Definition create (source : regex) (ignoreCase global : bool) : t :=
  mk source ignoreCase global 0.

Definition setLastIndex (n : nat) (re : t) : t :=
  mk (source re) (ignoreCase re) (global re) n.

(** [re.exec(s)]: the match found and the object afterwards.  A global
    expression starts at [lastIndex] and moves it. *)
Definition exec (re : t) (s : string) : option (nat * nat) * t :=
  let start := if global re then lastIndex re else 0 in
  if String.length s <? start then
    (None, if global re then setLastIndex 0 re else re)
  else
    match search (ignoreCase re) (source re) (JS.drop start s) start with
    | None => (None, if global re then setLastIndex 0 re else re)
    | Some (b, e) => (Some (b, e), if global re then setLastIndex e re else re)
    end.

(** [re.test(s)] *)
Definition test (re : t) (s : string) : bool * t :=
  match exec re s with
  | (Some _, re') => (true, re')
  | (None, re') => (false, re')
  end.

(** The text of a match. *)
Definition matched (s : string) (m : nat * nat) : string :=
  String.substring (fst m) (snd m - fst m) s.

(** [s.match(re)] for an expression without the global flag: the text
    of the first match. *)
Definition matchFirst (source : regex) (ignoreCase : bool) (s : string)
  : option string :=
  match search ignoreCase source s 0 with
  | Some m => Some (matched s m)
  | None => None
  end.

(** [s.match(re)] for a global expression: the texts of all matches,
    [None] when there is none. *)
Fixpoint matchAllFrom (fuel : nat) (re : t) (s : string) : list string :=
  match fuel with
  | 0 => []
  | S fuel' =>
      match exec re s with
      | (None, _) => []
      | (Some m, re') =>
          let re'' := if snd m =? fst m
                      then setLastIndex (S (lastIndex re')) re' else re' in
          matched s m :: matchAllFrom fuel' re'' s
      end
  end.

Definition matchAll (source : regex) (ignoreCase : bool) (s : string)
  : option (list string) :=
  match matchAllFrom (String.length s + 2) (create source ignoreCase true) s with
  | [] => None
  | ms => Some ms
  end.

(** The line-independent reading: does [r] match somewhere in [s]? *)
Definition matches (source : regex) (ignoreCase : bool) (s : string) : bool :=
  match search ignoreCase source s 0 with
  | Some _ => true
  | None => false
  end.

End RegExp.

(* ================================================================== *)
(** * The data model (types.ts) *)
(* ================================================================== *)

Inductive Severity : Type := error | warning | info.

Module SecurityPattern.
(** [pattern] holds the parse of the pattern string. *)
Record t : Type := mk {
  name : string;
  pattern : RegExp.regex;
  severity : Severity;
  message : string
}.
End SecurityPattern.

Module SecurityIssue.
Record t : Type := mk {
  file : string;
  line : option nat;
  rule : string;
  severity : Severity;
  message : string;
  suggestion : string
}.
End SecurityIssue.

Module ApiParameter.
Record t : Type := mk {
  name : string;
  type : string;
  required : bool;
  description : option string
}.
End ApiParameter.

Module ApiEndpoint.
(** [method] is any string at run time: synthesized endpoints are built
    with [method as any]. *)
Record t : Type := mk {
  path : string;
  method : string;
  description : option string;
  parameters : option (list ApiParameter.t);
  authentication : option bool
}.
End ApiEndpoint.

Module ApiConfiguration.
Record t : Type := mk {
  baseUrl : option string;
  version : option string;
  endpoints : option (list ApiEndpoint.t)
}.
End ApiConfiguration.

Module SecurityRules.
Record t : Type := mk {
  enforceHttps : option bool;
  inputSanitization : option bool;
  sqlInjectionPrevention : option bool;
  xssProtection : option bool;
  csrfProtection : option bool;
  corsConfiguration : option bool;
  rateLimiting : option bool;
  dataValidation : option bool
}.
End SecurityRules.

Module SecurityConfiguration.
Record t : Type := mk {
  rules : option SecurityRules.t;
  patterns : option (list SecurityPattern.t)
}.
End SecurityConfiguration.

Module AuthenticationConfiguration.
(** [config] and [routes] are read by none of the operations below. *)
Record t : Type := mk {
  type : option string
}.
End AuthenticationConfiguration.

Module DatabaseField.
Record t : Type := mk {
  name : string;
  type : string;
  required : option bool;
  unique : option bool
}.
End DatabaseField.

Module DatabaseModel.
Record t : Type := mk {
  name : string;
  fields : list DatabaseField.t
}.
End DatabaseModel.

Module DatabaseConfiguration.
Record t : Type := mk {
  type : option string;
  models : option (list DatabaseModel.t)
}.
End DatabaseConfiguration.

Module FrontendComponent.
Record t : Type := mk {
  name : string;
  path : string
}.
End FrontendComponent.

Module FrontendConfiguration.
Record t : Type := mk {
  components : option (list FrontendComponent.t)
}.
End FrontendConfiguration.

Module EnvironmentConfig.
Record t : Type := mk {
  port : option nat;
  database : option string;
  apiUrl : option string
}.
End EnvironmentConfig.

Module DeploymentEnvironment.
Record t : Type := mk {
  development : option EnvironmentConfig.t;
  production : option EnvironmentConfig.t
}.
End DeploymentEnvironment.

Module DeploymentConfiguration.
Record t : Type := mk {
  environment : option DeploymentEnvironment.t;
  platform : option string
}.
End DeploymentConfiguration.

Module AiInteraction.
Record t : Type := mk {
  timestamp : string;
  action : string;
  context : string;
  result : string;
  metadata : option string
}.
End AiInteraction.

Module Preferences.
(** The stored preferences, as they are read: a key reads as its value,
    [None] for [undefined], whether the key is absent or holds
    [undefined]. *)
Record t : Type := mk {
  codeStyle : option string;
  commentLevel : option string;
  errorHandling : option string;
  testGeneration : option bool
}.
End Preferences.

Module PreferencesUpdate.
(** The argument of [updateCodeGenerationPreferences], an object with
    any of the preference keys: a key is absent ([None]) or given with
    a value, which may be [undefined] ([Some None]). *)
Record t : Type := mk {
  codeStyle : option (option string);
  commentLevel : option (option string);
  errorHandling : option (option string);
  testGeneration : option (option bool)
}.
End PreferencesUpdate.

Module ContextMemoryData.
(** The interface [ContextMemory] of types.ts; [codeGeneration] holds
    its [preferences]. *)
Record t : Type := mk {
  lastUpdated : option string;
  aiInteractions : option (list AiInteraction.t);
  codeGeneration : option (option Preferences.t)
}.

(** The object literal [{}]. *)
Definition empty : t := mk None None None.
End ContextMemoryData.

Module ProjectInfo.
Record t : Type := mk {
  name : option string;
  description : option string;
  type : option string
}.
End ProjectInfo.

Module ProjectContext.
(** [security] is declared required, but a context is whatever the
    context file holds ([loadContext] casts the parsed data), so it can
    be absent at run time, like the optional sections. *)
Record t : Type := mk {
  project : ProjectInfo.t;
  api : option ApiConfiguration.t;
  security : option SecurityConfiguration.t;
  authentication : option AuthenticationConfiguration.t;
  database : option DatabaseConfiguration.t;
  frontend : option FrontendConfiguration.t;
  deployment : option DeploymentConfiguration.t;
  contextMemory : option ContextMemoryData.t
}.

Definition setContextMemory (m : ContextMemoryData.t) (c : t) : t :=
  mk (project c) (api c) (security c) (authentication c) (database c)
     (frontend c) (deployment c) (Some m).

(** [context.api?.endpoints] *)
Definition apiEndpoints (c : t) : option (list ApiEndpoint.t) :=
  match api c with
  | Some a => ApiConfiguration.endpoints a
  | None => None
  end.

(** [context.security?.rules] *)
Definition securityRules (c : t) : option SecurityRules.t :=
  match security c with
  | Some s => SecurityConfiguration.rules s
  | None => None
  end.

(** [context.database?.models] *)
Definition databaseModels (c : t) : option (list DatabaseModel.t) :=
  match database c with
  | Some d => DatabaseConfiguration.models d
  | None => None
  end.

(** [context.frontend?.components] *)
Definition frontendComponents (c : t) : option (list FrontendComponent.t) :=
  match frontend c with
  | Some f => FrontendConfiguration.components f
  | None => None
  end.
End ProjectContext.

Module ValidationError.
Record t : Type := mk {
  path : string;
  message : string;
  severity : Severity;
  suggestion : option string
}.
End ValidationError.

Module ValidationResult.
Record t : Type := mk {
  valid : bool;
  errors : list ValidationError.t;
  warnings : list ValidationError.t
}.
End ValidationResult.

Inductive ContinuityIssueType : Type :=
| api_mismatch | component_missing | route_undefined | auth_mismatch.

Module ContinuityIssue.
Record t : Type := mk {
  type : ContinuityIssueType;
  frontend : string;
  backend : string;
  message : string;
  suggestion : string
}.
End ContinuityIssue.

(** Truthiness of an optional boolean, of an optional string and of an
    optional object. *)
Definition truthyBool (b : option bool) : bool :=
  match b with Some true => true | _ => false end.

Definition truthyString (s : option string) : bool :=
  match s with
  | Some EmptyString => false
  | Some _ => true
  | None => false
  end.

Definition isSome {A} (o : option A) : bool :=
  match o with Some _ => true | None => false end.

(** A result or a thrown exception. *)
Inductive Result (A : Type) : Type :=
| Ok (a : A)
| Throw (e : string).

Arguments Ok {A} a.
Arguments Throw {A} e.

Definition bind {A B} (r : Result A) (f : A -> Result B) : Result B :=
  match r with
  | Ok a => f a
  | Throw e => Throw e
  end.

Notation "x <- r ;; k" := (bind r (fun x => k))
  (at level 61, r at next level, right associativity).

(* ================================================================== *)
(** * SecurityValidator *)
(* ================================================================== *)

Module SecurityValidator.
Import RegExp.

(** Pattern fragments shared by the built-in patterns.  In the
    comments that quote a pattern of the source, <dq> stands for the
    double-quote character. *)
Definition oneOf (s : string) : regex := Class false (map CChar (list_ascii_of_string s)).
Definition ws : regex := Star (Class false [CSpace]).                 (* \s*    *)
Definition sep : regex := Opt (oneOf "_-").                           (* [_-]?  *)
Definition alnum : regex :=
  Class false [CRange "a" "z"; CRange "A" "Z"; CRange "0" "9"].       (* [a-zA-Z0-9] *)
Definition quote : regex :=
  Class false [CChar JS.dquote; CChar "'"].                           (* [<dq>'] *)
Definition notQuote : regex :=
  Class true [CChar JS.dquote; CChar "'"].                            (* [^<dq>'] *)
Definition word2 (a b : string) : regex := SeqN [Lit a; sep; Lit b].  (* a[_-]?b *)

(** [getDefaultPatterns] *)
Definition getDefaultPatterns : list SecurityPattern.t :=
  [ SecurityPattern.mk "hardcoded-api-key"
      (* (api[_-]?key|secret[_-]?key|access[_-]?token)\s*[=:]\s*[<dq>'][a-zA-Z0-9]{10,}[<dq>'] *)
      (SeqN [AltN [word2 "api" "key"; word2 "secret" "key"; word2 "access" "token"];
             ws; oneOf "=:"; ws; quote; AtLeast 10 alnum; quote])
      error
      "Hardcoded API key detected. Use environment variables instead.";
    SecurityPattern.mk "hardcoded-password"
      (* password\s*[=:]\s*[<dq>'][^<dq>']{3,}[<dq>'] *)
      (SeqN [Lit "password"; ws; oneOf "=:"; ws; quote; AtLeast 3 notQuote; quote])
      error
      "Hardcoded password detected. Use secure configuration management.";
    SecurityPattern.mk "sql-injection-risk"
      (* (SELECT|INSERT|UPDATE|DELETE).*[+].*[$]|[$][{].*[}] *)
      (Alt (SeqN [AltN [Lit "SELECT"; Lit "INSERT"; Lit "UPDATE"; Lit "DELETE"];
                  Star AnyChar; oneOf "+"; Star AnyChar; oneOf "$"])
           (SeqN [oneOf "$"; oneOf "{"; Star AnyChar; oneOf "}"]))
      error
      "Potential SQL injection vulnerability. Use parameterized queries.";
    SecurityPattern.mk "xss-vulnerability"
      (* innerHTML\s*=\s*[^<dq>']*[$]|dangerouslySetInnerHTML *)
      (Alt (SeqN [Lit "innerHTML"; ws; Chr "="; ws; Star notQuote; oneOf "$"])
           (Lit "dangerouslySetInnerHTML"))
      warning
      "Potential XSS vulnerability. Sanitize user input before rendering.";
    SecurityPattern.mk "insecure-http"
      (* http://(?!localhost|127\.0\.0\.1|0\.0\.0\.0) *)
      (Seq (Lit "http://")
           (NegLookahead (AltN [Lit "localhost"; Lit "127.0.0.1"; Lit "0.0.0.0"])))
      warning
      "Insecure HTTP protocol detected. Use HTTPS in production." ].

(** [getSuggestionForPattern]: the fixed table, with its fallback.  The
    table is an object literal, so for a pattern named after a property
    inherited from [Object.prototype] the lookup gives the inherited
    value, which is no text; the model covers the other names. *)
Definition getSuggestionForPattern (patternName line : string) : string :=
  if String.eqb patternName "hardcoded-api-key"
  then "Move to environment variable: process.env.API_KEY"
  else if String.eqb patternName "hardcoded-password"
  then "Use environment variables and bcrypt for password hashing"
  else if String.eqb patternName "sql-injection-risk"
  then "Use parameterized queries or an ORM like Prisma/Sequelize"
  else if String.eqb patternName "xss-vulnerability"
  then "Use DOMPurify to sanitize HTML or avoid innerHTML"
  else if String.eqb patternName "insecure-http"
  then "Replace with https:// for production URLs"
  else "Review this security issue and apply appropriate fixes".

Definition patternIssue (filePath : string) (pattern : SecurityPattern.t)
           (index : nat) (line : string) : SecurityIssue.t :=
  SecurityIssue.mk filePath (Some (index + 1)) (SecurityPattern.name pattern)
    (SecurityPattern.severity pattern) (SecurityPattern.message pattern)
    (getSuggestionForPattern (SecurityPattern.name pattern) line).

(** The [lines.forEach] of [applySecurityPattern]: one [regex] object
    is tested against every line in turn, from index [index] on. *)
Fixpoint applyLines (filePath : string) (pattern : SecurityPattern.t)
         (regex : RegExp.t) (index : nat) (lines : list string)
  : list SecurityIssue.t :=
  match lines with
  | [] => []
  | line :: rest =>
      let (hit, regex') := RegExp.test regex line in
      (if hit then [patternIssue filePath pattern index line] else [])
      ++ applyLines filePath pattern regex' (S index) rest
  end.

(** [applySecurityPattern]: [new RegExp(pattern.pattern, 'gi')]. *)
Definition applySecurityPattern (filePath content : string) (lines : list string)
           (pattern : SecurityPattern.t) : list SecurityIssue.t :=
  let regex := RegExp.create (SecurityPattern.pattern pattern) true true in
  applyLines filePath pattern regex 0 lines.

(** A [lines.forEach] that pushes the issues [check index line]. *)
Fixpoint forEachLine (check : nat -> string -> list SecurityIssue.t)
         (index : nat) (lines : list string) : list SecurityIssue.t :=
  match lines with
  | [] => []
  | line :: rest => check index line ++ forEachLine check (S index) rest
  end.

Definition builtIn (filePath : string) (index : nat) (rule : string)
           (severity : Severity) (message suggestion : string) : SecurityIssue.t :=
  SecurityIssue.mk filePath (Some (index + 1)) rule severity message suggestion.

(** [checkEnvironmentFile] *)
Definition checkEnvironmentFile (filePath : string) (lines : list string)
  : list SecurityIssue.t :=
  forEachLine (fun index line =>
    if JS.includes "=" line && negb (JS.startsWith "#" line) then
      match JS.split "=" line with
      | key :: value :: _ =>
          if negb (String.eqb value EmptyString) && (10 <? String.length value)
             && negb (JS.includes "${" value) && negb (JS.includes "your_" value)
          then
            if JS.includes "key" (JS.toLowerCase key)
               || JS.includes "secret" (JS.toLowerCase key)
               || JS.includes "token" (JS.toLowerCase key)
            then [builtIn filePath index "env-file-security" warning
                    "Environment file contains what appears to be real credentials. Ensure this file is not committed to version control."
                    "Add .env files to .gitignore and use placeholder values in committed examples"]
            else []
          else []
      | _ => []
      end
    else []) 0 lines.

(** [checkCommonAntiPatterns] *)
Definition checkCommonAntiPatterns (filePath : string) (lines : list string)
  : list SecurityIssue.t :=
  forEachLine (fun index line =>
    (if JS.includes "eval(" line
     then [builtIn filePath index "eval-usage" error
             "Use of eval() detected. This is a serious security risk."
             "Avoid eval(). Use JSON.parse() for JSON data or proper function calls"]
     else [])
    ++ (if JS.includes "document.write(" line
        then [builtIn filePath index "document-write" warning
                "document.write() usage detected. This can lead to XSS vulnerabilities."
                "Use DOM manipulation methods like createElement() and appendChild()"]
        else [])
    ++ (if JS.includes "console.log" line
           && (JS.includes "password" line || JS.includes "token" line
               || JS.includes "secret" line)
        then [builtIn filePath index "console-log-sensitive" warning
                "Console.log with potentially sensitive data detected."
                "Remove console.log statements with sensitive data before production"]
        else [])) 0 lines.

(** [checkAuthenticationBypass] *)
Definition checkAuthenticationBypass (filePath : string) (lines : list string)
  : list SecurityIssue.t :=
  forEachLine (fun index line =>
    (if JS.includes "if (" line && JS.includes "||" line
        && (JS.includes "admin" line || JS.includes "bypass" line)
     then [builtIn filePath index "auth-bypass-pattern" error
             "Potential authentication bypass pattern detected."
             "Review authentication logic to ensure no unintended bypass conditions"]
     else [])
    ++ (if (JS.includes "admin" line || JS.includes "root" line)
           && JS.includes "password" line
        then [builtIn filePath index "hardcoded-admin" error
                "Hardcoded admin credentials detected."
                "Use environment variables and secure credential management"]
        else [])) 0 lines.

(** [checkDataExposure] *)
Definition checkDataExposure (filePath : string) (lines : list string)
  : list SecurityIssue.t :=
  forEachLine (fun index line =>
    (if JS.includes "res.json" line && JS.includes "user" line
        && (JS.includes "password" line || JS.includes "secret" line)
     then [builtIn filePath index "data-exposure" error
             "Potential sensitive data exposure in API response."
             "Filter sensitive fields before sending API responses"]
     else [])
    ++ (if JS.includes "SELECT *" line && JS.includes "user" line
        then [builtIn filePath index "sql-data-exposure" warning
                "SELECT * query on user table may expose sensitive data."
                "Specify only the columns needed instead of using SELECT *"]
        else [])) 0 lines.

(** The rule names of the built-in checks. *)
Definition builtInRules : list string :=
  ["env-file-security"; "vulnerable-dependency"; "eval-usage"; "document-write";
   "console-log-sensitive"; "auth-bypass-pattern"; "hardcoded-admin";
   "data-exposure"; "sql-data-exposure"].

Section Scan.

(** [JSON.parse] is the runtime's.  [packageEntries content] is the
    list of keys of [{...dependencies, ...devDependencies}] of the
    parsed [content] in enumeration order, or [None] when parsing or
    reading them throws. *)
Variable packageEntries : string -> option (list string).

(** [checkPackageJson] *)
Definition checkPackageJson (filePath content : string) : list SecurityIssue.t :=
  match packageEntries content with
  | Some pkgs =>
      flat_map (fun pkg =>
        if JS.arrayIncludes pkg ["lodash"; "moment"; "request"; "underscore"]
        then [SecurityIssue.mk filePath None "vulnerable-dependency" warning
                ("Package " ++ pkg ++ " may have known vulnerabilities. Consider updating or replacing.")%string
                ("Run 'npm audit' to check for vulnerabilities and update " ++ pkg ++ " to the latest version")%string]
        else []) pkgs
  | None => []
  end.

(** [applyBuiltInSecurityChecks] *)
Definition applyBuiltInSecurityChecks (filePath content : string)
           (lines : list string) : list SecurityIssue.t :=
  (if JS.includes ".env" filePath then checkEnvironmentFile filePath lines else [])
  ++ (if JS.endsWith "package.json" filePath then checkPackageJson filePath content else [])
  ++ checkCommonAntiPatterns filePath lines
  ++ checkAuthenticationBypass filePath lines
  ++ checkDataExposure filePath lines.

(** [scanFile].  [content] is what [fs.readFileSync] returns, [None]
    when it throws: the error is logged and the scan of the file
    yields nothing. *)
Definition scanFile (context : ProjectContext.t) (filePath : string)
           (content : option string) : list SecurityIssue.t :=
  match content with
  | None => []
  | Some content =>
      let lines := JS.split JS.newline content in
      (match ProjectContext.security context with
       | Some sec =>
           match SecurityConfiguration.patterns sec with
           | Some patterns =>
               flat_map (applySecurityPattern filePath content lines) patterns
           | None => []
           end
       | None => []
       end)
      ++ applyBuiltInSecurityChecks filePath content lines
  end.

End Scan.

(** [fixHardcodedApiKey] and [fixInsecureHttp]: placeholders that
    report no fix. *)
Definition fixHardcodedApiKey (issue : SecurityIssue.t) : bool := false.

Definition fixInsecureHttp (issue : SecurityIssue.t) : bool := false.

(** [tryAutoFix] *)
Definition tryAutoFix (projectPath : string) (issue : SecurityIssue.t) : bool :=
  if String.eqb (SecurityIssue.rule issue) "hardcoded-api-key"
  then fixHardcodedApiKey issue
  else if String.eqb (SecurityIssue.rule issue) "insecure-http"
  then fixInsecureHttp issue
  else false.

(** [autoFixSecurityIssues]: the issues [tryAutoFix] reports fixed. *)
Definition autoFixSecurityIssues (projectPath : string) (issues : list SecurityIssue.t)
  : list SecurityIssue.t :=
  filter (tryAutoFix projectPath) issues.

(** [scanProjectConfiguration].  [gitignore] is [None] when
    [fs.existsSync] finds no .gitignore in the project, and otherwise
    what [fs.readFileSync] returns for it, [None] when it throws: the
    read is not guarded. *)
Definition scanProjectConfiguration (gitignore : option (option string))
  : Result (list SecurityIssue.t) :=
  match gitignore with
  | None =>
      Ok [SecurityIssue.mk ".gitignore" None "missing-gitignore" warning
            "Missing .gitignore file. Sensitive files may be accidentally committed."
            "Create .gitignore file with appropriate patterns for your project type"]
  | Some None => Throw "Error: cannot read .gitignore"
  | Some (Some gitignoreContent) =>
      if negb (JS.includes ".env" gitignoreContent)
      then Ok [SecurityIssue.mk ".gitignore" None "gitignore-env-missing" error
                 ".env files not ignored in .gitignore. Environment variables may be exposed."
                 "Add .env* to your .gitignore file"]
      else Ok []
  end.

(** [scanProject].  [files] is the list [getFilesToScan] returns, each
    path with what [fs.readFileSync] returns for it. *)
Definition scanProject (packageEntries : string -> option (list string))
           (context : ProjectContext.t) (files : list (string * option string))
           (gitignore : option (option string)) : Result (list SecurityIssue.t) :=
  let issues :=
    flat_map (fun file => scanFile packageEntries context (fst file) (snd file)) files in
  projectIssues <- scanProjectConfiguration gitignore ;;
  Ok (issues ++ projectIssues).

End SecurityValidator.



(* ================================================================== *)
(** * ContinuityChecker *)
(* ================================================================== *)

Module ContinuityChecker.
Import RegExp.

Record ComponentUsage : Type := mkComponentUsage {
  componentName : string; cu_file : string; cu_line : nat }.

Record RouteUsage : Type := mkRouteUsage {
  route : string; ru_file : string; ru_line : nat }.

Record AuthCall : Type := mkAuthCall {
  ac_type : string; endpoint : string; ac_file : string; ac_line : nat }.

(** What a run reads from the project directory.  [frontendFiles] is
    the result of [glob('**/*.{js,ts,jsx,tsx,vue}')] under the ignore
    list, each path with the text [fs.readFileSync] returns for it.
    The lexical discovery of components, routes and authentication
    calls is not modelled: the snapshot holds what [findComponentDefinitions],
    [findComponentUsages], [findRouteDefinitions], [findRouteUsages]
    and [findAuthenticationCalls] return. *)
Record Project : Type := mkProject {
  frontendFiles : list (string * string);
  definedComponents : list string;
  componentUsages : list ComponentUsage;
  definedRoutes : list string;
  routeUsages : list RouteUsage;
  authenticationCalls : list AuthCall
}.

Definition ws : regex := Star (Class false [CSpace]).                      (* \s* *)
Definition quote3 : regex := Class false [CChar "'"; CChar JS.dquote; CChar "`"].
Definition notQuote3 : regex := Class true [CChar "'"; CChar JS.dquote; CChar "`"].
(** ['<dq>`]([^'<dq>`]+)['<dq>`] *)
Definition quotedUrl : regex := SeqN [quote3; Plus notQuote3; quote3].
(** (get|post|put|delete|patch) *)
Definition verbs : regex :=
  AltN [Lit "get"; Lit "post"; Lit "put"; Lit "delete"; Lit "patch"].

(** /fetch\s*\(\s*['<dq>`]([^'<dq>`]+)['<dq>`]/g *)
Definition fetchCall : regex := SeqN [Lit "fetch"; ws; Chr "("; ws; quotedUrl].
(** /axios\.(get|post|put|delete|patch)\s*\(\s*['<dq>`]([^'<dq>`]+)['<dq>`]/g *)
Definition axiosCall : regex := SeqN [Lit "axios."; verbs; ws; Chr "("; ws; quotedUrl].
(** /api\.(get|post|put|delete|patch)\s*\(\s*['<dq>`]([^'<dq>`]+)['<dq>`]/g *)
Definition apiCall : regex := SeqN [Lit "api."; verbs; ws; Chr "("; ws; quotedUrl].

(** [content.match(re)] followed by [calls.push(...matches.map(...))]
    under [if (matches)]. *)
Definition callsOf (re : regex) (file content : string) : list string :=
  match RegExp.matchAll re false content with
  | Some ms => map (fun m => (file ++ ":" ++ m)%string) ms
  | None => []
  end.

(** [findFrontendApiCalls] *)
Definition findFrontendApiCalls (project : Project) : list string :=
  flat_map (fun fc : string * string =>
    let (file, content) := fc in
    callsOf fetchCall file content
    ++ callsOf axiosCall file content
    ++ callsOf apiCall file content) (frontendFiles project).

(** Text without its first code unit, and without its first and last. *)
Definition tail (s : string) : string := JS.drop 1 s.
Definition inner (s : string) : string := String.substring 1 (String.length s - 2) s.

(** [parseApiCall].  The first group of /\.(get|post|put|delete|patch)/i
    is the match without its dot; the first group of the quoted-text
    expression is the match without its quotes. *)
Definition parseApiCall (call : string) : string * string :=
  let methodMatch := RegExp.matchFirst (Seq (Chr ".") verbs) true call in
  let pathMatch := RegExp.matchFirst quotedUrl false call in
  (match methodMatch with
   | Some m => JS.toUpperCase (tail m)
   | None => "GET"
   end,
   match pathMatch with
   | Some m => inner m
   | None => EmptyString
   end).

(** [parseApiCallWithLocation]: [call.split(':')] gives [fileInfo] and
    [callInfo]; without a second part [callInfo] is undefined and
    [parseApiCall] throws on it. *)
Definition parseApiCallWithLocation (call : string)
  : Result (string * string * string * nat) :=
  match JS.split ":" call with
  | fileInfo :: callInfo :: _ =>
      let (method, path) := parseApiCall callInfo in
      Ok (method, path, fileInfo, 1)
  | _ => Throw "TypeError: Cannot read properties of undefined (reading 'match')"
  end.

Definition sameEndpoint (method path : string) (e : ApiEndpoint.t) : bool :=
  String.eqb (ApiEndpoint.path e) path && String.eqb (ApiEndpoint.method e) method.

Definition unmatchedCallIssue (file : string) (line : nat) (method path : string)
  : ContinuityIssue.t :=
  ContinuityIssue.mk api_mismatch
    (file ++ ":" ++ JS.numberToString line ++ " - " ++ method ++ " " ++ path)%string
    "No matching endpoint found"
    ("Frontend calls " ++ method ++ " " ++ path ++ " but no matching backend endpoint exists")%string
    ("Add " ++ method ++ " " ++ path ++ " endpoint to your backend or update the frontend call")%string.

Definition unusedEndpointIssue (e : ApiEndpoint.t) : ContinuityIssue.t :=
  ContinuityIssue.mk api_mismatch
    "No frontend usage found"
    (ApiEndpoint.method e ++ " " ++ ApiEndpoint.path e)%string
    ("Backend endpoint " ++ ApiEndpoint.method e ++ " " ++ ApiEndpoint.path e
       ++ " is not used by any frontend code")%string
    "Remove unused endpoint or add frontend usage if needed".

(** The first loop of [checkApiContinuity]. *)
Fixpoint unmatchedCalls (backendEndpoints : list ApiEndpoint.t) (calls : list string)
  : Result (list ContinuityIssue.t) :=
  match calls with
  | [] => Ok []
  | call :: rest =>
      loc <- parseApiCallWithLocation call ;;
      let '(method, path, file, line) := loc in
      more <- unmatchedCalls backendEndpoints rest ;;
      Ok ((match find (sameEndpoint method path) backendEndpoints with
           | Some _ => []
           | None => [unmatchedCallIssue file line method path]
           end) ++ more)
  end.

(** The second loop of [checkApiContinuity]. *)
Definition unusedEndpoints (backendEndpoints : list ApiEndpoint.t) (calls : list string)
  : list ContinuityIssue.t :=
  flat_map (fun e =>
    let isUsed := existsb (fun call =>
      let (method, path) := parseApiCall call in sameEndpoint method path e) calls in
    if isUsed then [] else [unusedEndpointIssue e]) backendEndpoints.

Section Checker.
Variable context : ProjectContext.t.

(** [checkApiContinuity] *)
Definition checkApiContinuity (project : Project) : Result (list ContinuityIssue.t) :=
  let frontendCalls := findFrontendApiCalls project in
  let backendEndpoints :=
    match ProjectContext.apiEndpoints context with Some es => es | None => [] end in
  unmatched <- unmatchedCalls backendEndpoints frontendCalls ;;
  Ok (unmatched ++ unusedEndpoints backendEndpoints frontendCalls).

(** [checkComponentContinuity] *)
Definition checkComponentContinuity (project : Project) : list ContinuityIssue.t :=
  flat_map (fun usage =>
    if JS.arrayIncludes (componentName usage) (definedComponents project) then []
    else [ContinuityIssue.mk component_missing
            (cu_file usage ++ ":" ++ JS.numberToString (cu_line usage)
               ++ " - Uses " ++ componentName usage)%string
            "Component definition not found"
            ("Component " ++ componentName usage ++ " is used but not defined")%string
            ("Create " ++ componentName usage ++ " component or check import path")%string])
    (componentUsages project).

(** [checkRouteContinuity] *)
Definition checkRouteContinuity (project : Project) : list ContinuityIssue.t :=
  flat_map (fun usage =>
    if JS.arrayIncludes (route usage) (definedRoutes project) then []
    else [ContinuityIssue.mk route_undefined
            (ru_file usage ++ ":" ++ JS.numberToString (ru_line usage)
               ++ " - Navigates to " ++ route usage)%string
            "Route definition not found"
            ("Navigation to " ++ route usage ++ " found but route is not defined")%string
            ("Define route " ++ route usage ++ " in your router configuration")%string])
    (routeUsages project).

(** [checkAuthenticationContinuity] *)
Definition checkAuthenticationContinuity (project : Project) : list ContinuityIssue.t :=
  match ProjectContext.authentication context with
  | None => []
  | Some auth =>
      if match AuthenticationConfiguration.type auth with
         | Some t => String.eqb t "none"
         | None => false
         end
      then []
      else
        let authEndpoints :=
          match ProjectContext.apiEndpoints context with
          | Some es =>
              filter (fun e => JS.includes "auth" (ApiEndpoint.path e)
                               || truthyBool (ApiEndpoint.authentication e)) es
          | None => []
          end in
        flat_map (fun call =>
          match find (fun e => String.eqb (ApiEndpoint.path e) (endpoint call)) authEndpoints with
          | Some _ => []
          | None =>
              [ContinuityIssue.mk auth_mismatch
                 (ac_file call ++ ":" ++ JS.numberToString (ac_line call) ++ " - "
                    ++ ac_type call ++ " call to " ++ endpoint call)%string
                 "Auth endpoint not found"
                 ("Frontend makes " ++ ac_type call ++ " call to " ++ endpoint call
                    ++ " but endpoint is not defined")%string
                 ("Add " ++ endpoint call ++ " authentication endpoint to your backend")%string]
          end) (authenticationCalls project)
  end.

(** [checkContinuity] *)
Definition checkContinuity (project : Project) : Result (list ContinuityIssue.t) :=
  apiIssues <- checkApiContinuity project ;;
  Ok (apiIssues
      ++ checkComponentContinuity project
      ++ checkRouteContinuity project
      ++ checkAuthenticationContinuity project).

(** [inferParameters] *)
Definition inferParameters (call : string) : list ApiParameter.t := [].

(** [shouldRequireAuth] *)
Definition shouldRequireAuth (path : string) : bool :=
  existsb (fun authPath => JS.includes authPath (JS.toLowerCase path))
          ["user"; "profile"; "dashboard"; "admin"; "account"].

(** [generateMissingEndpoints] *)
Definition generateMissingEndpoints (frontendCalls : list string) : list ApiEndpoint.t :=
  let existingPaths :=
    match ProjectContext.apiEndpoints context with
    | Some es => map ApiEndpoint.path es
    | None => []
    end in
  flat_map (fun call =>
    let (method, path) := parseApiCall call in
    if negb (String.eqb path EmptyString) && negb (JS.arrayIncludes path existingPaths)
    then [ApiEndpoint.mk path method
            (Some ("Auto-generated endpoint for " ++ path)%string)
            (Some (inferParameters call))
            (Some (shouldRequireAuth path))]
    else []) frontendCalls.

End Checker.

End ContinuityChecker.

(* ================================================================== *)
(** * ContextMemory *)
(* ================================================================== *)

Module ContextMemory.

(** An instance: the context it holds and mutates, and its cap
    (an integer). *)
Record t : Type := mk {
  context : ProjectContext.t;
  maxInteractions : Z
}.

(** [new ContextMemory(context)] and [new ContextMemory(context, cap)]. *)
Definition create (context : ProjectContext.t) (maxInteractions : option Z) : t :=
  mk context (match maxInteractions with Some n => n | None => 100%Z end).

Definition setContext (c : ProjectContext.t) (m : t) : t :=
  mk c (maxInteractions m).

(** [this.context.contextMemory?.aiInteractions] *)
Definition interactions (m : t) : option (list AiInteraction.t) :=
  match ProjectContext.contextMemory (context m) with
  | Some cm => ContextMemoryData.aiInteractions cm
  | None => None
  end.

(** [recordInteraction].  [now1] and [now2] are the two readings of
    the clock, for the interaction and for [lastUpdated]. *)
Definition recordInteraction (action contextInfo result : string)
           (metadata : option string) (now1 now2 : string) (m : t) : t :=
  let cm :=
    match ProjectContext.contextMemory (context m) with
    | Some cm => cm
    | None => ContextMemoryData.empty
    end in
  let old :=
    match ContextMemoryData.aiInteractions cm with
    | Some l => l
    | None => []
    end in
  let interaction := AiInteraction.mk now1 action contextInfo result metadata in
  let unshifted := interaction :: old in
  let kept :=
    if (maxInteractions m <? Z.of_nat (List.length unshifted))%Z
    then JS.slice0 (maxInteractions m) unshifted
    else unshifted in
  setContext
    (ProjectContext.setContextMemory
       (ContextMemoryData.mk (Some now2) (Some kept) (ContextMemoryData.codeGeneration cm))
       (context m)) m.

(** ** The action counts of [analyzeInteractionPatterns] *)

(** [actionCounts[a] = (actionCounts[a] || 0) + 1] on the entries of
    the object, kept in creation order.  The object is a literal: for
    an action named after a property inherited from [Object.prototype]
    the value read is the inherited one and the count is no number.
    The model covers the other actions, and the properties of the
    counts are stated for them ([Notions.inheritedKeys]). *)
Fixpoint increment (a : string) (counts : list (string * nat)) : list (string * nat) :=
  match counts with
  | [] => [(a, 1)]
  | (k, n) :: rest =>
      if String.eqb k a then (k, n + 1) :: rest else (k, n) :: increment a rest
  end.

Definition countActions (l : list AiInteraction.t) : list (string * nat) :=
  fold_left (fun counts i => increment (AiInteraction.action i) counts) l [].

Definition isDigit (c : ascii) : bool := JS.between 48 (JS.code c) 57.

Fixpoint digitsValue (acc : N) (s : string) : option N :=
  match s with
  | EmptyString => Some acc
  | String c s' =>
      if isDigit c
      then digitsValue (acc * 10 + N.of_nat (JS.code c - 48))%N s'
      else None
  end.

(** The array index a property key denotes, if it is the canonical
    decimal text of an integer below 2^32 - 1. *)
Definition arrayIndex (key : string) : option N :=
  match key with
  | EmptyString => None
  | String c rest =>
      if Ascii.eqb c "0" && negb (String.eqb rest EmptyString) then None
      else if 10 <? String.length key then None
      else match digitsValue 0%N key with
           | Some n => if (n <? 4294967295)%N then Some n else None
           | None => None
           end
  end.

Fixpoint insertIndex (e : N * (string * nat)) (l : list (N * (string * nat)))
  : list (N * (string * nat)) :=
  match l with
  | [] => [e]
  | x :: rest => if (fst e <? fst x)%N then e :: l else x :: insertIndex e rest
  end.

(** [Object.entries]: the array-index keys in ascending order, then the
    other keys in creation order. *)
Definition entries (counts : list (string * nat)) : list (string * nat) :=
  let indexed :=
    fold_right (fun kv acc =>
      match arrayIndex (fst kv) with
      | Some n => insertIndex (n, kv) acc
      | None => acc
      end) [] counts in
  map snd indexed
  ++ filter (fun kv => negb (isSome (arrayIndex (fst kv)))) counts.

(** [.sort(([, a], [, b]) => b - a)]: stable, by decreasing count. *)
Fixpoint insertByCount (e : string * nat) (l : list (string * nat))
  : list (string * nat) :=
  match l with
  | [] => [e]
  | x :: rest => if snd x <=? snd e then e :: l else x :: insertByCount e rest
  end.

Definition sortByCount (l : list (string * nat)) : list (string * nat) :=
  fold_right insertByCount [] l.

(** The [commonActions] of [analyzeInteractionPatterns]. *)
Definition commonActions (m : t) : list (string * nat) :=
  match interactions m with
  | None => []
  | Some [] => []
  | Some l => firstn 5 (sortByCount (entries (countActions l)))
  end.

(** The [switch (topAction.action)] of [generateSuggestions]. *)
Definition actionSuggestion (action : string) : list string :=
  if String.eqb action "component-creation"
  then ["Consider creating a component library for reusable components"]
  else if String.eqb action "api-endpoint-creation"
  then ["Consider implementing API documentation with Swagger/OpenAPI"]
  else if String.eqb action "security-fix"
  then ["Consider implementing automated security scanning in your CI/CD pipeline"]
  else if String.eqb action "database-model"
  then ["Consider setting up database migrations for schema changes"]
  else [].

Definition isEmpty {A} (o : option (list A)) : bool :=
  match o with
  | Some (_ :: _) => false
  | _ => true
  end.

(** [!this.context.authentication || this.context.authentication.type === 'none'] *)
Definition authMissingOrNone (c : ProjectContext.t) : bool :=
  match ProjectContext.authentication c with
  | None => true
  | Some a =>
      match AuthenticationConfiguration.type a with
      | Some t => String.eqb t "none"
      | None => false
      end
  end.

(** [this.context.security?.rules?.enforceHttps] *)
Definition enforceHttps (c : ProjectContext.t) : option bool :=
  match ProjectContext.securityRules c with
  | Some r => SecurityRules.enforceHttps r
  | None => None
  end.

(** The suggestions pushed by [generateSuggestions], before the final
    [slice]. *)
Definition allSuggestions (m : t) : list string :=
  let c := context m in
  (match commonActions m with
   | topAction :: _ => actionSuggestion (fst topAction)
   | [] => []
   end)
  ++ (if isEmpty (ProjectContext.apiEndpoints c)
      then ["Define your API endpoints in the project context for better continuity checking"]
      else [])
  ++ (if authMissingOrNone c
      then ["Consider implementing authentication for your application"]
      else [])
  ++ (if negb (truthyBool (enforceHttps c))
      then ["Enable HTTPS enforcement for production security"]
      else [])
  ++ (if isEmpty (ProjectContext.frontendComponents c)
      then ["Document your frontend components for better project understanding"]
      else [])
  ++ (if isEmpty (ProjectContext.databaseModels c)
      then ["Define your database models in the project context"]
      else []).

(** [generateSuggestions] *)
Definition generateSuggestions (m : t) : list string :=
  firstn 5 (allSuggestions m).

(** [this.context.deployment?.platform] *)
Definition platform (c : ProjectContext.t) : option string :=
  match ProjectContext.deployment c with
  | Some d => DeploymentConfiguration.platform d
  | None => None
  end.

(** The local [score] of [assessProjectMaturity] after its six updates. *)
Definition maturityScore (m : t) : nat :=
  let c := context m in
  let score := 0 in
  let score := if negb (isEmpty (ProjectContext.apiEndpoints c)) then score + 20 else score in
  let score := if negb (authMissingOrNone c) then score + 20 else score in
  let score := if truthyBool (enforceHttps c) then score + 15 else score in
  let score := if negb (isEmpty (ProjectContext.databaseModels c)) then score + 15 else score in
  let score := if negb (isEmpty (ProjectContext.frontendComponents c)) then score + 15 else score in
  let score := if truthyString (platform c) then score + 15 else score in
  score.

(** [assessProjectMaturity] *)
Definition assessProjectMaturity (m : t) : string :=
  let score := maturityScore m in
  if 80 <=? score then "mature"
  else if 50 <=? score then "developing"
  else if 25 <=? score then "early"
  else "initial".

(** [getRecentInteractions] *)
Definition getRecentInteractions (limit : option Z) (m : t) : list AiInteraction.t :=
  match interactions m with
  | None => []
  | Some l => JS.slice0 (match limit with Some n => n | None => 10%Z end) l
  end.

(** [getInteractionsByAction] *)
Definition getInteractionsByAction (action : string) (limit : option Z) (m : t)
  : list AiInteraction.t :=
  match interactions m with
  | None => []
  | Some l =>
      JS.slice0 (match limit with Some n => n | None => 10%Z end)
        (filter (fun interaction => String.eqb (AiInteraction.action interaction) action) l)
  end.

(** The fallback object of [getCodeGenerationPreferences]. *)
Definition defaultPreferences : Preferences.t :=
  Preferences.mk (Some "clean") (Some "moderate") (Some "comprehensive") (Some true).

(** [getCodeGenerationPreferences] *)
Definition getCodeGenerationPreferences (m : t) : Preferences.t :=
  match ProjectContext.contextMemory (context m) with
  | Some cm =>
      match ContextMemoryData.codeGeneration cm with
      | Some (Some preferences) => preferences
      | _ => defaultPreferences
      end
  | None => defaultPreferences
  end.

(** A key of the object spread [{...a, ...b}]: the value given in [b],
    be it [undefined], and the value of [a] when [b] has no such key. *)
Definition given {A} (x : option (option A)) (y : option A) : option A :=
  match x with
  | Some v => v
  | None => y
  end.

(** The object spread [{...a, ...b}]. *)
Definition spread (a : Preferences.t) (b : PreferencesUpdate.t) : Preferences.t :=
  Preferences.mk
    (given (PreferencesUpdate.codeStyle b) (Preferences.codeStyle a))
    (given (PreferencesUpdate.commentLevel b) (Preferences.commentLevel a))
    (given (PreferencesUpdate.errorHandling b) (Preferences.errorHandling a))
    (given (PreferencesUpdate.testGeneration b) (Preferences.testGeneration a)).

(** [updateCodeGenerationPreferences]; [now] is the reading of the
    clock. *)
Definition updateCodeGenerationPreferences (preferences : PreferencesUpdate.t)
           (now : string) (m : t) : t :=
  let cm :=
    match ProjectContext.contextMemory (context m) with
    | Some cm => cm
    | None => ContextMemoryData.empty
    end in
  setContext
    (ProjectContext.setContextMemory
       (ContextMemoryData.mk (Some now) (ContextMemoryData.aiInteractions cm)
          (Some (Some (spread (getCodeGenerationPreferences m) preferences))))
       (context m)) m.

(** [recommendNextSteps] *)
Definition recommendNextSteps (m : t) : list string :=
  let maturity := assessProjectMaturity m in
  if String.eqb maturity "initial" then
    ["Define your project structure and main components";
     "Set up basic authentication";
     "Create your first API endpoints"]
  else if String.eqb maturity "early" then
    ["Implement comprehensive security measures";
     "Add input validation and error handling";
     "Set up testing framework"]
  else if String.eqb maturity "developing" then
    ["Optimize performance and add caching";
     "Implement CI/CD pipeline";
     "Add monitoring and logging"]
  else if String.eqb maturity "mature" then
    ["Consider microservices architecture";
     "Implement advanced security features";
     "Add comprehensive documentation"]
  else [].

Section Cleanup.

(** [new Date(timestamp).getTime()] is the runtime's: [timeOf] gives
    the time value of a timestamp, [None] for an invalid date, which
    compares false with everything. *)
Variable timeOf : string -> option Z.



End Cleanup.

End ContextMemory.

(* ================================================================== *)
(** * ProjectContextManager *)
(* ================================================================== *)

Module ProjectContextManager.

(** An error object of the schema validator. *)
Record ErrorObject : Type := mkErrorObject {
  instancePath : string;
  eo_message : option string
}.

(** An instance.  The schema file and the schema validator are not
    part of the sources: [validate] stands for the function compiled
    from the loaded schema, [None] when the schema could not be
    loaded.  It returns the error objects it finds, none for a
    conforming context. *)
Record t : Type := mk {
  validate : option (ProjectContext.t -> list ErrorObject)
}.

(** [getDefaultSecurityPatterns] *)
Definition getDefaultSecurityPatterns : list SecurityPattern.t :=
  let ws := SecurityValidator.ws in
  let quote := SecurityValidator.quote in
  let notQuote := SecurityValidator.notQuote in
  let oneOf := SecurityValidator.oneOf in
  let word2 := SecurityValidator.word2 in
  let alnum := SecurityValidator.alnum in
  [ SecurityPattern.mk "hardcoded-api-key"
      (* (api[_-]?key|secret[_-]?key)\s*[=:]\s*[<dq>'][a-zA-Z0-9]{10,}[<dq>'] *)
      (RegExp.SeqN [RegExp.AltN [word2 "api" "key"; word2 "secret" "key"];
             ws; oneOf "=:"; ws; quote; RegExp.AtLeast 10 alnum; quote])
      error
      "Hardcoded API key detected. Use environment variables instead.";
    SecurityPattern.mk "hardcoded-password"
      (* password\s*[=:]\s*[<dq>'][^<dq>']+[<dq>'] *)
      (RegExp.SeqN [RegExp.Lit "password"; ws; oneOf "=:"; ws; quote;
                    RegExp.Plus notQuote; quote])
      error
      "Hardcoded password detected. Use secure configuration management.";
    SecurityPattern.mk "sql-injection-risk"
      (* (SELECT|INSERT|UPDATE|DELETE).*\+.*\$|\$\{.*\} *)
      (RegExp.Alt
         (RegExp.SeqN [RegExp.AltN [RegExp.Lit "SELECT"; RegExp.Lit "INSERT";
                                    RegExp.Lit "UPDATE"; RegExp.Lit "DELETE"];
                       RegExp.Star RegExp.AnyChar; RegExp.Chr "+";
                       RegExp.Star RegExp.AnyChar; RegExp.Chr "$"])
         (RegExp.SeqN [RegExp.Chr "$"; RegExp.Chr "{";
                       RegExp.Star RegExp.AnyChar; RegExp.Chr "}"]))
      error
      "Potential SQL injection vulnerability. Use parameterized queries.";
    SecurityPattern.mk "xss-vulnerability"
      (* innerHTML\s*=\s*[^<dq>']*\$|dangerouslySetInnerHTML *)
      (RegExp.Alt
         (RegExp.SeqN [RegExp.Lit "innerHTML"; ws; RegExp.Chr "="; ws;
                       RegExp.Star notQuote; RegExp.Chr "$"])
         (RegExp.Lit "dangerouslySetInnerHTML"))
      warning
      "Potential XSS vulnerability. Sanitize user input before rendering.";
    SecurityPattern.mk "insecure-http"
      (* http://(?!localhost|127\.0\.0\.1) *)
      (RegExp.Seq (RegExp.Lit "http://")
         (RegExp.NegLookahead (RegExp.AltN [RegExp.Lit "localhost"; RegExp.Lit "127.0.0.1"])))
      warning
      "Insecure HTTP protocol detected. Use HTTPS in production.";
    SecurityPattern.mk "credit-card-data"
      (* (credit[_-]?card|cc[_-]?number|card[_-]?number)\s*[=:] *)
      (RegExp.SeqN [RegExp.AltN [word2 "credit" "card"; word2 "cc" "number";
                                 word2 "card" "number"]; ws; oneOf "=:"])
      error
      "Credit card data handling detected. Ensure PCI DSS compliance.";
    SecurityPattern.mk "personal-data"
      (* (ssn|social[_-]?security|phone[_-]?number|email[_-]?address)\s*[=:] *)
      (RegExp.SeqN [RegExp.AltN [RegExp.Lit "ssn"; word2 "social" "security";
                                 word2 "phone" "number"; word2 "email" "address"];
                    ws; oneOf "=:"])
      warning
      "Personal data handling detected. Ensure GDPR/privacy compliance." ].

(** The errors pushed by the schema validation of [validateContext]. *)
Definition schemaErrors (mgr : t) (context : ProjectContext.t)
  : list ValidationError.t :=
  match validate mgr with
  | Some validate =>
      map (fun e =>
        ValidationError.mk
          (if String.eqb (instancePath e) EmptyString then "root" else instancePath e)
          (match eo_message e with
           | Some (String c s) => String c s
           | _ => "Unknown validation error"
           end)
          error None) (validate context)
  | None => []
  end.

(** The warnings of [validateBusinessLogic]: endpoints that require
    authentication while none is configured. *)
Definition endpointWarnings (context : ProjectContext.t) : list ValidationError.t :=
  match ProjectContext.apiEndpoints context, ProjectContext.authentication context with
  | Some endpoints, Some auth =>
      flat_map (fun endpoint =>
        if truthyBool (ApiEndpoint.authentication endpoint)
           && match AuthenticationConfiguration.type auth with
              | Some t => String.eqb t "none"
              | None => false
              end
        then [ValidationError.mk
                ("api.endpoints[" ++ ApiEndpoint.path endpoint ++ "]")%string
                "Endpoint requires authentication but no auth method is configured"
                warning
                (Some "Configure authentication or remove auth requirement from endpoint")]
        else []) endpoints
  | _, _ => []
  end.

(** [hasSensitiveData], on models as types.ts declares them: every model
    has its [fields] and every field its [name].  On data that lacks
    one, [model.fields.some] or [field.name.toLowerCase] throws, which
    the types of the model leave out. *)
Definition hasSensitiveData (models : list DatabaseModel.t) : bool :=
  existsb (fun model =>
    existsb (fun field =>
      existsb (fun sensitive =>
        JS.includes sensitive (JS.toLowerCase (DatabaseField.name field)))
        ["password"; "email"; "phone"; "ssn"; "credit_card"])
      (DatabaseModel.fields model)) models.

(** [context.security.rules]: reading [rules] of an absent [security]
    throws. *)
Definition securityRules (context : ProjectContext.t) : Result (option SecurityRules.t) :=
  match ProjectContext.security context with
  | Some sec => Ok (SecurityConfiguration.rules sec)
  | None => Throw "TypeError: Cannot read properties of undefined (reading 'rules')"
  end.

Definition ruleOf (f : SecurityRules.t -> option bool) (rules : option SecurityRules.t)
  : bool :=
  match rules with
  | Some r => truthyBool (f r)
  | None => false
  end.

(** The two errors [validateBusinessLogic] can push. *)
Definition inputSanitizationError : ValidationError.t :=
  ValidationError.mk "security.rules.inputSanitization"
    "Input sanitization must be enabled when handling sensitive data"
    error (Some "Enable inputSanitization in security rules").

Definition enforceHttpsError : ValidationError.t :=
  ValidationError.mk "security.rules.enforceHttps"
    "HTTPS must be enforced in production environment"
    error (Some "Enable enforceHttps in security rules").

(** [context.deployment?.environment?.production] *)
Definition production (context : ProjectContext.t) : option EnvironmentConfig.t :=
  match ProjectContext.deployment context with
  | Some d =>
      match DeploymentConfiguration.environment d with
      | Some e => DeploymentEnvironment.production e
      | None => None
      end
  | None => None
  end.

(** The errors of [validateBusinessLogic]: sensitive data without
    input sanitization, production without HTTPS. *)
Definition businessErrors (context : ProjectContext.t)
  : Result (list ValidationError.t) :=
  sensitive <-
    match ProjectContext.databaseModels context with
    | Some models =>
        if hasSensitiveData models then
          rules <- securityRules context ;;
          Ok (if negb (ruleOf SecurityRules.inputSanitization rules)
              then [inputSanitizationError]
              else [])
        else Ok []
    | None => Ok []
    end ;;
  production <-
    match production context with
    | Some _ =>
        rules <- securityRules context ;;
        Ok (if negb (ruleOf SecurityRules.enforceHttps rules)
            then [enforceHttpsError]
            else [])
    | None => Ok []
    end ;;
  Ok (sensitive ++ production).

(** [validateBusinessLogic]: what it appends to [errors] and to
    [warnings]. *)
Definition validateBusinessLogic (context : ProjectContext.t)
  : Result (list ValidationError.t * list ValidationError.t) :=
  let warnings := endpointWarnings context in
  errors <- businessErrors context ;;
  Ok (errors, warnings).

(** [validateContext] *)
Definition validateContext (mgr : t) (context : ProjectContext.t)
  : Result ValidationResult.t :=
  let errors := schemaErrors mgr context in
  business <- validateBusinessLogic context ;;
  let errors := errors ++ fst business in
  let warnings := snd business in
  Ok (ValidationResult.mk (Nat.eqb (List.length errors) 0) errors warnings).

(** [recordAiInteraction]; [now] is the reading of the clock. *)
Definition recordAiInteraction (context : ProjectContext.t)
           (action contextInfo result now : string) : ProjectContext.t :=
  let cm :=
    match ProjectContext.contextMemory context with
    | Some cm => cm
    | None => ContextMemoryData.empty
    end in
  let old :=
    match ContextMemoryData.aiInteractions cm with
    | Some l => l
    | None => []
    end in
  let pushed := old ++ [AiInteraction.mk now action contextInfo result None] in
  let kept := if 50 <? List.length pushed then JS.sliceLast 50 pushed else pushed in
  ProjectContext.setContextMemory
    (ContextMemoryData.mk (ContextMemoryData.lastUpdated cm) (Some kept)
       (ContextMemoryData.codeGeneration cm))
    context.

End ProjectContextManager.

(* ================================================================== *)
(** * Sequences of recorded interactions *)
(* ================================================================== *)

(** The arguments of one call of [recordInteraction], with the two
    clock readings the call makes. *)
Record Call : Type := mkCall {
  call_action : string;
  call_context : string;
  call_result : string;
  call_metadata : option string;
  call_now1 : string;
  call_now2 : string
}.

Module Run.

(** The interaction a call of [ContextMemory.recordInteraction]
    builds. *)
Definition interactionOf (c : Call) : AiInteraction.t :=
  AiInteraction.mk (call_now1 c) (call_action c) (call_context c)
                   (call_result c) (call_metadata c).

Definition record (m : ContextMemory.t) (c : Call) : ContextMemory.t :=
  ContextMemory.recordInteraction (call_action c) (call_context c) (call_result c)
    (call_metadata c) (call_now1 c) (call_now2 c) m.

(** The calls of a sequence, one after the other. *)
Definition recordAll (calls : list Call) (m : ContextMemory.t) : ContextMemory.t :=
  fold_left record calls m.

(** The stored list, [[]] when there is none. *)
Definition stored (c : ProjectContext.t) : list AiInteraction.t :=
  match ProjectContext.contextMemory c with
  | Some {| ContextMemoryData.aiInteractions := Some l |} => l
  | _ => []
  end.

Definition lastUpdated (c : ProjectContext.t) : option string :=
  match ProjectContext.contextMemory c with
  | Some cm => ContextMemoryData.lastUpdated cm
  | None => None
  end.

(** The interaction a call of [ProjectContextManager.recordAiInteraction]
    builds: it has no metadata and reads the clock once. *)
Definition aiInteractionOf (c : Call) : AiInteraction.t :=
  AiInteraction.mk (call_now1 c) (call_action c) (call_context c)
                   (call_result c) None.

Definition recordAi (ctx : ProjectContext.t) (c : Call) : ProjectContext.t :=
  ProjectContextManager.recordAiInteraction ctx
    (call_action c) (call_context c) (call_result c) (call_now1 c).

Definition recordAiAll (calls : list Call) (ctx : ProjectContext.t) : ProjectContext.t :=
  fold_left recordAi calls ctx.

End Run.

(* ================================================================== *)
(** * Vocabulary of the properties *)
(* ================================================================== *)

(** One of the two default pattern sets of the sources. *)
Definition isDefaultSet (patterns : list SecurityPattern.t) : Prop :=
  patterns = SecurityValidator.getDefaultPatterns
  \/ patterns = ProjectContextManager.getDefaultSecurityPatterns.

Module Reconcile.



(** The declared endpoints of a context. *)
Definition declared (context : ProjectContext.t) : list ApiEndpoint.t :=
  match ProjectContext.apiEndpoints context with
  | Some es => es
  | None => []
  end.

(** The call string [findFrontendApiCalls] builds for a match in a
    file. *)
Definition callSite (file matched : string) : string :=
  (file ++ ":" ++ matched)%string.

(** A call has a declared match: an endpoint with its method and its
    path, the test [checkApiContinuity] makes. *)
Definition hasDeclaredMatch (context : ProjectContext.t) (call : string) : bool :=
  let (method, path) := ContinuityChecker.parseApiCall call in
  existsb (ContinuityChecker.sameEndpoint method path) (declared context).

(** The path of a call is that of no declared endpoint, whatever the
    method, and is not empty. *)
Definition pathUndeclared (context : ProjectContext.t) (call : string) : bool :=
  let path := snd (ContinuityChecker.parseApiCall call) in
  negb (String.eqb path EmptyString)
  && negb (existsb (fun e => String.eqb path (ApiEndpoint.path e)) (declared context)).

(** The keywords of the authentication heuristic. *)
Definition authKeywords : list string :=
  ["user"; "profile"; "dashboard"; "admin"; "account"].

(** The endpoint synthesized for a call. *)
Definition synthesized (call : string) : ApiEndpoint.t :=
  let (method, path) := ContinuityChecker.parseApiCall call in
  ApiEndpoint.mk path method
    (Some ("Auto-generated endpoint for " ++ path)%string)
    (Some [])
    (Some (existsb (fun kw => JS.includes kw (JS.toLowerCase path)) authKeywords)).

End Reconcile.

(* ================================================================== *)
(** * The facets and the rules, as the specification names them *)
(* ================================================================== *)

(** The six facets of a context, each read off the fields of the
    context itself. *)
Module Criteria.

(** Endpoints present: the api section lists at least one endpoint. *)
Definition endpointsPresent (c : ProjectContext.t) : bool :=
  match ProjectContext.api c with
  | Some {| ApiConfiguration.endpoints := Some (_ :: _) |} => true
  | _ => false
  end.

(** Authentication configured other than none: there is an
    authentication section and its type is not the text none. *)
Definition authConfigured (c : ProjectContext.t) : bool :=
  match ProjectContext.authentication c with
  | Some {| AuthenticationConfiguration.type := Some t |} => negb (String.eqb t "none")
  | Some {| AuthenticationConfiguration.type := None |} => true
  | None => false
  end.

(** HTTPS enforced: the security rules hold [enforceHttps: true]. *)
Definition httpsEnforced (c : ProjectContext.t) : bool :=
  match ProjectContext.security c with
  | Some {| SecurityConfiguration.rules :=
              Some {| SecurityRules.enforceHttps := Some true |} |} => true
  | _ => false
  end.

(** Database models present: the database section lists at least one
    model. *)
Definition modelsPresent (c : ProjectContext.t) : bool :=
  match ProjectContext.database c with
  | Some {| DatabaseConfiguration.models := Some (_ :: _) |} => true
  | _ => false
  end.

(** Frontend components present: the frontend section lists at least
    one component. *)
Definition componentsPresent (c : ProjectContext.t) : bool :=
  match ProjectContext.frontend c with
  | Some {| FrontendConfiguration.components := Some (_ :: _) |} => true
  | _ => false
  end.

(** Deployment platform set: the deployment section names a platform,
    a text that is not empty. *)
Definition platformSet (c : ProjectContext.t) : bool :=
  match ProjectContext.deployment c with
  | Some {| DeploymentConfiguration.platform := Some (String _ _) |} => true
  | _ => false
  end.

(** The facets with their weights. *)
Definition weights : list ((ProjectContext.t -> bool) * nat) :=
  [ (endpointsPresent, 20); (authConfigured, 20); (httpsEnforced, 15);
    (modelsPresent, 15); (componentsPresent, 15); (platformSet, 15) ].

(** The sum of the weights of the facets that hold. *)
Definition score (c : ProjectContext.t) : nat :=
  list_sum (map (fun fw : (ProjectContext.t -> bool) * nat =>
                   if fst fw c then snd fw else 0) weights).

(** Every facet that holds of [c] holds of [c']. *)
Definition le (c c' : ProjectContext.t) : Prop :=
  forall fw : (ProjectContext.t -> bool) * nat,
    In fw weights -> fst fw c = true -> fst fw c' = true.

End Criteria.

Module Suggestions.

(** The suggestion attached to an action. *)
Definition ofAction : list (string * string) :=
  [ ("component-creation",
     "Consider creating a component library for reusable components");
    ("api-endpoint-creation",
     "Consider implementing API documentation with Swagger/OpenAPI");
    ("security-fix",
     "Consider implementing automated security scanning in your CI/CD pipeline");
    ("database-model",
     "Consider setting up database migrations for schema changes") ].

Fixpoint lookup (key : string) (table : list (string * string)) : option string :=
  match table with
  | [] => None
  | (k, v) :: rest => if String.eqb key k then Some v else lookup key rest
  end.

(** What the most-frequent-action rule suggests when the action is
    [action]: its suggestion, if it has one. *)
Definition forAction (action : string) : list string :=
  match lookup action ofAction with
  | Some suggestion => [suggestion]
  | None => []
  end.

(** The completeness rules in their order: what is missing, and the
    suggestion made for it. *)
Definition completeness : list ((ProjectContext.t -> bool) * string) :=
  [ (fun c => negb (Criteria.endpointsPresent c),
     "Define your API endpoints in the project context for better continuity checking");
    (fun c => negb (Criteria.authConfigured c),
     "Consider implementing authentication for your application");
    (fun c => negb (Criteria.httpsEnforced c),
     "Enable HTTPS enforcement for production security");
    (fun c => negb (Criteria.componentsPresent c),
     "Document your frontend components for better project understanding");
    (fun c => negb (Criteria.modelsPresent c),
     "Define your database models in the project context") ].

(** The suggestions of the completeness rules that fire, in order. *)
Definition missing (c : ProjectContext.t) : list string :=
  map snd (filter (fun rule : (ProjectContext.t -> bool) * string => fst rule c)
                  completeness).

(** Nothing is missing from the context. *)
Definition nothingMissing (c : ProjectContext.t) : bool :=
  forallb (fun rule : (ProjectContext.t -> bool) * string => negb (fst rule c))
          completeness.

End Suggestions.

(* ================================================================== *)
(** * The facets of the maturity score *)
(* ================================================================== *)

Module Facet.

(** The six facets of a context the score counts, as
    [assessProjectMaturity] tests them. *)
Definition endpointsPresent (c : ProjectContext.t) : bool :=
  negb (ContextMemory.isEmpty (ProjectContext.apiEndpoints c)).
Definition authConfigured (c : ProjectContext.t) : bool :=
  negb (ContextMemory.authMissingOrNone c).
Definition httpsEnforced (c : ProjectContext.t) : bool :=
  truthyBool (ContextMemory.enforceHttps c).
Definition modelsPresent (c : ProjectContext.t) : bool :=
  negb (ContextMemory.isEmpty (ProjectContext.databaseModels c)).
Definition componentsPresent (c : ProjectContext.t) : bool :=
  negb (ContextMemory.isEmpty (ProjectContext.frontendComponents c)).
Definition platformSet (c : ProjectContext.t) : bool :=
  truthyString (ContextMemory.platform c).

Definition all : list (ProjectContext.t -> bool) :=
  [endpointsPresent; authConfigured; httpsEnforced;
   modelsPresent; componentsPresent; platformSet].

Definition weight (b : bool) (w : nat) : nat := if b then w else 0.

End Facet.

(* ================================================================== *)
(** * Vocabulary of the further properties *)
(* ================================================================== *)

Module Notions.

(** The patterns a context declares. *)
Definition declaredPatterns (context : ProjectContext.t) : list SecurityPattern.t :=
  match ProjectContext.security context with
  | Some sec =>
      match SecurityConfiguration.patterns sec with
      | Some patterns => patterns
      | None => []
      end
  | None => []
  end.

(** The issues of a rule among those reported. *)
Definition ofRule (rule : string) (issues : list SecurityIssue.t) : list SecurityIssue.t :=
  filter (fun issue => String.eqb (SecurityIssue.rule issue) rule) issues.

(** The files of a scan that can be read. *)
Definition readable (files : list (string * option string)) : list (string * option string) :=
  filter (fun file => isSome (snd file)) files.

(** The methods [parseApiCall] can return. *)
Definition callMethods : list string := ["GET"; "POST"; "PUT"; "DELETE"; "PATCH"].

(** A context with further endpoints declared after its own. *)
Definition withMoreEndpoints (endpoints : list ApiEndpoint.t) (context : ProjectContext.t)
  : ProjectContext.t :=
  ProjectContext.mk (ProjectContext.project context)
    (Some (ApiConfiguration.mk
             (match ProjectContext.api context with
              | Some a => ApiConfiguration.baseUrl a | None => None end)
             (match ProjectContext.api context with
              | Some a => ApiConfiguration.version a | None => None end)
             (Some (Reconcile.declared context ++ endpoints))))
    (ProjectContext.security context) (ProjectContext.authentication context)
    (ProjectContext.database context) (ProjectContext.frontend context)
    (ProjectContext.deployment context) (ProjectContext.contextMemory context).

(** How many of the interactions have the action. *)
Definition occurrences (action : string) (l : list AiInteraction.t) : nat :=
  List.length (filter (fun i => String.eqb (AiInteraction.action i) action) l).

(** How many of the six facets hold. *)
Definition facetCount (c : ProjectContext.t) : nat :=
  List.length (filter (fun f => f c) Facet.all).

(** The authentication type is the string none. *)
Definition authIsNone (c : ProjectContext.t) : bool :=
  match ProjectContext.authentication c with
  | Some a =>
      match AuthenticationConfiguration.type a with
      | Some t => String.eqb t "none"
      | None => false
      end
  | None => false
  end.

(** The endpoints of a context that require authentication. *)
Definition protectedEndpoints (c : ProjectContext.t) : list ApiEndpoint.t :=
  filter (fun e => truthyBool (ApiEndpoint.authentication e)) (Reconcile.declared c).

(** A security rule of a context is switched on. *)
Definition ruleOn (f : SecurityRules.t -> option bool) (c : ProjectContext.t) : bool :=
  match ProjectContext.securityRules c with
  | Some r => truthyBool (f r)
  | None => false
  end.

(** The context has a model with a sensitive field name. *)
Definition sensitive (c : ProjectContext.t) : bool :=
  match ProjectContext.databaseModels c with
  | Some models => ProjectContextManager.hasSensitiveData models
  | None => false
  end.

(** The issue [scanProjectConfiguration] reports for a project without
    a .gitignore, and for a .gitignore that does not name the .env files. *)
Definition missingGitignoreIssue : SecurityIssue.t :=
  SecurityIssue.mk ".gitignore" None "missing-gitignore" warning
    "Missing .gitignore file. Sensitive files may be accidentally committed."
    "Create .gitignore file with appropriate patterns for your project type".

Definition gitignoreEnvIssue : SecurityIssue.t :=
  SecurityIssue.mk ".gitignore" None "gitignore-env-missing" error
    ".env files not ignored in .gitignore. Environment variables may be exposed."
    "Add .env* to your .gitignore file".

(** The property names every object inherits from [Object.prototype]:
    read on an object that has no such key of its own, they give the
    inherited value and not [undefined]. *)
Definition inheritedKeys : list string :=
  ["constructor"; "__defineGetter__"; "__defineSetter__"; "hasOwnProperty";
   "__lookupGetter__"; "__lookupSetter__"; "isPrototypeOf"; "propertyIsEnumerable";
   "toString"; "valueOf"; "__proto__"; "toLocaleString"].

(** The count a table of counts holds for an action, 0 for none. *)
Fixpoint countOf (action : string) (counts : list (string * nat)) : nat :=
  match counts with
  | [] => 0
  | (k, n) :: rest => if String.eqb k action then n else countOf action rest
  end.

(** By decreasing count. *)
Definition byCount (x y : string * nat) : Prop := snd y <= snd x.

(** An action that occurs most often among the interactions. *)
Definition mostFrequent (action : string) (l : list AiInteraction.t) : Prop :=
  1 <= occurrences action l /\ forall other, occurrences other l <= occurrences action l.

(** Some model of the context has a field whose name, in lower case,
    contains one of the five sensitive terms. *)
Definition sensitiveTerms : list string :=
  ["password"; "email"; "phone"; "ssn"; "credit_card"].

Definition hasSensitiveField (c : ProjectContext.t) : Prop :=
  exists d models model field term,
    ProjectContext.database c = Some d
    /\ DatabaseConfiguration.models d = Some models
    /\ In model models
    /\ In field (DatabaseModel.fields model)
    /\ In term sensitiveTerms
    /\ JS.includes term (JS.toLowerCase (DatabaseField.name field)) = true.

(** The context declares a production environment. *)
Definition productionDeclared (c : ProjectContext.t) : Prop :=
  exists d env production,
    ProjectContext.deployment c = Some d
    /\ DeploymentConfiguration.environment d = Some env
    /\ DeploymentEnvironment.production env = Some production.

End Notions.

(* ================================================================== *)
(** * Concrete contexts, files and calls *)
(* ================================================================== *)

Module Sample.

Definition emptyContext : ProjectContext.t :=
  ProjectContext.mk (ProjectInfo.mk (Some "demo") None (Some "web-app"))
    None None None None None None None.

Definition call1 : Call := mkCall "security-fix" "scan" "fixed" None "t1" "t2".
Definition call2 : Call := mkCall "component-creation" "form" "done" None "t3" "t4".

(** A context that declares every facet the maturity score counts. *)
Definition fullRules : SecurityRules.t :=
  SecurityRules.mk (Some true) (Some true) (Some true) (Some true)
                   (Some true) (Some true) (Some true) (Some true).

Definition completeContext : ProjectContext.t :=
  ProjectContext.mk (ProjectInfo.mk (Some "shop") None (Some "web-app"))
    (Some (ApiConfiguration.mk None None
             (Some [ApiEndpoint.mk "/api/products" "GET" None None None])))
    (Some (SecurityConfiguration.mk (Some fullRules) None))
    (Some (AuthenticationConfiguration.mk (Some "jwt")))
    (Some (DatabaseConfiguration.mk None
             (Some [DatabaseModel.mk "Product"
                      [DatabaseField.mk "title" "string" None None]])))
    (Some (FrontendConfiguration.mk
             (Some [FrontendComponent.mk "Cart" "src/Cart.tsx"])))
    (Some (DeploymentConfiguration.mk None (Some "vercel")))
    None.

(** The same context with authentication set to none. *)
Definition noAuthContext : ProjectContext.t :=
  ProjectContext.mk (ProjectContext.project completeContext)
    (ProjectContext.api completeContext)
    (ProjectContext.security completeContext)
    (Some (AuthenticationConfiguration.mk (Some "none")))
    (ProjectContext.database completeContext)
    (ProjectContext.frontend completeContext)
    (ProjectContext.deployment completeContext)
    None.

(** A context without a security section, with a model that has a
    password field. *)
Definition userModel : DatabaseModel.t :=
  DatabaseModel.mk "User"
    [DatabaseField.mk "id" "number" None None;
     DatabaseField.mk "password" "string" None None].

Definition noSecurityContext : ProjectContext.t :=
  ProjectContext.mk (ProjectInfo.mk (Some "demo") None (Some "web-app"))
    None None None
    (Some (DatabaseConfiguration.mk None (Some [userModel])))
    None None None.

(** Security rules with input sanitization switched off. *)
Definition unsanitizedRules : SecurityRules.t :=
  SecurityRules.mk (Some false) (Some false) None None None None None None.

(** A context with a password field and input sanitization off. *)
Definition unsanitizedContext : ProjectContext.t :=
  ProjectContext.mk (ProjectInfo.mk (Some "demo") None (Some "web-app"))
    None (Some (SecurityConfiguration.mk (Some unsanitizedRules) None)) None
    (Some (DatabaseConfiguration.mk None (Some [userModel])))
    None None None.

(** The same, deployed to production. *)
Definition unsanitizedProductionContext : ProjectContext.t :=
  ProjectContext.mk (ProjectInfo.mk (Some "demo") None (Some "web-app"))
    None (Some (SecurityConfiguration.mk (Some unsanitizedRules) None)) None
    (Some (DatabaseConfiguration.mk None (Some [userModel])))
    None
    (Some (DeploymentConfiguration.mk
             (Some (DeploymentEnvironment.mk None
                      (Some (EnvironmentConfig.mk (Some 443) None None))))
             None))
    None.

(** A manager whose schema could not be loaded. *)
Definition noSchema : ProjectContextManager.t := ProjectContextManager.mk None.

(** The line of the end-to-end scenario, and the same line with the
    underscores of its value removed. *)
Definition stripeKeyLine : string :=
  ("const apiKey = " ++ JS.quoted "sk_live_abcdef1234567890" ++ ";")%string.

Definition plainKeyLine : string :=
  ("const apiKey = " ++ JS.quoted "skliveabcdef1234567890" ++ ";")%string.

(** A context whose security section declares the given patterns. *)
Definition withPatterns (patterns : list SecurityPattern.t) : ProjectContext.t :=
  ProjectContext.mk (ProjectInfo.mk (Some "demo") None (Some "web-app"))
    None (Some (SecurityConfiguration.mk (Some fullRules) (Some patterns)))
    None None None None None.

(** A file of three lines, the second one holding the key. *)
Definition keyFile : string :=
  ("// settings" ++ String JS.newline plainKeyLine
     ++ String JS.newline "export default apiKey;")%string.

(** A file of two lines that each hold a hard-coded password. *)
Definition passwordLine1 : string := "const dbPassword = 'hunter22';".
Definition passwordLine2 : string := "password='abc'".

Definition passwordFile : string :=
  (passwordLine1 ++ String JS.newline passwordLine2)%string.

(** The hard-coded password pattern of [SecurityValidator]. *)
Definition passwordPattern : SecurityPattern.t :=
  nth 1 SecurityValidator.getDefaultPatterns
      (SecurityPattern.mk EmptyString RegExp.Empty info EmptyString).

(** No package.json is involved. *)
Definition noPackage : string -> option (list string) := fun _ => None.

(** The endpoint of the continuity scenario, and a context that
    declares exactly it. *)
Definition productsEndpoint : ApiEndpoint.t :=
  ApiEndpoint.mk "/api/products" "GET" (Some "List products") None None.

Definition withEndpoints (endpoints : list ApiEndpoint.t) : ProjectContext.t :=
  ProjectContext.mk (ProjectInfo.mk (Some "shop") None (Some "web-app"))
    (Some (ApiConfiguration.mk None None (Some endpoints)))
    None None None None None None.


(** A project whose only call is a fetch of the products. *)
Definition fetchingProject (file : string) : ContinuityChecker.Project :=
  ContinuityChecker.mkProject
    [(file, "const r = await fetch('/api/products');")] [] [] [] [] [].

(** The users endpoint, declared for GET only. *)
Definition usersEndpoint : ApiEndpoint.t :=
  ApiEndpoint.mk "/api/users" "GET" None None None.




(** Two discovered calls, and the endpoint synthesized for the first. *)
Definition discoveredCalls : list string :=
  ["src/Profile.tsx:fetch('/api/profile'"; "src/Shop.tsx:fetch('/api/products'"].

Definition profileEndpoint : ApiEndpoint.t :=
  ApiEndpoint.mk "/api/profile" "GET"
    (Some "Auto-generated endpoint for /api/profile") (Some []) (Some true).

(** A context with an empty security section and nothing else. *)
Definition emptySectionsContext : ProjectContext.t :=
  ProjectContext.mk (ProjectInfo.mk (Some "demo") None (Some "web-app"))
    None (Some (SecurityConfiguration.mk None None)) None None None None None.

(** A context that declares the default patterns of [SecurityValidator],
    and one of its issues on the password file. *)
Definition defaultsContext : ProjectContext.t :=
  withPatterns SecurityValidator.getDefaultPatterns.

Definition passwordIssue : SecurityIssue.t :=
  SecurityIssue.mk "config.js" (Some 1) "hardcoded-password" error
    "Hardcoded password detected. Use secure configuration management."
    "Use environment variables and bcrypt for password hashing".

(** Two files of a scan, the second one unreadable. *)
Definition scannedFiles : list (string * option string) :=
  [("/app/config.js", Some passwordFile); ("/app/secret.env", None)].


(** An endpoint declared with a method no call can have. *)
Definition healthEndpoint : ApiEndpoint.t :=
  ApiEndpoint.mk "/api/products" "HEAD" None None None.


(** A context whose orders endpoint requires authentication while the
    authentication type is none. *)
Definition ordersEndpoint : ApiEndpoint.t :=
  ApiEndpoint.mk "/api/orders" "POST" None None (Some true).

Definition protectedContext : ProjectContext.t :=
  ProjectContext.mk (ProjectInfo.mk (Some "shop") None (Some "web-app"))
    (Some (ApiConfiguration.mk None None (Some [productsEndpoint; ordersEndpoint])))
    (Some (SecurityConfiguration.mk (Some fullRules) None))
    (Some (AuthenticationConfiguration.mk (Some "none")))
    None None None None.

(** Three interactions stored newest first, the oldest a security fix. *)
Definition threeStored : ProjectContext.t :=
  ContextMemory.context
    (Run.recordAll [call1; call2; call2] (ContextMemory.create emptyContext None)).


(** The context without a security section, given an empty one. *)
Definition guardedContext : ProjectContext.t :=
  ProjectContext.mk (ProjectContext.project noSecurityContext)
    (ProjectContext.api noSecurityContext)
    (Some (SecurityConfiguration.mk None None))
    (ProjectContext.authentication noSecurityContext)
    (ProjectContext.database noSecurityContext)
    (ProjectContext.frontend noSecurityContext)
    (ProjectContext.deployment noSecurityContext)
    (ProjectContext.contextMemory noSecurityContext).


(** A context without a security section and without models, deployed
    to production. *)
Definition unguardedProductionContext : ProjectContext.t :=
  ProjectContext.mk (ProjectInfo.mk (Some "demo") None (Some "web-app"))
    None None None None None
    (Some (DeploymentConfiguration.mk
             (Some (DeploymentEnvironment.mk None
                      (Some (EnvironmentConfig.mk (Some 443) None None))))
             None))
    None.

End Sample.

(* ================================================================== *)
(** * Properties of ContextMemory.recordInteraction *)
(* ================================================================== *)

Section RecordInteraction.

Lemma recordAll_snoc calls call m :
  Run.recordAll (calls ++ [call]) m = Run.record (Run.recordAll calls m) call.
Proof. unfold Run.recordAll. now rewrite fold_left_app. Qed.

Lemma record_cap m call :
  ContextMemory.maxInteractions (Run.record m call) = ContextMemory.maxInteractions m.
Proof. reflexivity. Qed.

Lemma recordAll_cap calls : forall m,
  ContextMemory.maxInteractions (Run.recordAll calls m) = ContextMemory.maxInteractions m.
Proof.
  induction calls as [|c calls IH]; intro m; simpl.
  - reflexivity.
  - unfold Run.recordAll in IH. rewrite IH. apply record_cap.
Qed.

Lemma slice0_pos {A} (cap : Z) (l : list A) :
  (0 <= cap)%Z -> JS.slice0 cap l = firstn (Z.to_nat cap) l.
Proof.
  intro H. unfold JS.slice0.
  destruct (cap <? 0)%Z eqn:E; [apply Z.ltb_lt in E; lia|].
  destruct (Z.min_spec cap (Z.of_nat (List.length l))) as [[_ ->]|[Hle ->]].
  - reflexivity.
  - rewrite Nat2Z.id. rewrite firstn_all.
    symmetry. apply firstn_all2. lia.
Qed.

(** One call, from any state: the stored list is the new interaction
    followed by the old ones, cut to the cap. *)
Lemma record_stored m call :
  (0 <= ContextMemory.maxInteractions m)%Z ->
  Run.stored (ContextMemory.context (Run.record m call))
  = firstn (Z.to_nat (ContextMemory.maxInteractions m))
           (Run.interactionOf call :: Run.stored (ContextMemory.context m)).
Proof.
  intro Hcap.
  unfold Run.record, ContextMemory.recordInteraction, Run.stored. simpl.
  set (old := match ContextMemoryData.aiInteractions _ with Some l => l | None => [] end).
  assert (Hold : old = match ProjectContext.contextMemory (ContextMemory.context m) with
                       | Some {| ContextMemoryData.aiInteractions := Some l |} => l
                       | _ => []
                       end).
  { subst old. destruct (ProjectContext.contextMemory (ContextMemory.context m)) as [[? [l|] ?]|];
      reflexivity. }
  rewrite <- Hold. fold (Run.interactionOf call).
  destruct (ContextMemory.maxInteractions m <? _)%Z eqn:E.
  - now apply slice0_pos.
  - apply Z.ltb_ge in E. symmetry. apply firstn_all2. simpl in *. lia.
Qed.

Lemma record_lastUpdated m call :
  Run.lastUpdated (ContextMemory.context (Run.record m call)) = Some (call_now2 call).
Proof. reflexivity. Qed.

End RecordInteraction.

(** C3, as amended.  For every cap of at least 1, every initial context
    and every sequence of [recordInteraction] calls, after each call
    (the last of any non-empty prefix): the stored list is the
    interaction of that call followed by the entries stored before, cut
    to its first [cap] entries, so the entries evicted are the oldest,
    at the tail; its length is at most the cap; its first element is the
    interaction of that call; and [lastUpdated] is the time the call
    read. *)
Theorem recordInteraction_bounded_newest_first :
  forall (cap : Z) (ctx : ProjectContext.t) (calls : list Call) (call : Call),
    (1 <= cap)%Z ->
    let before := Run.recordAll calls (ContextMemory.create ctx (Some cap)) in
    let after := Run.recordAll (calls ++ [call]) (ContextMemory.create ctx (Some cap)) in
    Run.stored (ContextMemory.context after)
    = firstn (Z.to_nat cap)
             (Run.interactionOf call :: Run.stored (ContextMemory.context before))
    /\ (Z.of_nat (List.length (Run.stored (ContextMemory.context after))) <= cap)%Z
    /\ hd_error (Run.stored (ContextMemory.context after)) = Some (Run.interactionOf call)
    /\ Run.lastUpdated (ContextMemory.context after) = Some (call_now2 call).
Proof.
  intros cap ctx calls call Hcap before after.
  assert (Hmax : ContextMemory.maxInteractions before = cap).
  { subst before. now rewrite recordAll_cap. }
  assert (Hst : Run.stored (ContextMemory.context after)
                = firstn (Z.to_nat cap)
                    (Run.interactionOf call :: Run.stored (ContextMemory.context before))).
  { subst after. rewrite recordAll_snoc. fold before.
    rewrite record_stored by lia. now rewrite Hmax. }
  split; [exact Hst|]. split; [|split].
  - rewrite Hst. rewrite length_firstn. lia.
  - rewrite Hst. destruct (Z.to_nat cap) as [|n] eqn:E; [lia|]. reflexivity.
  - subst after. rewrite recordAll_snoc. apply record_lastUpdated.
Qed.

Lemma recordInteraction_bounded_newest_first_witness :
  let before := Run.recordAll [Sample.call1] (ContextMemory.create Sample.emptyContext (Some 1%Z)) in
  let after := Run.recordAll ([Sample.call1] ++ [Sample.call2]) (ContextMemory.create Sample.emptyContext (Some 1%Z)) in
  (1 <= 1)%Z
  /\ Run.stored (ContextMemory.context after)
     = firstn (Z.to_nat 1)
              (Run.interactionOf Sample.call2 :: Run.stored (ContextMemory.context before))
  /\ (Z.of_nat (List.length (Run.stored (ContextMemory.context after))) <= 1)%Z
  /\ hd_error (Run.stored (ContextMemory.context after))
     = Some (Run.interactionOf Sample.call2)
  /\ Run.lastUpdated (ContextMemory.context after) = Some (call_now2 Sample.call2).
Proof.
  split; [lia|].
  apply (recordInteraction_bounded_newest_first 1 Sample.emptyContext
           [Sample.call1] Sample.call2).
  lia.
Defined.

(** C3 fails for a cap of 0: the interaction just recorded is evicted at
    once, and the list has no first element. *)
Lemma recordInteraction_cap_zero_counterexample :
  let after := Run.recordAll [Sample.call1] (ContextMemory.create Sample.emptyContext (Some 0%Z)) in
  Run.stored (ContextMemory.context after) = []
  /\ hd_error (Run.stored (ContextMemory.context after)) <> Some (Run.interactionOf Sample.call1).
Proof. split; [reflexivity | discriminate]. Qed.


(* ================================================================== *)
(** * Properties of ProjectContextManager.recordAiInteraction *)
(* ================================================================== *)

Section RecordAiInteraction.

Lemma recordAiAll_snoc calls call ctx :
  Run.recordAiAll (calls ++ [call]) ctx = Run.recordAi (Run.recordAiAll calls ctx) call.
Proof. unfold Run.recordAiAll. now rewrite fold_left_app. Qed.

Lemma recordAi_stored ctx call :
  Run.stored (Run.recordAi ctx call)
  = JS.sliceLast 50 (Run.stored ctx ++ [Run.aiInteractionOf call]).
Proof.
  unfold Run.recordAi, ProjectContextManager.recordAiInteraction, Run.stored. simpl.
  fold (Run.aiInteractionOf call).
  set (old := match ContextMemoryData.aiInteractions _ with Some l => l | None => [] end).
  assert (Hold : old = match ProjectContext.contextMemory ctx with
                       | Some {| ContextMemoryData.aiInteractions := Some l |} => l
                       | _ => []
                       end).
  { subst old. destruct (ProjectContext.contextMemory ctx) as [[? [l|] ?]|]; reflexivity. }
  rewrite <- Hold.
  destruct (50 <? _) eqn:E; [reflexivity|].
  apply Nat.ltb_ge in E. unfold JS.sliceLast.
  replace (_ - 50) with 0 by lia. reflexivity.
Qed.

Lemma recordAi_lastUpdated ctx call :
  Run.lastUpdated (Run.recordAi ctx call) = Run.lastUpdated ctx.
Proof.
  unfold Run.recordAi, ProjectContextManager.recordAiInteraction, Run.lastUpdated. simpl.
  destruct (ProjectContext.contextMemory ctx); reflexivity.
Qed.

Lemma recordAiAll_lastUpdated calls : forall ctx,
  Run.lastUpdated (Run.recordAiAll calls ctx) = Run.lastUpdated ctx.
Proof.
  induction calls as [|c calls IH]; intro ctx; simpl; [reflexivity|].
  unfold Run.recordAiAll in IH. rewrite IH. apply recordAi_lastUpdated.
Qed.

Lemma sliceLast_length {A} n (l : list A) :
  List.length (JS.sliceLast n l) = Nat.min n (List.length l).
Proof. unfold JS.sliceLast. rewrite length_skipn. lia. Qed.

Lemma sliceLast_snoc {A} n (l : list A) x :
  0 < n -> last (JS.sliceLast n (l ++ [x])) x = x.
Proof.
  intro Hn. unfold JS.sliceLast. rewrite length_app. simpl.
  rewrite skipn_app.
  replace (List.length l + 1 - n - List.length l) with 0 by lia. simpl.
  now rewrite last_last.
Qed.

End RecordAiInteraction.

(** C10.  For every initial context and every sequence of
    [recordAiInteraction] calls, after each call: the stored list is the
    list stored before with the new interaction appended at its end, cut
    to its last 50 entries (the entries dropped are the oldest, at the
    front); its length is at most 50; its last element is the new
    interaction; and [lastUpdated] is what it was before the first
    call. *)
Theorem recordAiInteraction_appends_keeps_last_50 :
  forall (ctx : ProjectContext.t) (calls : list Call) (call : Call),
    let before := Run.recordAiAll calls ctx in
    let after := Run.recordAiAll (calls ++ [call]) ctx in
    Run.stored after
    = skipn (List.length (Run.stored before ++ [Run.aiInteractionOf call]) - 50)
            (Run.stored before ++ [Run.aiInteractionOf call])
    /\ List.length (Run.stored after) <= 50
    /\ last (Run.stored after) (Run.aiInteractionOf call) = Run.aiInteractionOf call
    /\ (exists dropped, Run.stored before ++ [Run.aiInteractionOf call]
                        = dropped ++ Run.stored after)
    /\ Run.lastUpdated after = Run.lastUpdated ctx.
Proof.
  intros ctx calls call before after.
  assert (Hst : Run.stored after
                = JS.sliceLast 50 (Run.stored before ++ [Run.aiInteractionOf call])).
  { subst after. rewrite recordAiAll_snoc. apply recordAi_stored. }
  split; [exact Hst|]. split; [|split; [|split]].
  - rewrite Hst, sliceLast_length. lia.
  - rewrite Hst. apply sliceLast_snoc. lia.
  - exists (firstn (List.length (Run.stored before ++ [Run.aiInteractionOf call]) - 50)
                   (Run.stored before ++ [Run.aiInteractionOf call])).
    rewrite Hst. unfold JS.sliceLast. now rewrite firstn_skipn.
  - subst after. apply recordAiAll_lastUpdated.
Qed.

(* ================================================================== *)
(** * Properties of the maturity score *)
(* ================================================================== *)


Lemma maturityScore_sum m :
  let c := ContextMemory.context m in
  ContextMemory.maturityScore m
  = Facet.weight (Facet.endpointsPresent c) 20
    + Facet.weight (Facet.authConfigured c) 20
    + Facet.weight (Facet.httpsEnforced c) 15
    + Facet.weight (Facet.modelsPresent c) 15
    + Facet.weight (Facet.componentsPresent c) 15
    + Facet.weight (Facet.platformSet c) 15.
Proof.
  unfold ContextMemory.maturityScore, Facet.endpointsPresent, Facet.authConfigured,
    Facet.httpsEnforced, Facet.modelsPresent, Facet.componentsPresent, Facet.platformSet.
  simpl.
  destruct (negb (ContextMemory.isEmpty (ProjectContext.apiEndpoints _)));
  destruct (negb (ContextMemory.authMissingOrNone _));
  destruct (truthyBool _);
  destruct (negb (ContextMemory.isEmpty (ProjectContext.databaseModels _)));
  destruct (negb (ContextMemory.isEmpty (ProjectContext.frontendComponents _)));
  destruct (truthyString _); reflexivity.
Qed.

Lemma weight_mono b b' w : (b = true -> b' = true) -> Facet.weight b w <= Facet.weight b' w.
Proof. destruct b, b'; simpl; intro H; try lia; discriminate (H eq_refl). Qed.

Ltac by_fields :=
  cbn;
  repeat match goal with
         | |- context [match ?x with _ => _ end] => destruct x; cbn
         end;
  reflexivity.

(** The facets read off the fields are the tests [assessProjectMaturity]
    makes. *)
Lemma criteria_facets c :
  Criteria.endpointsPresent c = Facet.endpointsPresent c
  /\ Criteria.authConfigured c = Facet.authConfigured c
  /\ Criteria.httpsEnforced c = Facet.httpsEnforced c
  /\ Criteria.modelsPresent c = Facet.modelsPresent c
  /\ Criteria.componentsPresent c = Facet.componentsPresent c
  /\ Criteria.platformSet c = Facet.platformSet c.
Proof.
  unfold Criteria.endpointsPresent, Criteria.authConfigured, Criteria.httpsEnforced,
    Criteria.modelsPresent, Criteria.componentsPresent, Criteria.platformSet,
    Facet.endpointsPresent, Facet.authConfigured, Facet.httpsEnforced,
    Facet.modelsPresent, Facet.componentsPresent, Facet.platformSet,
    ContextMemory.isEmpty, ContextMemory.authMissingOrNone, ContextMemory.enforceHttps,
    ContextMemory.platform, ProjectContext.apiEndpoints, ProjectContext.securityRules,
    ProjectContext.databaseModels, ProjectContext.frontendComponents,
    truthyBool, truthyString.
  destruct c as [pr ap se au db fr de cm]. repeat split; by_fields.
Qed.

Lemma score_sum c :
  Criteria.score c
  = (if Criteria.endpointsPresent c then 20 else 0)
    + (if Criteria.authConfigured c then 20 else 0)
    + (if Criteria.httpsEnforced c then 15 else 0)
    + (if Criteria.modelsPresent c then 15 else 0)
    + (if Criteria.componentsPresent c then 15 else 0)
    + (if Criteria.platformSet c then 15 else 0).
Proof.
  unfold Criteria.score, Criteria.weights. cbn [map list_sum fst snd fold_right]. lia.
Qed.

Lemma maturityScore_criteria m :
  ContextMemory.maturityScore m = Criteria.score (ContextMemory.context m).
Proof.
  rewrite score_sum, maturityScore_sum. cbv zeta.
  destruct (criteria_facets (ContextMemory.context m)) as [-> [-> [-> [-> [-> ->]]]]].
  reflexivity.
Qed.

Lemma score_mono c c' : Criteria.le c c' -> Criteria.score c <= Criteria.score c'.
Proof.
  intro Hle. rewrite !score_sum.
  assert (H : forall fw, In fw Criteria.weights ->
                (if fst fw c then snd fw else 0) <= (if fst fw c' then snd fw else 0)).
  { intros fw Hin. specialize (Hle fw Hin).
    destruct (fst fw c); [rewrite (Hle eq_refl); lia | destruct (fst fw c'); lia]. }
  pose proof (H (Criteria.endpointsPresent, 20)) as H1.
  pose proof (H (Criteria.authConfigured, 20)) as H2.
  pose proof (H (Criteria.httpsEnforced, 15)) as H3.
  pose proof (H (Criteria.modelsPresent, 15)) as H4.
  pose proof (H (Criteria.componentsPresent, 15)) as H5.
  pose proof (H (Criteria.platformSet, 15)) as H6.
  unfold Criteria.weights in *. cbn [In fst snd] in *.
  specialize (H1 ltac:(tauto)). specialize (H2 ltac:(tauto)).
  specialize (H3 ltac:(tauto)). specialize (H4 ltac:(tauto)).
  specialize (H5 ltac:(tauto)). specialize (H6 ltac:(tauto)).
  lia.
Qed.

(** C7.  The maturity score is the sum of the weights of the facets
    that hold: 20 for endpoints present (a non-empty [api.endpoints]),
    20 for authentication configured other than none, 15 for HTTPS
    enforced ([security.rules.enforceHttps] true), 15 for database
    models present, 15 for frontend components present and 15 for a
    deployment platform set.  The label is mature exactly from 80,
    developing from 50 to 79, early from 25 to 49 and initial below 25.
    A context [c'] in which every facet of [c] still holds, so in
    particular one that differs from [c] by one more facet made true,
    never scores less than [c]. *)
Theorem maturity_weighted_sum_monotone :
  forall (m m' : ContextMemory.t),
    Criteria.le (ContextMemory.context m) (ContextMemory.context m') ->
    let c := ContextMemory.context m in
    let label := ContextMemory.assessProjectMaturity m in
    ContextMemory.maturityScore m
    = (if Criteria.endpointsPresent c then 20 else 0)
      + (if Criteria.authConfigured c then 20 else 0)
      + (if Criteria.httpsEnforced c then 15 else 0)
      + (if Criteria.modelsPresent c then 15 else 0)
      + (if Criteria.componentsPresent c then 15 else 0)
      + (if Criteria.platformSet c then 15 else 0)
    /\ ContextMemory.maturityScore m = Criteria.score c
    /\ Criteria.score c <= 100
    /\ (label = "mature" <-> 80 <= Criteria.score c)
    /\ (label = "developing" <-> 50 <= Criteria.score c < 80)
    /\ (label = "early" <-> 25 <= Criteria.score c < 50)
    /\ (label = "initial" <-> Criteria.score c < 25)
    /\ ContextMemory.maturityScore m <= ContextMemory.maturityScore m'.
Proof.
  intros m m' Hle c label.
  pose proof (maturityScore_criteria m) as Hs. fold c in Hs.
  split; [rewrite Hs; apply score_sum|]. split; [exact Hs|].
  split; [|split; [|split; [|split; [|split]]]].
  - rewrite score_sum.
    destruct (Criteria.endpointsPresent c), (Criteria.authConfigured c),
      (Criteria.httpsEnforced c), (Criteria.modelsPresent c),
      (Criteria.componentsPresent c), (Criteria.platformSet c); lia.
  - subst label. unfold ContextMemory.assessProjectMaturity. rewrite Hs.
    destruct (Nat.leb_spec 80 (Criteria.score c)); [tauto|].
    destruct (Nat.leb_spec 50 (Criteria.score c)); [split; [discriminate|lia]|].
    destruct (Nat.leb_spec 25 (Criteria.score c)); split; try discriminate; lia.
  - subst label. unfold ContextMemory.assessProjectMaturity. rewrite Hs.
    destruct (Nat.leb_spec 80 (Criteria.score c)); [split; [discriminate|lia]|].
    destruct (Nat.leb_spec 50 (Criteria.score c)); [split; [lia|reflexivity]|].
    destruct (Nat.leb_spec 25 (Criteria.score c)); split; try discriminate; lia.
  - subst label. unfold ContextMemory.assessProjectMaturity. rewrite Hs.
    destruct (Nat.leb_spec 80 (Criteria.score c)); [split; [discriminate|lia]|].
    destruct (Nat.leb_spec 50 (Criteria.score c)); [split; [discriminate|lia]|].
    destruct (Nat.leb_spec 25 (Criteria.score c)); split;
      try discriminate; try lia; reflexivity.
  - subst label. unfold ContextMemory.assessProjectMaturity. rewrite Hs.
    destruct (Nat.leb_spec 80 (Criteria.score c)); [split; [discriminate|lia]|].
    destruct (Nat.leb_spec 50 (Criteria.score c)); [split; [discriminate|lia]|].
    destruct (Nat.leb_spec 25 (Criteria.score c)); split;
      try discriminate; try lia; reflexivity.
  - rewrite Hs, (maturityScore_criteria m'). apply score_mono, Hle.
Qed.

Lemma maturity_weighted_sum_monotone_witness :
  Criteria.le Sample.noAuthContext Sample.completeContext
  /\ Criteria.authConfigured Sample.noAuthContext = false
  /\ Criteria.authConfigured Sample.completeContext = true
  /\ ContextMemory.maturityScore (ContextMemory.create Sample.noAuthContext None) = 80
  /\ ContextMemory.maturityScore (ContextMemory.create Sample.completeContext None) = 100
  /\ ContextMemory.maturityScore (ContextMemory.create Sample.noAuthContext None)
     <= ContextMemory.maturityScore (ContextMemory.create Sample.completeContext None).
Proof.
  assert (H : Criteria.le Sample.noAuthContext Sample.completeContext).
  { intros fw Hin _. unfold Criteria.weights in Hin. cbn [In] in Hin.
    repeat (destruct Hin as [<-|Hin]; [reflexivity|]). contradiction. }
  split; [exact H|]. repeat (split; [reflexivity|]).
  apply (maturity_weighted_sum_monotone
           (ContextMemory.create Sample.noAuthContext None)
           (ContextMemory.create Sample.completeContext None) H).
Defined.

(* ================================================================== *)
(** * Properties of generateSuggestions *)
(* ================================================================== *)

Lemma firstn_nil_iff {A} n (l : list A) : 0 < n -> (firstn n l = [] <-> l = []).
Proof.
  intro Hn. destruct n; [lia|]. destruct l; simpl; split; congruence.
Qed.

(** C9 fails for a context that declares endpoints, authentication,
    HTTPS, components and models and has no recorded interaction:
    nothing is suggested. *)
Lemma generateSuggestions_empty_counterexample :
  ContextMemory.generateSuggestions (ContextMemory.create Sample.completeContext None) = []
  /\ ~ (1 <= List.length
              (ContextMemory.generateSuggestions
                 (ContextMemory.create Sample.completeContext None))).
Proof. split; [reflexivity | simpl; lia]. Qed.

(* ================================================================== *)
(** * Properties of validateContext *)
(* ================================================================== *)

Section ValidateContext.

Variable mgr : ProjectContextManager.t.

Lemma hasSensitiveData_password models model field :
  In model models -> In field (DatabaseModel.fields model) ->
  DatabaseField.name field = "password" ->
  ProjectContextManager.hasSensitiveData models = true.
Proof.
  intros Hm Hf Hn. unfold ProjectContextManager.hasSensitiveData.
  apply existsb_exists. exists model. split; [exact Hm|].
  apply existsb_exists. exists field. split; [exact Hf|].
  rewrite Hn. reflexivity.
Qed.

Lemma endpointWarnings_paths ctx w :
  In w (ProjectContextManager.endpointWarnings ctx) ->
  ValidationError.severity w = warning
  /\ ValidationError.path w <> "security.rules.inputSanitization".
Proof.
  unfold ProjectContextManager.endpointWarnings.
  destruct (ProjectContext.apiEndpoints ctx) as [es|]; [|contradiction].
  destruct (ProjectContext.authentication ctx) as [auth|]; [|contradiction].
  intro H. apply in_flat_map in H. destruct H as [e [_ H]].
  destruct (_ && _); [|contradiction].
  destruct H as [<-|[]]. simpl. split; [reflexivity | discriminate].
Qed.

End ValidateContext.

(** C6, as amended.  For every context whose [database.models] holds a
    model with a field named password while
    [security.rules.inputSanitization] is false, [validateContext]
    returns a result with [valid = false]; its errors are those of the
    schema validation, then the error whose path is
    [security.rules.inputSanitization], once, then the HTTPS error if a
    production environment is declared without [enforceHttps]; so that
    error is the only one exactly when the schema validation reports
    nothing and the HTTPS rule does not fire.  It has severity error and
    no warning has its path. *)
Theorem validateContext_password_without_sanitization :
  forall (mgr : ProjectContextManager.t) (ctx : ProjectContext.t)
         (sec : SecurityConfiguration.t) (rules : SecurityRules.t)
         (models : list DatabaseModel.t) (model : DatabaseModel.t)
         (field : DatabaseField.t),
    ProjectContext.security ctx = Some sec ->
    SecurityConfiguration.rules sec = Some rules ->
    SecurityRules.inputSanitization rules = Some false ->
    ProjectContext.databaseModels ctx = Some models ->
    In model models ->
    In field (DatabaseModel.fields model) ->
    DatabaseField.name field = "password" ->
    exists r,
      ProjectContextManager.validateContext mgr ctx = Ok r
      /\ ValidationResult.valid r = false
      /\ ValidationResult.errors r
         = ProjectContextManager.schemaErrors mgr ctx
           ++ ProjectContextManager.inputSanitizationError
           :: (if isSome (ProjectContextManager.production ctx)
                  && negb (truthyBool (SecurityRules.enforceHttps rules))
               then [ProjectContextManager.enforceHttpsError] else [])
      /\ ValidationError.path ProjectContextManager.inputSanitizationError
         = "security.rules.inputSanitization"
      /\ ValidationError.severity ProjectContextManager.inputSanitizationError = error
      /\ ValidationError.path ProjectContextManager.enforceHttpsError
         <> "security.rules.inputSanitization"
      /\ Forall (fun w => ValidationError.path w <> "security.rules.inputSanitization")
                (ValidationResult.warnings r).
Proof.
  intros mgr ctx sec rules models model field Hsec Hrules Hsan Hmodels Hm Hf Hn.
  pose proof (hasSensitiveData_password models model field Hm Hf Hn) as Hsens.
  unfold ProjectContextManager.validateContext, ProjectContextManager.validateBusinessLogic,
    ProjectContextManager.businessErrors, ProjectContextManager.securityRules.
  rewrite Hmodels, Hsens, Hsec, Hrules. simpl. rewrite Hsan. simpl.
  destruct (ProjectContextManager.production ctx) as [env|]; simpl.
  - eexists. split; [reflexivity|]. simpl.
    split; [|split; [reflexivity|split; [reflexivity|split; [reflexivity|split; [discriminate|]]]]].
    + rewrite length_app. simpl. apply Nat.eqb_neq. lia.
    + apply Forall_forall. intros w Hw. now apply endpointWarnings_paths in Hw.
  - eexists. split; [reflexivity|]. simpl.
    split; [|split; [reflexivity|split; [reflexivity|split; [reflexivity|split; [discriminate|]]]]].
    + rewrite length_app. simpl. apply Nat.eqb_neq. lia.
    + apply Forall_forall. intros w Hw. now apply endpointWarnings_paths in Hw.
Qed.

Lemma validateContext_password_without_sanitization_witness :
  exists r,
    ProjectContextManager.validateContext Sample.noSchema Sample.unsanitizedContext = Ok r
    /\ ValidationResult.valid r = false
    /\ ValidationResult.errors r = [ProjectContextManager.inputSanitizationError].
Proof.
  destruct (validateContext_password_without_sanitization
              Sample.noSchema Sample.unsanitizedContext
              (SecurityConfiguration.mk (Some Sample.unsanitizedRules) None)
              Sample.unsanitizedRules [Sample.userModel] Sample.userModel
              (DatabaseField.mk "password" "string" None None)
              eq_refl eq_refl eq_refl eq_refl
              (or_introl eq_refl) (or_intror (or_introl eq_refl)) eq_refl)
    as [r [H1 [H2 [H3 _]]]].
  exists r. split; [exact H1|]. split; [exact H2|]. exact H3.
Defined.

(** C6 fails for a context that also declares a production environment
    without [enforceHttps]: validation reports two errors. *)
Lemma validateContext_two_errors_counterexample :
  exists r,
    ProjectContextManager.validateContext Sample.noSchema
      Sample.unsanitizedProductionContext = Ok r
    /\ ValidationResult.valid r = false
    /\ ValidationResult.errors r
       = [ProjectContextManager.inputSanitizationError;
          ProjectContextManager.enforceHttpsError]
    /\ List.length (ValidationResult.errors r) <> 1.
Proof.
  eexists. split; [reflexivity|]. simpl.
  split; [reflexivity|]. split; [reflexivity|]. discriminate.
Qed.

(** C5 at a context without its security section and with a model that
    has a password field: whatever schema validator is loaded,
    [validateContext] throws a TypeError there and returns no result,
    where the claim wants a result with [valid = false].  The rule that
    throws reads [context.security.rules] without the guard the other
    readers of the section have; with an empty security section in
    place of the missing one the same context is reported invalid, with
    the input-sanitization error after those of the schema. *)
Theorem validateContext_throws_without_security :
  forall (mgr : ProjectContextManager.t),
    ProjectContext.security Sample.noSecurityContext = None
    /\ ProjectContextManager.validateContext mgr Sample.noSecurityContext
       = Throw "TypeError: Cannot read properties of undefined (reading 'rules')"
    /\ (forall r, ProjectContextManager.validateContext mgr Sample.noSecurityContext
                  <> Ok r)
    /\ exists r,
         ProjectContextManager.validateContext mgr Sample.guardedContext = Ok r
         /\ ValidationResult.valid r = false
         /\ ValidationResult.errors r
            = ProjectContextManager.schemaErrors mgr Sample.guardedContext
              ++ [ProjectContextManager.inputSanitizationError].
Proof.
  intro mgr. split; [reflexivity|]. split; [reflexivity|]. split; [discriminate|].
  exists (ValidationResult.mk false
            (ProjectContextManager.schemaErrors mgr Sample.guardedContext
             ++ [ProjectContextManager.inputSanitizationError]) []).
  split; [|split; reflexivity].
  unfold ProjectContextManager.validateContext.
  change (ProjectContextManager.validateBusinessLogic Sample.guardedContext)
    with (Ok ([ProjectContextManager.inputSanitizationError],
              @nil ValidationError.t)).
  cbn [bind fst snd]. f_equal. f_equal.
  rewrite length_app. cbn [List.length]. apply Nat.eqb_neq. lia.
Qed.

(* ================================================================== *)
(** * Properties of the regular-expression engine *)
(* ================================================================== *)

Section Rounds.

Variable i : bool.

Lemma repeatMatcher_local m :
  RegExp.Local m ->
  forall fuel min max s k k',
    (forall s', String.length s' <= String.length s -> k s' = k' s') ->
    RegExp.repeatMatcher m k fuel min max s = RegExp.repeatMatcher m k' fuel min max s.
Proof.
  intros Hm. induction fuel as [|fuel IH]; intros min max s k k' Hk; [reflexivity|].
  cbn [RegExp.repeatMatcher].
  assert (Hd : forall s', String.length s' <= String.length s ->
             (if (min =? 0) && (String.length s' =? String.length s)
              then None
              else RegExp.repeatMatcher m k fuel (pred min) (option_map pred max) s')
             = (if (min =? 0) && (String.length s' =? String.length s)
                then None
                else RegExp.repeatMatcher m k' fuel (pred min) (option_map pred max) s')).
  { intros s' Hs'. destruct (_ && _); [reflexivity|].
    apply IH. intros s'' Hs''. apply Hk. lia. }
  rewrite (Hm s _ _ Hd), (Hk s (le_n _)).
  reflexivity.
Qed.

Lemma matchRe_local r : RegExp.Local (RegExp.matchRe i r).
Proof.
  induction r as [| c | | negated items | r1 IH1 r2 IH2 | r1 IH1 r2 IH2
                  | min max r1 IH1 | r1 IH1];
    intros s k k' Hk; cbn [RegExp.matchRe].
  - apply Hk, le_n.
  - destruct s as [|a s]; [reflexivity|].
    destruct (Ascii.eqb _ _); [|reflexivity]. apply Hk. simpl. lia.
  - destruct s as [|a s]; [reflexivity|].
    destruct (RegExp.isLineTerminator a); [reflexivity|]. apply Hk. simpl. lia.
  - destruct s as [|a s]; [reflexivity|].
    destruct (xorb _ _); [|reflexivity]. apply Hk. simpl. lia.
  - apply IH1. intros s1 Hs1. apply IH2. intros s' Hs'. apply Hk. lia.
  - rewrite (IH1 s k k' Hk), (IH2 s k k' Hk). reflexivity.
  - now apply repeatMatcher_local.
  - now rewrite (Hk s (le_n _)).
Qed.

(** The rounds [matchRe] grants a repetition are never used up: any
    larger number gives the same result. *)
Lemma repeatMatcher_rounds m k :
  RegExp.Local m ->
  forall fuel fuel' min max s,
    min + String.length s < fuel ->
    min + String.length s < fuel' ->
    RegExp.repeatMatcher m k fuel min max s = RegExp.repeatMatcher m k fuel' min max s.
Proof.
  intros Hm. induction fuel as [|fuel IH]; intros fuel' min max s H H'; [lia|].
  destruct fuel' as [|fuel']; [lia|].
  cbn [RegExp.repeatMatcher].
  assert (Hd : forall s', String.length s' <= String.length s ->
             (if (min =? 0) && (String.length s' =? String.length s)
              then None
              else RegExp.repeatMatcher m k fuel (pred min) (option_map pred max) s')
             = (if (min =? 0) && (String.length s' =? String.length s)
                then None
                else RegExp.repeatMatcher m k fuel' (pred min) (option_map pred max) s')).
  { intros s' Hs'.
    destruct (min =? 0) eqn:Emin; destruct (String.length s' =? String.length s) eqn:Elen;
      cbn [andb]; try reflexivity.
    - apply Nat.eqb_eq in Emin. apply Nat.eqb_neq in Elen. apply IH; lia.
    - apply Nat.eqb_neq in Emin. apply IH; lia.
    - apply Nat.eqb_neq in Emin. apply IH; lia. }
  rewrite (Hm s _ _ Hd). reflexivity.
Qed.

Lemma matchRe_Repeat_rounds r min max s k fuel :
  min + String.length s < fuel ->
  RegExp.matchRe i (RegExp.Repeat min max r) s k
  = RegExp.repeatMatcher (RegExp.matchRe i r) k fuel min max s.
Proof.
  intro H. cbn [RegExp.matchRe].
  apply repeatMatcher_rounds; [apply matchRe_local | lia | exact H].
Qed.

End Rounds.

Section AllMatches.

Variable s : string.

Lemma search_bounds i r : forall t pos b e,
  RegExp.search i r t pos = Some (b, e) -> pos <= b /\ b <= e.
Proof.
  induction t as [|c t IH]; intros pos b e H; simpl in H;
    destruct (RegExp.matchRe i r _ _).
  - injection H as <- <-. lia.
  - discriminate.
  - injection H as <- <-. lia.
  - apply IH in H. lia.
Qed.

Lemma exec_global re m re' :
  RegExp.global re = true ->
  RegExp.exec re s = (Some m, re') ->
  RegExp.lastIndex re <= fst m /\ fst m <= snd m
  /\ RegExp.lastIndex re <= String.length s
  /\ re' = RegExp.setLastIndex (snd m) re.
Proof.
  intros G. unfold RegExp.exec. rewrite G.
  destruct (String.length s <? RegExp.lastIndex re) eqn:E; [discriminate|].
  apply Nat.ltb_ge in E.
  destruct (RegExp.search _ _ _ _) as [[b e]|] eqn:Es; [|discriminate].
  intro H. injection H as <- <-. apply search_bounds in Es. simpl. repeat split; lia.
Qed.

(** The rounds [matchAll] grants are never used up. *)
Lemma matchAllFrom_rounds : forall fuel fuel' re,
  RegExp.global re = true ->
  String.length s + 1 - RegExp.lastIndex re < fuel ->
  String.length s + 1 - RegExp.lastIndex re < fuel' ->
  RegExp.matchAllFrom fuel re s = RegExp.matchAllFrom fuel' re s.
Proof.
  induction fuel as [|fuel IH]; intros fuel' re G H H'; [lia|].
  destruct fuel' as [|fuel']; [lia|].
  cbn [RegExp.matchAllFrom].
  destruct (RegExp.exec re s) as [[m|] re'] eqn:E; [|reflexivity].
  destruct (exec_global re m re' G E) as [H1 [H2 [H3 ->]]].
  f_equal. apply IH.
  - destruct (snd m =? fst m); exact G.
  - destruct (snd m =? fst m) eqn:Em;
      [apply Nat.eqb_eq in Em | apply Nat.eqb_neq in Em]; simpl; lia.
  - destruct (snd m =? fst m) eqn:Em;
      [apply Nat.eqb_eq in Em | apply Nat.eqb_neq in Em]; simpl; lia.
Qed.

End AllMatches.

Section Engine.

Variable i : bool.
Variable r : RegExp.regex.

Lemma search_None_pos s : forall p p',
  RegExp.search i r s p = None -> RegExp.search i r s p' = None.
Proof.
  induction s as [|c s IH]; intros p p'; simpl;
    destruct (RegExp.matchRe i r _ _); try discriminate; auto.
  apply IH.
Qed.

Lemma search_None_drop n : forall s p p',
  RegExp.search i r s p = None -> RegExp.search i r (JS.drop n s) p' = None.
Proof.
  induction n as [|n IH]; intros s p p' H.
  - exact (search_None_pos s p p' H).
  - destruct s as [|c s].
    + exact (search_None_pos EmptyString p p' H).
    + simpl. simpl in H. destruct (RegExp.matchRe i r _ _); [discriminate|].
      eapply IH, H.
Qed.

(** A test that succeeds, from whatever [lastIndex], is at a subject the
    expression matches. *)
Lemma test_true_matches re s :
  RegExp.source re = r -> RegExp.ignoreCase re = i ->
  fst (RegExp.test re s) = true -> RegExp.matches r i s = true.
Proof.
  intros Hr Hi. unfold RegExp.test, RegExp.exec, RegExp.matches. rewrite Hr, Hi.
  destruct (RegExp.search i r s 0) eqn:E; [reflexivity|].
  destruct (_ <? _); [destruct (RegExp.global re); discriminate|].
  rewrite (search_None_drop _ s 0 _ E).
  destruct (RegExp.global re); discriminate.
Qed.

(** A global expression whose [lastIndex] is 0 is left as it is by a
    test that fails, and finds any subject the expression matches. *)
Lemma test_fresh s :
  RegExp.test (RegExp.create r i true) s
  = if RegExp.matches r i s
    then (true, RegExp.setLastIndex
                  (match RegExp.search i r s 0 with Some m => snd m | None => 0 end)
                  (RegExp.create r i true))
    else (false, RegExp.create r i true).
Proof.
  unfold RegExp.test, RegExp.exec, RegExp.matches. simpl.
  destruct (RegExp.search i r s 0) as [[b e]|]; reflexivity.
Qed.

Lemma test_preserves re s :
  RegExp.source (snd (RegExp.test re s)) = RegExp.source re
  /\ RegExp.ignoreCase (snd (RegExp.test re s)) = RegExp.ignoreCase re
  /\ RegExp.global (snd (RegExp.test re s)) = RegExp.global re.
Proof.
  unfold RegExp.test, RegExp.exec.
  destruct (RegExp.global re) eqn:G;
    repeat match goal with
           | |- context [if ?b then _ else _] => destruct b
           | |- context [match RegExp.search ?a ?b ?c ?d with _ => _ end] =>
               destruct (RegExp.search a b c d) as [[? ?]|]
           end; simpl; auto.
Qed.

End Engine.

(* ================================================================== *)
(** * Properties of the security scan *)
(* ================================================================== *)

Section Scanner.

Variable filePath : string.

Lemma forEachLine_In check issue : forall lines index,
  In issue (SecurityValidator.forEachLine check index lines) ->
  exists j line, nth_error lines j = Some line /\ In issue (check (index + j) line).
Proof.
  induction lines as [|l lines IH]; intros index H; simpl in H; [contradiction|].
  apply in_app_or in H. destruct H as [H|H].
  - exists 0, l. rewrite Nat.add_0_r. auto.
  - apply IH in H. destruct H as [j [line [Hn Hin]]].
    exists (S j), line. rewrite Nat.add_succ_r. auto.
Qed.

(** Every issue of one pattern is built from that pattern at a line the
    pattern matches, read on its own. *)
Lemma applyLines_In pattern issue : forall lines re index,
  RegExp.source re = SecurityPattern.pattern pattern ->
  RegExp.ignoreCase re = true ->
  In issue (SecurityValidator.applyLines filePath pattern re index lines) ->
  exists j line,
    nth_error lines j = Some line
    /\ issue = SecurityValidator.patternIssue filePath pattern (index + j) line
    /\ RegExp.matches (SecurityPattern.pattern pattern) true line = true.
Proof.
  induction lines as [|l lines IH]; intros re index Hr Hi H; simpl in H; [contradiction|].
  destruct (RegExp.test re l) as [hit re'] eqn:E.
  apply in_app_or in H. destruct H as [H|H].
  - destruct hit; [|contradiction]. destruct H as [<-|[]].
    exists 0, l. rewrite Nat.add_0_r. repeat split.
    apply (test_true_matches true (SecurityPattern.pattern pattern) re l Hr Hi).
    now rewrite E.
  - pose proof (test_preserves re l) as [P1 [P2 _]]. rewrite E in P1, P2. simpl in P1, P2.
    apply IH in H; [|congruence|congruence].
    destruct H as [j [line [Hn [Hiss Hm]]]].
    exists (S j), line. rewrite Nat.add_succ_r. auto.
Qed.

(** Lines the pattern does not match leave a fresh expression fresh. *)
Lemma applyLines_skip pattern before rest : forall index,
  Forall (fun l => RegExp.matches (SecurityPattern.pattern pattern) true l = false) before ->
  SecurityValidator.applyLines filePath pattern
    (RegExp.create (SecurityPattern.pattern pattern) true true) index (before ++ rest)
  = SecurityValidator.applyLines filePath pattern
      (RegExp.create (SecurityPattern.pattern pattern) true true)
      (index + List.length before) rest.
Proof.
  induction before as [|l before IH]; intros index H; simpl.
  - now rewrite Nat.add_0_r.
  - inversion H as [|? ? Hl Hrest]; subst.
    rewrite test_fresh, Hl. simpl. rewrite IH by assumption.
    now rewrite Nat.add_succ_r.
Qed.

Ltac rule_of_issue H :=
  repeat match type of H with
         | In _ (_ ++ _) => apply in_app_or in H; destruct H as [H|H]
         | In _ (if ?b then _ else _) => destruct b
         | In _ (match ?x with _ => _ end) => destruct x
         | In _ [] => contradiction
         | In _ [_] => destruct H as [<-|[]]
         end.

Lemma builtIn_rules packageEntries content lines issue :
  In issue (SecurityValidator.applyBuiltInSecurityChecks packageEntries
              filePath content lines) ->
  In (SecurityIssue.rule issue) SecurityValidator.builtInRules.
Proof.
  unfold SecurityValidator.applyBuiltInSecurityChecks.
  intro H. repeat (apply in_app_or in H; destruct H as [H|H]).
  - destruct (JS.includes ".env" filePath); [|contradiction].
    apply forEachLine_In in H. destruct H as [j [line [_ H]]].
    rule_of_issue H; simpl; auto.
  - destruct (JS.endsWith "package.json" filePath); [|contradiction].
    unfold SecurityValidator.checkPackageJson in H.
    destruct (packageEntries content); [|contradiction].
    apply in_flat_map in H. destruct H as [pkg [_ H]].
    rule_of_issue H; simpl; auto.
  - apply forEachLine_In in H. destruct H as [j [line [_ H]]].
    rule_of_issue H; simpl; auto 10.
  - apply forEachLine_In in H. destruct H as [j [line [_ H]]].
    rule_of_issue H; simpl; auto 10.
  - apply forEachLine_In in H. destruct H as [j [line [_ H]]].
    rule_of_issue H; simpl; auto 10.
Qed.

End Scanner.

Section ApiKeyScenario.

Variable packageEntries : string -> option (list string).
Variable patterns : list SecurityPattern.t.
Variable ctx : ProjectContext.t.
Variable sec : SecurityConfiguration.t.
Variable filePath : string.
Variable content : string.

Hypothesis Hdefault : isDefaultSet patterns.
Hypothesis Hsec : ProjectContext.security ctx = Some sec.
Hypothesis Hpatterns : SecurityConfiguration.patterns sec = Some patterns.

Let issues : list SecurityIssue.t :=
  SecurityValidator.scanFile packageEntries ctx filePath (Some content).

Lemma scanFile_unfold :
  issues
  = flat_map (SecurityValidator.applySecurityPattern filePath content
                (JS.split JS.newline content)) patterns
    ++ SecurityValidator.applyBuiltInSecurityChecks packageEntries filePath content
         (JS.split JS.newline content).
Proof.
  unfold issues, SecurityValidator.scanFile. now rewrite Hsec, Hpatterns.
Qed.

(** An issue of the rule hardcoded-api-key is at a line that the key
    pattern of the default set matches. *)
Lemma api_key_issue_line issue :
  In issue issues ->
  SecurityIssue.rule issue = "hardcoded-api-key" ->
  exists j line p,
    nth_error (JS.split JS.newline content) j = Some line
    /\ SecurityIssue.line issue = Some (j + 1)
    /\ In p patterns
    /\ SecurityPattern.name p = "hardcoded-api-key"
    /\ RegExp.matches (SecurityPattern.pattern p) true line = true.
Proof.
  rewrite scanFile_unfold. intros Hin Hrule.
  apply in_app_or in Hin. destruct Hin as [Hin|Hin].
  - apply in_flat_map in Hin. destruct Hin as [p [Hp Hin]].
    unfold SecurityValidator.applySecurityPattern in Hin.
    apply applyLines_In in Hin; [|reflexivity|reflexivity].
    destruct Hin as [j [line [Hn [-> Hm]]]].
    exists j, line, p. simpl in *. auto.
  - apply builtIn_rules in Hin. rewrite Hrule in Hin. simpl in Hin.
    repeat (destruct Hin as [Hin|Hin]; [discriminate|]). contradiction.
Qed.

(** The line of the scenario is matched by no key pattern of a default
    set, so no issue of that rule carries its index. *)
Lemma stripe_line_unreported index issue :
  nth_error (JS.split JS.newline content) index = Some Sample.stripeKeyLine ->
  In issue issues ->
  SecurityIssue.rule issue = "hardcoded-api-key" ->
  SecurityIssue.line issue <> Some (index + 1).
Proof.
  intros Hn Hin Hrule Hline.
  destruct (api_key_issue_line issue Hin Hrule) as [j [line [p [Hj [Hl [Hp [Hname Hm]]]]]]].
  assert (j = index) by (rewrite Hl in Hline; injection Hline; lia). subst j.
  rewrite Hn in Hj. injection Hj as <-.
  destruct Hdefault as [-> | ->]; simpl in Hp;
    repeat (destruct Hp as [<-|Hp]; [first [discriminate Hname | vm_compute in Hm; discriminate Hm]|]);
    contradiction.
Qed.

(** The plain key line, after lines no key pattern matches, is
    reported. *)
Lemma plain_line_reported before after :
  JS.split JS.newline content = before ++ Sample.plainKeyLine :: after ->
  Forall (fun l => forall p, In p patterns ->
                   SecurityPattern.name p = "hardcoded-api-key" ->
                   RegExp.matches (SecurityPattern.pattern p) true l = false) before ->
  In (SecurityIssue.mk filePath (Some (List.length before + 1)) "hardcoded-api-key" error
        "Hardcoded API key detected. Use environment variables instead."
        "Move to environment variable: process.env.API_KEY") issues.
Proof.
  intros Hsplit Hbefore. rewrite scanFile_unfold, Hsplit.
  apply in_or_app. left. apply in_flat_map.
  assert (Hhead : exists p rest, patterns = p :: rest
                   /\ SecurityPattern.name p = "hardcoded-api-key"
                   /\ SecurityPattern.severity p = error
                   /\ SecurityPattern.message p
                      = "Hardcoded API key detected. Use environment variables instead."
                   /\ RegExp.matches (SecurityPattern.pattern p) true Sample.plainKeyLine = true).
  { destruct Hdefault as [-> | ->]; eexists; eexists;
      (split; [reflexivity|]); repeat split; vm_compute; reflexivity. }
  destruct Hhead as [p [rest [Hp [Hname [Hsev [Hmsg Hm]]]]]].
  exists p. split; [rewrite Hp; now left|].
  unfold SecurityValidator.applySecurityPattern.
  rewrite applyLines_skip.
  - simpl. rewrite test_fresh, Hm. left.
    unfold SecurityValidator.patternIssue. rewrite Hname, Hsev, Hmsg. reflexivity.
  - eapply Forall_impl; [|exact Hbefore]. intros l Hl. apply Hl; [|exact Hname].
    rewrite Hp. now left.
Qed.

End ApiKeyScenario.

(** C4, as amended.  Scan a file with either default pattern set.  If
    one of its lines is the line of the scenario with the underscores of
    the value removed, so that the value is a run of at least 10 letters
    and digits between the quotes, and no earlier line is matched by the
    key pattern, then the scan produces a hardcoded-api-key issue of
    severity error whose line is the 1-based index of that line.  For
    the line of the scenario itself, whose value holds underscores, no
    hardcoded-api-key issue carries its index. *)
Theorem scanFile_reports_plain_api_key :
  forall (packageEntries : string -> option (list string))
         (patterns : list SecurityPattern.t) (ctx : ProjectContext.t)
         (sec : SecurityConfiguration.t) (filePath content : string)
         (before after : list string),
    isDefaultSet patterns ->
    ProjectContext.security ctx = Some sec ->
    SecurityConfiguration.patterns sec = Some patterns ->
    JS.split JS.newline content = before ++ Sample.plainKeyLine :: after ->
    Forall (fun l => forall p, In p patterns ->
                     SecurityPattern.name p = "hardcoded-api-key" ->
                     RegExp.matches (SecurityPattern.pattern p) true l = false) before ->
    let issues := SecurityValidator.scanFile packageEntries ctx filePath (Some content) in
    In (SecurityIssue.mk filePath (Some (List.length before + 1)) "hardcoded-api-key" error
          "Hardcoded API key detected. Use environment variables instead."
          "Move to environment variable: process.env.API_KEY") issues
    /\ forall index issue,
         nth_error (JS.split JS.newline content) index = Some Sample.stripeKeyLine ->
         In issue issues ->
         SecurityIssue.rule issue = "hardcoded-api-key" ->
         SecurityIssue.line issue <> Some (index + 1).
Proof.
  intros pe patterns ctx sec filePath content before after Hd Hs Hp Hsplit Hbefore issues.
  split.
  - eapply plain_line_reported; eassumption.
  - intros index issue. eapply stripe_line_unreported; eassumption.
Qed.

Lemma scanFile_reports_plain_api_key_witness :
  JS.split JS.newline Sample.keyFile
  = ["// settings"] ++ Sample.plainKeyLine :: ["export default apiKey;"]
  /\ In (SecurityIssue.mk "src/settings.js" (Some 2) "hardcoded-api-key" error
          "Hardcoded API key detected. Use environment variables instead."
          "Move to environment variable: process.env.API_KEY")
        (SecurityValidator.scanFile Sample.noPackage
           (Sample.withPatterns SecurityValidator.getDefaultPatterns)
           "src/settings.js" (Some Sample.keyFile)).
Proof.
  split; [reflexivity|].
  apply (scanFile_reports_plain_api_key Sample.noPackage
           SecurityValidator.getDefaultPatterns
           (Sample.withPatterns SecurityValidator.getDefaultPatterns)
           (SecurityConfiguration.mk (Some Sample.fullRules)
              (Some SecurityValidator.getDefaultPatterns))
           "src/settings.js" Sample.keyFile ["// settings"] ["export default apiKey;"]).
  - left. reflexivity.
  - reflexivity.
  - reflexivity.
  - reflexivity.
  - constructor; [|constructor]. intros p Hp Hname. simpl in Hp.
    repeat (destruct Hp as [<-|Hp]; [first [discriminate Hname | vm_compute; reflexivity]|]).
    contradiction.
Defined.

(** C4 fails: with either default pattern set, whatever the file and
    wherever the line of the scenario stands in it, no hardcoded-api-key
    issue carries the index of that line. *)
Lemma scanFile_stripe_key_counterexample :
  ~ exists (packageEntries : string -> option (list string))
           (patterns : list SecurityPattern.t) (ctx : ProjectContext.t)
           (sec : SecurityConfiguration.t) (filePath content : string)
           (index : nat) (issue : SecurityIssue.t),
      isDefaultSet patterns
      /\ ProjectContext.security ctx = Some sec
      /\ SecurityConfiguration.patterns sec = Some patterns
      /\ nth_error (JS.split JS.newline content) index = Some Sample.stripeKeyLine
      /\ In issue (SecurityValidator.scanFile packageEntries ctx filePath (Some content))
      /\ SecurityIssue.rule issue = "hardcoded-api-key"
      /\ SecurityIssue.severity issue = error
      /\ SecurityIssue.line issue = Some (index + 1).
Proof.
  intros [pe [patterns [ctx [sec [filePath [content [index [issue H]]]]]]]].
  destruct H as [Hd [Hs [Hp [Hn [Hin [Hrule [_ Hline]]]]]]].
  exact (stripe_line_unreported pe patterns ctx sec filePath content Hd Hs Hp
           index issue Hn Hin Hrule Hline).
Qed.

(** Every issue [applySecurityPattern] reports carries the 1-based index
    of a line the pattern matches, and the name, severity and message of
    the pattern. *)
Lemma applySecurityPattern_sound filePath content lines pattern issue :
  In issue (SecurityValidator.applySecurityPattern filePath content lines pattern) ->
  exists j line,
    nth_error lines j = Some line
    /\ RegExp.matches (SecurityPattern.pattern pattern) true line = true
    /\ SecurityIssue.line issue = Some (j + 1)
    /\ SecurityIssue.rule issue = SecurityPattern.name pattern
    /\ SecurityIssue.severity issue = SecurityPattern.severity pattern
    /\ SecurityIssue.message issue = SecurityPattern.message pattern.
Proof.
  intro H. unfold SecurityValidator.applySecurityPattern in H.
  apply applyLines_In in H; [|reflexivity|reflexivity].
  destruct H as [j [line [Hn [-> Hm]]]]. exists j, line. simpl. auto 10.
Qed.

(** C1 at a file of two lines that each hold a hard-coded password: the
    pattern matches both lines, read on their own, and the scan reports
    the first one only.  The expression is compiled with the global flag
    and tested line after line, so the second test starts at index 29,
    where the first match ended, beyond the end of the second line. *)
Theorem scanFile_skips_matching_line :
  forall (packageEntries : string -> option (list string)),
    JS.split JS.newline Sample.passwordFile = [Sample.passwordLine1; Sample.passwordLine2]
    /\ RegExp.matches (SecurityPattern.pattern Sample.passwordPattern) true
         Sample.passwordLine1 = true
    /\ RegExp.matches (SecurityPattern.pattern Sample.passwordPattern) true
         Sample.passwordLine2 = true
    /\ SecurityValidator.scanFile packageEntries
         (Sample.withPatterns [Sample.passwordPattern]) "config.js"
         (Some Sample.passwordFile)
       = [SecurityIssue.mk "config.js" (Some 1) "hardcoded-password" error
            "Hardcoded password detected. Use secure configuration management."
            "Use environment variables and bcrypt for password hashing"].
Proof.
  intro pe. repeat split; vm_compute; reflexivity.
Qed.

(* ================================================================== *)
(** * Properties of the continuity check *)
(* ================================================================== *)

Section Continuity.

Variable context : ProjectContext.t.
Variable project : ContinuityChecker.Project.








End Continuity.





(* ================================================================== *)
(** * Properties of generateMissingEndpoints *)
(* ================================================================== *)

Lemma arrayIncludes_map path (es : list ApiEndpoint.t) :
  JS.arrayIncludes path (map ApiEndpoint.path es)
  = existsb (fun e => String.eqb path (ApiEndpoint.path e)) es.
Proof.
  unfold JS.arrayIncludes. induction es as [|e es IH]; simpl; [reflexivity|].
  now rewrite IH.
Qed.

Lemma generateMissingEndpoints_spec context calls :
  ContinuityChecker.generateMissingEndpoints context calls
  = map Reconcile.synthesized (filter (Reconcile.pathUndeclared context) calls).
Proof.
  unfold ContinuityChecker.generateMissingEndpoints.
  induction calls as [|call calls IH]; [reflexivity|].
  cbn [flat_map filter]. rewrite IH. clear IH.
  unfold Reconcile.pathUndeclared at 2.
  assert (Hpaths : forall path,
            JS.arrayIncludes path
              (match ProjectContext.apiEndpoints context with
               | Some es => map ApiEndpoint.path es | None => [] end)
            = existsb (fun e => String.eqb path (ApiEndpoint.path e))
                      (Reconcile.declared context)).
  { intro path. unfold Reconcile.declared.
    destruct (ProjectContext.apiEndpoints context); [apply arrayIncludes_map|reflexivity]. }
  destruct (ContinuityChecker.parseApiCall call) as [method path] eqn:E.
  cbn [snd]. rewrite Hpaths.
  destruct (negb (String.eqb path EmptyString) && _); [|reflexivity].
  cbn [map app]. f_equal. unfold Reconcile.synthesized. rewrite E. reflexivity.
Qed.

(** C8, as amended.  For every list of frontend calls,
    [generateMissingEndpoints] synthesizes one endpoint, in order, for
    each call whose parsed path is not empty and is the path of no
    declared endpoint, whatever the methods; a call whose path is
    declared under another method gets none.  Each synthesized endpoint
    has the description Auto-generated endpoint for its path, an empty
    parameter list, and an authentication flag that is true exactly when
    its path, in lower case, contains one of user, profile, dashboard,
    admin, account. *)
Theorem generateMissingEndpoints_by_path :
  forall (context : ProjectContext.t) (calls : list string),
    ContinuityChecker.generateMissingEndpoints context calls
    = map Reconcile.synthesized (filter (Reconcile.pathUndeclared context) calls)
    /\ forall e, In e (ContinuityChecker.generateMissingEndpoints context calls) ->
         ApiEndpoint.description e
         = Some ("Auto-generated endpoint for " ++ ApiEndpoint.path e)%string
         /\ ApiEndpoint.parameters e = Some []
         /\ (exists flag, ApiEndpoint.authentication e = Some flag
             /\ (flag = true <->
                 exists kw, In kw Reconcile.authKeywords
                            /\ JS.includes kw (JS.toLowerCase (ApiEndpoint.path e)) = true)).
Proof.
  intros context calls. split; [apply generateMissingEndpoints_spec|].
  intros e He. rewrite generateMissingEndpoints_spec in He.
  apply in_map_iff in He. destruct He as [call [<- _]].
  unfold Reconcile.synthesized.
  destruct (ContinuityChecker.parseApiCall call) as [method path].
  cbn [ApiEndpoint.description ApiEndpoint.path ApiEndpoint.parameters
       ApiEndpoint.authentication].
  split; [reflexivity|]. split; [reflexivity|].
  eexists. split; [reflexivity|].
  rewrite existsb_exists. reflexivity.
Qed.

Lemma generateMissingEndpoints_by_path_witness :
  ContinuityChecker.generateMissingEndpoints
    (Sample.withEndpoints [Sample.productsEndpoint]) Sample.discoveredCalls
  = [Sample.profileEndpoint]
  /\ ApiEndpoint.description Sample.profileEndpoint
     = Some ("Auto-generated endpoint for " ++ ApiEndpoint.path Sample.profileEndpoint)%string
  /\ ApiEndpoint.parameters Sample.profileEndpoint = Some []
  /\ (exists flag, ApiEndpoint.authentication Sample.profileEndpoint = Some flag
       /\ (flag = true <->
           exists kw, In kw Reconcile.authKeywords
                      /\ JS.includes kw
                           (JS.toLowerCase (ApiEndpoint.path Sample.profileEndpoint)) = true)).
Proof.
  assert (H : ContinuityChecker.generateMissingEndpoints
                (Sample.withEndpoints [Sample.productsEndpoint]) Sample.discoveredCalls
              = [Sample.profileEndpoint]) by (vm_compute; reflexivity).
  split; [exact H|].
  apply (proj2 (generateMissingEndpoints_by_path
                  (Sample.withEndpoints [Sample.productsEndpoint])
                  Sample.discoveredCalls) Sample.profileEndpoint).
  rewrite H. left. reflexivity.
Defined.

(** C8 fails for a call whose path is declared under another method: a
    POST to /api/users has no declared match when only GET /api/users is
    declared, and no endpoint is synthesized for it. *)
Lemma generateMissingEndpoints_method_counterexample :
  let context := Sample.withEndpoints [Sample.usersEndpoint] in
  let call := "axios.post('/api/users', body)" in
  ContinuityChecker.parseApiCall call = ("POST", "/api/users")
  /\ Reconcile.hasDeclaredMatch context call = false
  /\ ContinuityChecker.generateMissingEndpoints context [call] = [].
Proof. repeat split; vm_compute; reflexivity. Qed.


(* ================================================================== *)
(** * Further properties of the security scan *)
(* ================================================================== *)

(** X1.  [autoFixSecurityIssues] reports no issue as fixed, whatever the
    project and the issues: both fixes on its list are placeholders. *)
Theorem autoFixSecurityIssues_fixes_nothing :
  forall (projectPath : string) (issues : list SecurityIssue.t),
    SecurityValidator.autoFixSecurityIssues projectPath issues = [].
Proof.
  intros projectPath issues. unfold SecurityValidator.autoFixSecurityIssues.
  induction issues as [|issue issues IH]; [reflexivity|].
  cbn [filter]. rewrite IH. unfold SecurityValidator.tryAutoFix.
  destruct (String.eqb _ "hardcoded-api-key"); [reflexivity|].
  destruct (String.eqb _ "insecure-http"); reflexivity.
Qed.

Section Location.

Variable packageEntries : string -> option (list string).
Variable filePath : string.

Ltac issue_cases H :=
  repeat match type of H with
         | In _ (_ ++ _) => apply in_app_or in H; destruct H as [H|H]
         | In _ (if ?b then _ else _) => destruct b
         | In _ (match ?x with _ => _ end) => destruct x
         | In _ [] => contradiction
         | In _ [_] => destruct H as [<-|[]]
         end.

Lemma builtIn_location content lines issue :
  In issue (SecurityValidator.applyBuiltInSecurityChecks packageEntries
              filePath content lines) ->
  SecurityIssue.file issue = filePath
  /\ match SecurityIssue.line issue with
     | Some n => 1 <= n <= List.length lines
     | None => SecurityIssue.rule issue = "vulnerable-dependency"
     end.
Proof.
  unfold SecurityValidator.applyBuiltInSecurityChecks.
  intro H. repeat (apply in_app_or in H; destruct H as [H|H]).
  - destruct (JS.includes ".env" filePath); [|contradiction].
    apply forEachLine_In in H. destruct H as [j [line [Hn H]]].
    assert (j < List.length lines) by (apply nth_error_Some; congruence).
    issue_cases H; simpl; split; auto; lia.
  - destruct (JS.endsWith "package.json" filePath); [|contradiction].
    unfold SecurityValidator.checkPackageJson in H.
    destruct (packageEntries content); [|contradiction].
    apply in_flat_map in H. destruct H as [pkg [_ H]].
    issue_cases H; simpl; auto.
  - apply forEachLine_In in H. destruct H as [j [line [Hn H]]].
    assert (j < List.length lines) by (apply nth_error_Some; congruence).
    issue_cases H; simpl; split; auto; lia.
  - apply forEachLine_In in H. destruct H as [j [line [Hn H]]].
    assert (j < List.length lines) by (apply nth_error_Some; congruence).
    issue_cases H; simpl; split; auto; lia.
  - apply forEachLine_In in H. destruct H as [j [line [Hn H]]].
    assert (j < List.length lines) by (apply nth_error_Some; congruence).
    issue_cases H; simpl; split; auto; lia.
Qed.

Lemma scanFile_parts context content :
  SecurityValidator.scanFile packageEntries context filePath (Some content)
  = flat_map (SecurityValidator.applySecurityPattern filePath content
                (JS.split JS.newline content)) (Notions.declaredPatterns context)
    ++ SecurityValidator.applyBuiltInSecurityChecks packageEntries filePath content
         (JS.split JS.newline content).
Proof.
  unfold SecurityValidator.scanFile, Notions.declaredPatterns.
  destruct (ProjectContext.security context) as [sec|]; [|reflexivity].
  destruct (SecurityConfiguration.patterns sec); reflexivity.
Qed.

(** The rule of an issue is that of a built-in check or the name of a
    declared pattern. *)
Lemma scanFile_rules context content issue :
  In issue (SecurityValidator.scanFile packageEntries context filePath content) ->
  In (SecurityIssue.rule issue) SecurityValidator.builtInRules
  \/ exists p, In p (Notions.declaredPatterns context)
               /\ SecurityIssue.rule issue = SecurityPattern.name p.
Proof.
  destruct content as [content|]; [|contradiction].
  rewrite scanFile_parts. intro H. apply in_app_or in H. destruct H as [H|H].
  - right. apply in_flat_map in H. destruct H as [p [Hp H]].
    apply applySecurityPattern_sound in H.
    destruct H as [j [line [_ [_ [_ [Hr _]]]]]]. eauto.
  - left. eapply builtIn_rules, H.
Qed.

End Location.

(** X2.  Every issue [scanFile] reports for a file names that file, and
    either carries a line number between 1 and the number of lines of
    the file, or is a vulnerable-dependency issue, which has none. *)
Theorem scanFile_issue_location :
  forall (packageEntries : string -> option (list string))
         (context : ProjectContext.t) (filePath content : string)
         (issue : SecurityIssue.t),
    In issue (SecurityValidator.scanFile packageEntries context filePath (Some content)) ->
    SecurityIssue.file issue = filePath
    /\ match SecurityIssue.line issue with
       | Some n => 1 <= n <= List.length (JS.split JS.newline content)
       | None => SecurityIssue.rule issue = "vulnerable-dependency"
       end.
Proof.
  intros pe context filePath content issue H.
  rewrite scanFile_parts in H. apply in_app_or in H. destruct H as [H|H].
  - apply in_flat_map in H. destruct H as [p [_ H]].
    unfold SecurityValidator.applySecurityPattern in H.
    apply applyLines_In in H; [|reflexivity|reflexivity].
    destruct H as [j [line [Hn [-> _]]]].
    assert (j < List.length (JS.split JS.newline content))
      by (apply nth_error_Some; congruence).
    simpl. split; [reflexivity | lia].
  - eapply builtIn_location, H.
Qed.

Lemma scanFile_issue_location_witness :
  In Sample.passwordIssue
     (SecurityValidator.scanFile Sample.noPackage Sample.defaultsContext "config.js"
        (Some Sample.passwordFile))
  /\ SecurityIssue.file Sample.passwordIssue = "config.js"
  /\ match SecurityIssue.line Sample.passwordIssue with
     | Some n => 1 <= n <= List.length (JS.split JS.newline Sample.passwordFile)
     | None => SecurityIssue.rule Sample.passwordIssue = "vulnerable-dependency"
     end.
Proof.
  assert (H : In Sample.passwordIssue
                (SecurityValidator.scanFile Sample.noPackage Sample.defaultsContext
                   "config.js" (Some Sample.passwordFile)))
    by (vm_compute; left; reflexivity).
  split; [exact H|].
  exact (scanFile_issue_location Sample.noPackage Sample.defaultsContext "config.js"
           Sample.passwordFile Sample.passwordIssue H).
Defined.

Section Skips.

Variable filePath : string.
Variable pattern : SecurityPattern.t.

(** A test of a global expression that fails resets [lastIndex]. *)
Lemma test_false_resets re s :
  RegExp.global re = true -> fst (RegExp.test re s) = false ->
  RegExp.lastIndex (snd (RegExp.test re s)) = 0.
Proof.
  intros G. unfold RegExp.test, RegExp.exec. rewrite G.
  destruct (_ <? _); [reflexivity|].
  destruct (RegExp.search _ _ _ _) as [[b e]|]; [discriminate|reflexivity].
Qed.

(** The state of the shared expression: a matching line is reported, or
    the expression was left in the middle of the line before. *)
Lemma applyLines_reports : forall lines re index j line,
  RegExp.source re = SecurityPattern.pattern pattern ->
  RegExp.ignoreCase re = true ->
  RegExp.global re = true ->
  nth_error lines j = Some line ->
  RegExp.matches (SecurityPattern.pattern pattern) true line = true ->
  In (SecurityValidator.patternIssue filePath pattern (index + j) line)
     (SecurityValidator.applyLines filePath pattern re index lines)
  \/ (j = 0 /\ RegExp.lastIndex re <> 0)
  \/ exists j' prev,
       j = S j' /\ nth_error lines j' = Some prev
       /\ In (SecurityValidator.patternIssue filePath pattern (index + j') prev)
             (SecurityValidator.applyLines filePath pattern re index lines).
Proof.
  induction lines as [|l lines IH]; intros re index j line Hr Hi Hg Hn Hm.
  - destruct j; discriminate.
  - cbn [SecurityValidator.applyLines].
    destruct (RegExp.test re l) as [hit re'] eqn:E.
    pose proof (test_preserves re l) as [P1 [P2 P3]].
    pose proof (test_false_resets re l Hg) as P4.
    rewrite E in P1, P2, P3, P4. cbn [fst snd] in P1, P2, P3, P4.
    destruct j as [|j].
    + injection Hn as ->.
      destruct (Nat.eq_dec (RegExp.lastIndex re) 0) as [Z|Z]; [|right; left; auto].
      left. rewrite Nat.add_0_r.
      assert (re = RegExp.create (SecurityPattern.pattern pattern) true true) as ->.
      { destruct re; cbn in *. unfold RegExp.create. congruence. }
      rewrite test_fresh, Hm in E. injection E as <- _. left. reflexivity.
    + cbn [nth_error] in Hn.
      assert (Q1 : RegExp.source re' = SecurityPattern.pattern pattern) by congruence.
      assert (Q2 : RegExp.ignoreCase re' = true) by congruence.
      assert (Q3 : RegExp.global re' = true) by congruence.
      destruct (IH re' (S index) j line Q1 Q2 Q3 Hn Hm)
        as [H|[[-> Hl]|[j' [prev [-> [Hp H]]]]]].
      * left. apply in_or_app. right. now rewrite Nat.add_succ_r.
      * right. right. exists 0, l. repeat split.
        destruct hit; [|exfalso; apply Hl, P4; reflexivity].
        apply in_or_app. left. rewrite Nat.add_0_r. left. reflexivity.
      * right. right. exists (S j'), prev. repeat split; [exact Hp|].
        apply in_or_app. right. now rewrite Nat.add_succ_r.
Qed.

End Skips.

(** X3.  Which matching lines a declared pattern misses: a line the
    pattern matches is reported with its own 1-based number, or it
    directly follows a line that is reported.  So the first line of a
    file, and a line after an unreported one, is never missed. *)
Theorem applySecurityPattern_misses_only_after_report :
  forall (filePath content : string) (lines : list string)
         (pattern : SecurityPattern.t) (j : nat) (line : string),
    nth_error lines j = Some line ->
    RegExp.matches (SecurityPattern.pattern pattern) true line = true ->
    In (SecurityValidator.patternIssue filePath pattern j line)
       (SecurityValidator.applySecurityPattern filePath content lines pattern)
    \/ exists j' prev,
         j = S j' /\ nth_error lines j' = Some prev
         /\ In (SecurityValidator.patternIssue filePath pattern j' prev)
               (SecurityValidator.applySecurityPattern filePath content lines pattern).
Proof.
  intros filePath content lines pattern j line Hn Hm.
  unfold SecurityValidator.applySecurityPattern.
  destruct (applyLines_reports filePath pattern lines
              (RegExp.create (SecurityPattern.pattern pattern) true true) 0 j line)
    as [H|[[_ H]|H]]; auto.
  exfalso. apply H. reflexivity.
Qed.

Lemma applySecurityPattern_misses_only_after_report_witness :
  In (SecurityValidator.patternIssue "config.js" Sample.passwordPattern 1
        Sample.passwordLine2)
     (SecurityValidator.applySecurityPattern "config.js" Sample.passwordFile
        [Sample.passwordLine1; Sample.passwordLine2] Sample.passwordPattern)
  \/ exists j' prev,
       1 = S j'
       /\ nth_error [Sample.passwordLine1; Sample.passwordLine2] j' = Some prev
       /\ In (SecurityValidator.patternIssue "config.js" Sample.passwordPattern j' prev)
             (SecurityValidator.applySecurityPattern "config.js" Sample.passwordFile
                [Sample.passwordLine1; Sample.passwordLine2] Sample.passwordPattern).
Proof.
  apply (applySecurityPattern_misses_only_after_report "config.js" Sample.passwordFile
           [Sample.passwordLine1; Sample.passwordLine2] Sample.passwordPattern 1
           Sample.passwordLine2).
  - reflexivity.
  - vm_compute. reflexivity.
Defined.

Lemma flat_map_readable {A : Type} (f : string -> option string -> list A) :
  (forall path, f path None = []) ->
  forall files,
    flat_map (fun file => f (fst file) (snd file)) files
    = flat_map (fun file => f (fst file) (snd file)) (Notions.readable files).
Proof.
  intros Hf files. induction files as [|[path [content|]] files IH]; simpl.
  - reflexivity.
  - now rewrite IH.
  - rewrite Hf. exact IH.
Qed.

(** X4.  Files that cannot be read are skipped without a trace: the scan
    of a project is the scan of its readable files.  The scan fails in
    one case only, a .gitignore that exists and cannot be read. *)
Theorem scanProject_skips_unreadable_files :
  forall (packageEntries : string -> option (list string))
         (context : ProjectContext.t) (files : list (string * option string))
         (gitignore : option (option string)),
    SecurityValidator.scanProject packageEntries context files gitignore
    = SecurityValidator.scanProject packageEntries context (Notions.readable files) gitignore
    /\ ((exists e, SecurityValidator.scanProject packageEntries context files gitignore
                   = Throw e)
        <-> gitignore = Some None).
Proof.
  intros pe context files gitignore. unfold SecurityValidator.scanProject. split.
  - rewrite (flat_map_readable (SecurityValidator.scanFile pe context)) by reflexivity.
    reflexivity.
  - destruct gitignore as [[c|]|]; simpl.
    + destruct (negb _); simpl; (split; [intros [e H]|]); discriminate.
    + split; eauto.
    + split; [intros [e H]|]; discriminate.
Qed.

Lemma ofRule_app rule l1 l2 :
  Notions.ofRule rule (l1 ++ l2) = Notions.ofRule rule l1 ++ Notions.ofRule rule l2.
Proof. apply filter_app. Qed.

Lemma ofRule_none rule l :
  (forall issue, In issue l -> SecurityIssue.rule issue <> rule) ->
  Notions.ofRule rule l = [].
Proof.
  induction l as [|i l IH]; intro H; [reflexivity|]. unfold Notions.ofRule in *. simpl.
  destruct (String.eqb_spec (SecurityIssue.rule i) rule) as [E|E].
  - exfalso. apply (H i); [left; reflexivity | exact E].
  - apply IH. intros issue Hin. apply H. right. exact Hin.
Qed.

(** X5.  The project-level findings of a scan: when no declared pattern
    is named after them, a scan that returns holds the missing-gitignore
    warning exactly once if the project has no .gitignore and never
    otherwise, and the gitignore-env-missing error exactly once if the
    .gitignore does not contain the text .env and never otherwise. *)
Theorem scanProject_gitignore_findings :
  forall (packageEntries : string -> option (list string))
         (context : ProjectContext.t) (files : list (string * option string))
         (gitignore : option (option string)) (issues : list SecurityIssue.t),
    (forall p, In p (Notions.declaredPatterns context) ->
               SecurityPattern.name p <> "missing-gitignore"
               /\ SecurityPattern.name p <> "gitignore-env-missing") ->
    SecurityValidator.scanProject packageEntries context files gitignore = Ok issues ->
    Notions.ofRule "missing-gitignore" issues
    = match gitignore with
      | None => [Notions.missingGitignoreIssue]
      | Some _ => []
      end
    /\ Notions.ofRule "gitignore-env-missing" issues
       = match gitignore with
         | Some (Some gitignoreContent) =>
             if JS.includes ".env" gitignoreContent then [] else [Notions.gitignoreEnvIssue]
         | _ => []
         end.
Proof.
  intros pe context files gitignore issues Hp H.
  unfold SecurityValidator.scanProject in H.
  assert (Hfiles : forall rule,
             rule = "missing-gitignore" \/ rule = "gitignore-env-missing" ->
             Notions.ofRule rule
               (flat_map (fun file => SecurityValidator.scanFile pe context (fst file) (snd file))
                  files) = []).
  { intros rule Hrule. apply ofRule_none. intros issue Hin.
    apply in_flat_map in Hin. destruct Hin as [file [_ Hin]].
    apply scanFile_rules in Hin. destruct Hin as [Hb|[p [Hin Hr]]].
    - intro E. rewrite E in Hb.
      destruct Hrule as [-> | ->]; vm_compute in Hb; intuition discriminate.
    - rewrite Hr. destruct (Hp p Hin). destruct Hrule as [-> | ->]; assumption. }
  destruct gitignore as [[c|]|]; simpl in H.
  - destruct (JS.includes ".env" c); simpl in H; injection H as <-;
      rewrite !ofRule_app, !Hfiles by auto; split; reflexivity.
  - discriminate.
  - injection H as <-. rewrite !ofRule_app, !Hfiles by auto. split; reflexivity.
Qed.

Lemma scanProject_gitignore_findings_witness :
  exists issues,
    SecurityValidator.scanProject Sample.noPackage Sample.defaultsContext
      Sample.scannedFiles None = Ok issues
    /\ Notions.ofRule "missing-gitignore" issues = [Notions.missingGitignoreIssue]
    /\ Notions.ofRule "gitignore-env-missing" issues = [].
Proof.
  eexists. split; [reflexivity|].
  apply (scanProject_gitignore_findings Sample.noPackage Sample.defaultsContext
           Sample.scannedFiles None).
  - intros p Hin. vm_compute in Hin.
    repeat (destruct Hin as [<-|Hin]; [split; discriminate|]). contradiction.
  - reflexivity.
Defined.

(* ================================================================== *)
(** * Further properties of the continuity check *)
(* ================================================================== *)

Lemma split_nonempty sep s : JS.split sep s <> [].
Proof.
  destruct s as [|c s]; simpl; [discriminate|].
  destruct (Ascii.eqb c sep); [discriminate|].
  destruct (JS.split sep s); discriminate.
Qed.

(** A call string has a file part and a call part. *)
Lemma split_callSite_parts file rest :
  exists fileInfo callInfo more,
    JS.split ":" (Reconcile.callSite file rest) = fileInfo :: callInfo :: more.
Proof.
  unfold Reconcile.callSite. induction file as [|c file IH].
  - change ((EmptyString ++ ":" ++ rest)%string) with (String ":" rest).
    cbn [JS.split]. rewrite Ascii.eqb_refl.
    destruct (JS.split ":" rest) as [|w ws] eqn:E; [now apply split_nonempty in E|].
    eauto.
  - change ((String c file ++ ":" ++ rest)%string)
      with (String c (file ++ ":" ++ rest)%string).
    cbn [JS.split]. destruct IH as [f [ci [more ->]]].
    destruct (Ascii.eqb c ":"); eauto.
Qed.

Lemma callsOf_shape re file content call :
  In call (ContinuityChecker.callsOf re file content) ->
  exists matched, call = Reconcile.callSite file matched.
Proof.
  unfold ContinuityChecker.callsOf. destruct (RegExp.matchAll re false content); [|contradiction].
  intro H. apply in_map_iff in H. destruct H as [m [<- _]]. exists m. reflexivity.
Qed.

Lemma findFrontendApiCalls_shape project call :
  In call (ContinuityChecker.findFrontendApiCalls project) ->
  exists file matched, call = Reconcile.callSite file matched.
Proof.
  unfold ContinuityChecker.findFrontendApiCalls. intro H.
  apply in_flat_map in H. destruct H as [[file content] [_ H]].
  exists file.
  repeat (apply in_app_or in H; destruct H as [H|H]); eapply callsOf_shape, H.
Qed.

Lemma unmatchedCalls_returns es : forall calls,
  (forall call, In call calls -> exists file matched, call = Reconcile.callSite file matched) ->
  exists issues,
    ContinuityChecker.unmatchedCalls es calls = Ok issues
    /\ List.length issues <= List.length calls
    /\ Forall (fun i => ContinuityIssue.type i = api_mismatch) issues.
Proof.
  induction calls as [|call calls IH]; intro H.
  - exists []. repeat split; auto.
  - destruct IH as [issues [E [Hlen Hty]]]; [intros c Hc; apply H; right; exact Hc|].
    destruct (H call) as [file [m ->]]; [left; reflexivity|].
    cbn [ContinuityChecker.unmatchedCalls]. unfold ContinuityChecker.parseApiCallWithLocation.
    destruct (split_callSite_parts file m) as [fileInfo [callInfo [more ->]]].
    destruct (ContinuityChecker.parseApiCall callInfo) as [method path].
    cbn [bind]. rewrite E. cbn [bind].
    destruct (find _ es); eexists; (split; [reflexivity|]); cbn [app List.length];
      (split; [lia|]); auto.
Qed.

Lemma unusedEndpoints_bound calls : forall es,
  List.length (ContinuityChecker.unusedEndpoints es calls) <= List.length es
  /\ Forall (fun i => ContinuityIssue.type i = api_mismatch)
            (ContinuityChecker.unusedEndpoints es calls).
Proof.
  unfold ContinuityChecker.unusedEndpoints.
  induction es as [|e es [IH1 IH2]]; [split; [reflexivity|constructor]|].
  cbn [flat_map]. destruct (existsb _ calls); cbn [app List.length]; (split; [lia|]); auto.
Qed.

Lemma checkApiContinuity_returns context project :
  exists unmatched,
    ContinuityChecker.unmatchedCalls (Reconcile.declared context)
      (ContinuityChecker.findFrontendApiCalls project) = Ok unmatched
    /\ ContinuityChecker.checkApiContinuity context project
       = Ok (unmatched
             ++ ContinuityChecker.unusedEndpoints (Reconcile.declared context)
                  (ContinuityChecker.findFrontendApiCalls project))
    /\ List.length unmatched <= List.length (ContinuityChecker.findFrontendApiCalls project)
    /\ Forall (fun i => ContinuityIssue.type i = api_mismatch) unmatched.
Proof.
  destruct (unmatchedCalls_returns (Reconcile.declared context)
              (ContinuityChecker.findFrontendApiCalls project)
              (findFrontendApiCalls_shape project)) as [unmatched [E [Hlen Hty]]].
  exists unmatched. repeat split; auto.
  unfold ContinuityChecker.checkApiContinuity. fold (Reconcile.declared context).
  rewrite E. reflexivity.
Qed.

(** X6.  [checkContinuity] returns for every context and every project
    whose files can be read: each call string it discovers has a file
    part and a call part, so [parseApiCallWithLocation] never fails on
    one.  The issues come in four blocks, api, component, route and
    authentication; the api block holds api-mismatch issues only, at
    most one for each discovered call and each declared endpoint. *)
Theorem checkContinuity_returns_in_blocks :
  forall (context : ProjectContext.t) (project : ContinuityChecker.Project),
    exists apiIssues,
      ContinuityChecker.checkApiContinuity context project = Ok apiIssues
      /\ ContinuityChecker.checkContinuity context project
         = Ok (apiIssues
               ++ ContinuityChecker.checkComponentContinuity project
               ++ ContinuityChecker.checkRouteContinuity project
               ++ ContinuityChecker.checkAuthenticationContinuity context project)
      /\ Forall (fun i => ContinuityIssue.type i = api_mismatch) apiIssues
      /\ List.length apiIssues
         <= List.length (ContinuityChecker.findFrontendApiCalls project)
            + List.length (Reconcile.declared context).
Proof.
  intros context project.
  destruct (checkApiContinuity_returns context project) as [unmatched [_ [E [Hlen Hty]]]].
  destruct (unusedEndpoints_bound (ContinuityChecker.findFrontendApiCalls project)
              (Reconcile.declared context)) as [Ulen Uty].
  eexists. split; [exact E|]. split.
  - unfold ContinuityChecker.checkContinuity. rewrite E. reflexivity.
  - split; [apply Forall_app; auto|]. rewrite length_app. lia.
Qed.

Section Reconciliation.

Variable es : list ApiEndpoint.t.





End Reconciliation.




Section Methods.

Lemma matchRe_Alt i r1 r2 s k rest :
  RegExp.matchRe i (RegExp.Alt r1 r2) s k = Some rest ->
  RegExp.matchRe i r1 s k = Some rest \/ RegExp.matchRe i r2 s k = Some rest.
Proof.
  cbn [RegExp.matchRe]. destruct (RegExp.matchRe i r1 s k); auto.
Qed.

Lemma matchRe_Chr_upper c s k rest :
  RegExp.matchRe true (RegExp.Chr c) s k = Some rest ->
  exists a s', s = String a s' /\ JS.upperChar a = JS.upperChar c /\ k s' = Some rest.
Proof.
  cbn [RegExp.matchRe]. destruct s as [|a s']; [discriminate|].
  unfold RegExp.canonicalize.
  destruct (Ascii.eqb_spec (JS.upperChar c) (JS.upperChar a)) as [E|E]; [|discriminate].
  eauto.
Qed.

(** A literal matched without regard to case: the text it consumes has
    the upper case of the literal. *)
Lemma matchRe_Lit_upper w : forall s k rest,
  RegExp.matchRe true (RegExp.Lit w) s k = Some rest ->
  exists u s', s = (u ++ s')%string
               /\ JS.toUpperCase u = JS.toUpperCase w /\ k s' = Some rest.
Proof.
  induction w as [|c w IH]; intros s k rest H.
  - exists EmptyString, s. auto.
  - destruct w as [|c' w'].
    + apply matchRe_Chr_upper in H. destruct H as [a [s' [-> [Ha Hk]]]].
      exists (String a EmptyString), s'. repeat split; auto. simpl. now rewrite Ha.
    + change (RegExp.Lit (String c (String c' w')))
        with (RegExp.Seq (RegExp.Chr c) (RegExp.Lit (String c' w'))) in H.
      cbn [RegExp.matchRe] in H. fold RegExp.matchRe in H.
      apply matchRe_Chr_upper in H. destruct H as [a [s1 [-> [Ha Hk]]]].
      apply IH in Hk. destruct Hk as [u [s' [-> [Hu Hk]]]].
      exists (String a u), s'. repeat split; auto.
      change (JS.toUpperCase (String a u)) with (String (JS.upperChar a) (JS.toUpperCase u)).
      rewrite Ha, Hu. reflexivity.
Qed.

Lemma matchRe_verbs s k rest :
  RegExp.matchRe true ContinuityChecker.verbs s k = Some rest ->
  exists u s', s = (u ++ s')%string
               /\ In (JS.toUpperCase u) Notions.callMethods /\ k s' = Some rest.
Proof.
  unfold ContinuityChecker.verbs, RegExp.AltN. intro H.
  repeat (apply matchRe_Alt in H; destruct H as [H|H]);
    apply matchRe_Lit_upper in H; destruct H as [u [s' [-> [Hu Hk]]]];
    exists u, s'; rewrite Hu; repeat split; auto; vm_compute; tauto.
Qed.

Lemma search_found i r : forall s pos b e,
  RegExp.search i r s pos = Some (b, e) ->
  exists rest,
    RegExp.matchRe i r (JS.drop (b - pos) s) (fun s' => Some s') = Some rest
    /\ e - b = String.length (JS.drop (b - pos) s) - String.length rest
    /\ pos <= b.
Proof.
  induction s as [|c s IH]; intros pos b e H; cbn [RegExp.search] in H.
  - destruct (RegExp.matchRe i r EmptyString _) as [rest|] eqn:E; [|discriminate].
    injection H as <- <-. exists rest. rewrite Nat.sub_diag. cbn [JS.drop].
    split; [exact E|]. cbn [String.length]. split; lia.
  - destruct (RegExp.matchRe i r (String c s) _) as [rest|] eqn:E.
    + injection H as <- <-. exists rest. rewrite Nat.sub_diag. cbn [JS.drop].
      split; [exact E|]. cbn [String.length].
      split; [destruct (String.length rest); lia | lia].
    + apply IH in H. destruct H as [rest [Hm [He Hb]]].
      exists rest. replace (b - pos) with (S (b - S pos)) by lia. cbn [JS.drop].
      repeat split; auto. lia.
Qed.

Lemma substring_drop n : forall b s,
  String.substring b n s = String.substring 0 n (JS.drop b s).
Proof.
  induction b as [|b IH]; intro s; [reflexivity|].
  destruct s as [|c s]; [destruct n; reflexivity|]. cbn [JS.drop]. simpl. apply IH.
Qed.

Lemma substring_prefix u : forall rest,
  String.substring 0 (String.length u) (u ++ rest) = u.
Proof.
  induction u as [|c u IH]; intro rest; simpl.
  - destruct rest; reflexivity.
  - now rewrite IH.
Qed.

Lemma length_append u : forall v,
  String.length (u ++ v) = String.length u + String.length v.
Proof. induction u as [|c u IH]; intro v; simpl; auto. Qed.

Lemma parseApiCall_method call :
  In (fst (ContinuityChecker.parseApiCall call)) Notions.callMethods.
Proof.
  unfold ContinuityChecker.parseApiCall. cbn [fst]. unfold RegExp.matchFirst.
  destruct (RegExp.search true _ call 0) as [[b e]|] eqn:E; [|vm_compute; tauto].
  apply search_found in E. destruct E as [rest [Hm [He _]]].
  rewrite Nat.sub_0_r in Hm, He.
  cbn [RegExp.matchRe] in Hm. fold RegExp.matchRe in Hm.
  apply matchRe_Chr_upper in Hm. destruct Hm as [a [s1 [Hd [_ Hm]]]].
  apply matchRe_verbs in Hm. destruct Hm as [u [s' [-> [Hu Hk]]]].
  injection Hk as ->.
  unfold RegExp.matched. cbn [fst snd]. rewrite substring_drop, He, Hd.
  replace (String.length (String a (u ++ rest)) - String.length rest)
    with (String.length (String a u)).
  - change (String a (u ++ rest)) with ((String a u ++ rest)%string).
    rewrite substring_prefix. exact Hu.
  - cbn [String.length]. rewrite length_append. lia.
Qed.

End Methods.

(** X7.  Whatever the text of a call, [parseApiCall] returns one of the
    five methods GET, POST, PUT, DELETE and PATCH, in upper case. *)
Theorem parseApiCall_method_is_one_of_five :
  forall call : string,
    In (fst (ContinuityChecker.parseApiCall call)) Notions.callMethods.
Proof. exact parseApiCall_method. Qed.

(** X8.  An endpoint declared with a method other than the five upper
    case methods of a call, such as HEAD or a lower-case get, is
    reported as unused by every run of [checkContinuity], whatever the
    frontend calls. *)
Theorem checkContinuity_other_method_reported_unused :
  forall (context : ProjectContext.t) (project : ContinuityChecker.Project)
         (e : ApiEndpoint.t),
    In e (Reconcile.declared context) ->
    ~ In (ApiEndpoint.method e) Notions.callMethods ->
    exists issues,
      ContinuityChecker.checkContinuity context project = Ok issues
      /\ In (ContinuityChecker.unusedEndpointIssue e) issues.
Proof.
  intros context project e He Hm.
  destruct (checkApiContinuity_returns context project) as [unmatched [_ [E _]]].
  unfold ContinuityChecker.checkContinuity. rewrite E. cbn [bind].
  eexists. split; [reflexivity|].
  apply in_or_app. left. apply in_or_app. right.
  unfold ContinuityChecker.unusedEndpoints. apply in_flat_map. exists e. split; [exact He|].
  destruct (existsb _ _) eqn:X; [|left; reflexivity].
  exfalso. apply existsb_exists in X. destruct X as [call [_ X]].
  pose proof (parseApiCall_method call) as P.
  destruct (ContinuityChecker.parseApiCall call) as [method path]. cbn [fst] in P.
  unfold ContinuityChecker.sameEndpoint in X. apply andb_true_iff in X.
  destruct X as [_ X]. apply String.eqb_eq in X. apply Hm. now rewrite X.
Qed.

Lemma checkContinuity_other_method_reported_unused_witness :
  exists issues,
    ContinuityChecker.checkContinuity (Sample.withEndpoints [Sample.healthEndpoint])
      (Sample.fetchingProject "src/Shop.tsx") = Ok issues
    /\ In (ContinuityChecker.unusedEndpointIssue Sample.healthEndpoint) issues.
Proof.
  apply (checkContinuity_other_method_reported_unused
           (Sample.withEndpoints [Sample.healthEndpoint])
           (Sample.fetchingProject "src/Shop.tsx") Sample.healthEndpoint).
  - left. reflexivity.
  - vm_compute. intuition discriminate.
Defined.

Lemma declared_withMoreEndpoints endpoints context :
  Reconcile.declared (Notions.withMoreEndpoints endpoints context)
  = Reconcile.declared context ++ endpoints.
Proof. reflexivity. Qed.

Lemma filter_none {A : Type} (f : A -> bool) (l : list A) :
  (forall x, In x l -> f x = false) -> filter f l = [].
Proof.
  induction l as [|x l IH]; intro H; [reflexivity|]. simpl.
  rewrite (H x) by (left; reflexivity). apply IH. intros y Hy. apply H. right. exact Hy.
Qed.

(** X9.  Declaring what [generateMissingEndpoints] proposes settles the
    calls: for the context with the proposed endpoints added to its
    own, the same calls give no further proposal. *)
Theorem generateMissingEndpoints_settles :
  forall (context : ProjectContext.t) (frontendCalls : list string),
    ContinuityChecker.generateMissingEndpoints
      (Notions.withMoreEndpoints
         (ContinuityChecker.generateMissingEndpoints context frontendCalls) context)
      frontendCalls
    = [].
Proof.
  intros context calls. rewrite (generateMissingEndpoints_spec (Notions.withMoreEndpoints _ _)).
  rewrite filter_none; [reflexivity|].
  intros call Hin. unfold Reconcile.pathUndeclared.
  rewrite declared_withMoreEndpoints, existsb_app.
  destruct (String.eqb _ EmptyString) eqn:Hempty; [reflexivity|]. cbn [negb andb].
  destruct (existsb _ (Reconcile.declared context)) eqn:Hdecl; [reflexivity|].
  cbn [orb]. apply negb_false_iff. apply existsb_exists.
  exists (Reconcile.synthesized call). split.
  - rewrite generateMissingEndpoints_spec. apply in_map. apply filter_In. split; [exact Hin|].
    unfold Reconcile.pathUndeclared. now rewrite Hempty, Hdecl.
  - unfold Reconcile.synthesized.
    destruct (ContinuityChecker.parseApiCall call) as [method path]. apply String.eqb_refl.
Qed.

(* ================================================================== *)
(** * Further properties of the context memory *)
(* ================================================================== *)

Section Queries.

Lemma interactions_stored m :
  match ContextMemory.interactions m with Some l => l | None => [] end
  = Run.stored (ContextMemory.context m).
Proof.
  unfold ContextMemory.interactions, Run.stored.
  destruct (ProjectContext.contextMemory _) as [[lu [l|] cg]|]; reflexivity.
Qed.

Lemma slice0_nil {A : Type} (e : Z) : JS.slice0 e (@nil A) = [].
Proof. unfold JS.slice0. now rewrite firstn_nil. Qed.

Lemma getInteractionsByAction_stored action limit m :
  ContextMemory.getInteractionsByAction action limit m
  = JS.slice0 (match limit with Some n => n | None => 10%Z end)
      (filter (fun i => String.eqb (AiInteraction.action i) action)
              (Run.stored (ContextMemory.context m))).
Proof.
  rewrite <- interactions_stored. unfold ContextMemory.getInteractionsByAction.
  destruct (ContextMemory.interactions m); [reflexivity|].
  cbn [filter]. now rewrite slice0_nil.
Qed.

End Queries.

(** X10.  For a limit that is not negative, [getInteractionsByAction]
    returns the first [limit] of the stored interactions that have the
    action, in their stored order: every one returned has the action,
    and there are at most [limit] of them.  Without a limit it is 10. *)
Theorem getInteractionsByAction_first_of_action :
  forall (action : string) (limit : Z) (m : ContextMemory.t),
    (0 <= limit)%Z ->
    ContextMemory.getInteractionsByAction action (Some limit) m
    = firstn (Z.to_nat limit)
        (filter (fun i => String.eqb (AiInteraction.action i) action)
                (Run.stored (ContextMemory.context m)))
    /\ Forall (fun i => AiInteraction.action i = action)
              (ContextMemory.getInteractionsByAction action (Some limit) m)
    /\ (Z.of_nat (List.length (ContextMemory.getInteractionsByAction action (Some limit) m))
        <= limit)%Z
    /\ ContextMemory.getInteractionsByAction action None m
       = ContextMemory.getInteractionsByAction action (Some 10%Z) m.
Proof.
  intros action limit m Hlimit.
  rewrite getInteractionsByAction_stored, slice0_pos by exact Hlimit.
  split; [reflexivity|]. split; [|split].
  - apply Forall_forall. intros i Hi.
    apply (In_nth_error) in Hi. destruct Hi as [n Hn].
    assert (Hin : In i (filter (fun i => String.eqb (AiInteraction.action i) action)
                          (Run.stored (ContextMemory.context m)))).
    { rewrite <- (firstn_skipn (Z.to_nat limit)). apply in_or_app. left.
      eapply nth_error_In, Hn. }
    apply filter_In in Hin. destruct Hin as [_ Hin]. now apply String.eqb_eq.
  - rewrite length_firstn. lia.
  - reflexivity.
Qed.

Lemma getInteractionsByAction_first_of_action_witness :
  ContextMemory.getInteractionsByAction "security-fix" (Some 1%Z)
    (Run.recordAll [Sample.call1; Sample.call2; Sample.call1]
       (ContextMemory.create Sample.emptyContext None))
  = firstn (Z.to_nat 1)
      (filter (fun i => String.eqb (AiInteraction.action i) "security-fix")
         (Run.stored (ContextMemory.context
            (Run.recordAll [Sample.call1; Sample.call2; Sample.call1]
               (ContextMemory.create Sample.emptyContext None)))))
  /\ Forall (fun i => AiInteraction.action i = "security-fix")
       (ContextMemory.getInteractionsByAction "security-fix" (Some 1%Z)
          (Run.recordAll [Sample.call1; Sample.call2; Sample.call1]
             (ContextMemory.create Sample.emptyContext None)))
  /\ (Z.of_nat (List.length
        (ContextMemory.getInteractionsByAction "security-fix" (Some 1%Z)
           (Run.recordAll [Sample.call1; Sample.call2; Sample.call1]
              (ContextMemory.create Sample.emptyContext None)))) <= 1)%Z
  /\ ContextMemory.getInteractionsByAction "security-fix" None
       (Run.recordAll [Sample.call1; Sample.call2; Sample.call1]
          (ContextMemory.create Sample.emptyContext None))
     = ContextMemory.getInteractionsByAction "security-fix" (Some 10%Z)
         (Run.recordAll [Sample.call1; Sample.call2; Sample.call1]
            (ContextMemory.create Sample.emptyContext None)).
Proof.
  apply (getInteractionsByAction_first_of_action "security-fix" 1%Z
           (Run.recordAll [Sample.call1; Sample.call2; Sample.call1]
              (ContextMemory.create Sample.emptyContext None))).
  lia.
Defined.

(** X11.  An interaction that [recordInteraction] has just recorded is
    the first one [getInteractionsByAction] returns for its action,
    when the cap and the limit are at least 1. *)
Theorem getInteractionsByAction_after_recordInteraction :
  forall (m : ContextMemory.t) (call : Call) (limit : Z),
    (1 <= ContextMemory.maxInteractions m)%Z ->
    (1 <= limit)%Z ->
    hd_error (ContextMemory.getInteractionsByAction (call_action call) (Some limit)
                (Run.record m call))
    = Some (Run.interactionOf call).
Proof.
  intros m call limit Hcap Hlimit.
  rewrite getInteractionsByAction_stored, slice0_pos by lia.
  rewrite record_stored by lia.
  destruct (Z.to_nat (ContextMemory.maxInteractions m)) as [|cap] eqn:Ec; [lia|].
  destruct (Z.to_nat limit) as [|n] eqn:El; [lia|].
  cbn [firstn filter]. unfold Run.interactionOf at 1. cbn [AiInteraction.action].
  rewrite String.eqb_refl. reflexivity.
Qed.

Lemma getInteractionsByAction_after_recordInteraction_witness :
  hd_error (ContextMemory.getInteractionsByAction (call_action Sample.call2) (Some 3%Z)
              (Run.record (Run.record (ContextMemory.create Sample.emptyContext (Some 2%Z))
                             Sample.call1) Sample.call2))
  = Some (Run.interactionOf Sample.call2).
Proof.
  apply (getInteractionsByAction_after_recordInteraction
           (Run.record (ContextMemory.create Sample.emptyContext (Some 2%Z)) Sample.call1)
           Sample.call2 3%Z).
  - simpl. lia.
  - lia.
Defined.

Section Preferences.

Lemma spread_spread a b : ContextMemory.spread (ContextMemory.spread a b) b
                          = ContextMemory.spread a b.
Proof.
  unfold ContextMemory.spread. cbn.
  destruct (PreferencesUpdate.codeStyle b), (PreferencesUpdate.commentLevel b),
    (PreferencesUpdate.errorHandling b), (PreferencesUpdate.testGeneration b); reflexivity.
Qed.

Lemma get_update preferences now m :
  ContextMemory.getCodeGenerationPreferences
    (ContextMemory.updateCodeGenerationPreferences preferences now m)
  = ContextMemory.spread (ContextMemory.getCodeGenerationPreferences m) preferences.
Proof. reflexivity. Qed.

Lemma stored_update preferences now m :
  Run.stored (ContextMemory.context
                (ContextMemory.updateCodeGenerationPreferences preferences now m))
  = Run.stored (ContextMemory.context m).
Proof.
  unfold ContextMemory.updateCodeGenerationPreferences, Run.stored. cbn.
  destruct (ProjectContext.contextMemory (ContextMemory.context m)) as [[lu [l|] cg]|];
    reflexivity.
Qed.

End Preferences.

(** X12.  Preferences written are read back: after
    [updateCodeGenerationPreferences], [getCodeGenerationPreferences]
    returns each key given in the update with the value given, be it
    [undefined], and every other key with the value read before,
    defaults included.  The update writes the clock reading to
    [lastUpdated] and leaves the stored interactions as they are.  The
    same update made again at a later clock reading changes
    [lastUpdated] and nothing else: the instance is the one a single
    update at the later reading gives. *)
Theorem updateCodeGenerationPreferences_read_back :
  forall (preferences : PreferencesUpdate.t) (now later : string) (m : ContextMemory.t),
    let before := ContextMemory.getCodeGenerationPreferences m in
    let m' := ContextMemory.updateCodeGenerationPreferences preferences now m in
    let after := ContextMemory.getCodeGenerationPreferences m' in
    let m'' := ContextMemory.updateCodeGenerationPreferences preferences later m' in
    Preferences.codeStyle after
    = match PreferencesUpdate.codeStyle preferences with
      | Some value => value
      | None => Preferences.codeStyle before
      end
    /\ Preferences.commentLevel after
       = match PreferencesUpdate.commentLevel preferences with
         | Some value => value
         | None => Preferences.commentLevel before
         end
    /\ Preferences.errorHandling after
       = match PreferencesUpdate.errorHandling preferences with
         | Some value => value
         | None => Preferences.errorHandling before
         end
    /\ Preferences.testGeneration after
       = match PreferencesUpdate.testGeneration preferences with
         | Some value => value
         | None => Preferences.testGeneration before
         end
    /\ Run.stored (ContextMemory.context m') = Run.stored (ContextMemory.context m)
    /\ Run.lastUpdated (ContextMemory.context m') = Some now
    /\ ContextMemory.getCodeGenerationPreferences m'' = after
    /\ Run.stored (ContextMemory.context m'') = Run.stored (ContextMemory.context m)
    /\ Run.lastUpdated (ContextMemory.context m'') = Some later
    /\ m'' = ContextMemory.updateCodeGenerationPreferences preferences later m.
Proof.
  intros preferences now later m before m' after m''.
  repeat (split; [reflexivity|]).
  split; [apply stored_update|]. split; [reflexivity|].
  split; [subst m'' after m'; rewrite !get_update; apply spread_spread|].
  split; [subst m'' m'; now rewrite !stored_update|]. split; [reflexivity|].
  subst m'' m'. unfold ContextMemory.updateCodeGenerationPreferences at 1.
  rewrite get_update, spread_spread.
  unfold ContextMemory.updateCodeGenerationPreferences. cbn.
  destruct (ProjectContext.contextMemory (ContextMemory.context m)); reflexivity.
Qed.

Section CleanupProperties.

Variable timeOf : string -> option Z.
Variable cutoff : Z.




End CleanupProperties.


Section Maturity.

Ltac facets c :=
  destruct (Facet.endpointsPresent c), (Facet.authConfigured c), (Facet.httpsEnforced c),
    (Facet.modelsPresent c), (Facet.componentsPresent c), (Facet.platformSet c).

Lemma maturity_cases m :
  let n := Notions.facetCount (ContextMemory.context m) in
  let label := ContextMemory.assessProjectMaturity m in
  (n <= 1 /\ label = "initial")
  \/ (2 <= n <= 3 /\ label = "early")
  \/ (3 <= n <= 4 /\ label = "developing")
  \/ (5 <= n /\ label = "mature").
Proof.
  unfold ContextMemory.assessProjectMaturity. rewrite maturityScore_sum.
  unfold Notions.facetCount, Facet.all. cbn [filter].
  facets (ContextMemory.context m); cbn; auto 10.
Qed.

End Maturity.

(** X14.  The maturity label by the number of facets that hold, of the
    six the score counts: mature exactly from five facets on, initial
    exactly with at most one, early with two, developing with four;
    with three it is early or developing, by which three hold. *)
Theorem assessProjectMaturity_by_facet_count :
  forall m : ContextMemory.t,
    let n := Notions.facetCount (ContextMemory.context m) in
    let label := ContextMemory.assessProjectMaturity m in
    (label = "mature" <-> 5 <= n)
    /\ (label = "initial" <-> n <= 1)
    /\ (label = "early" \/ label = "developing" <-> 2 <= n <= 4)
    /\ (n = 2 -> label = "early")
    /\ (n = 4 -> label = "developing").
Proof.
  intros m n label.
  destruct (maturity_cases m) as [[Hn Hl]|[[Hn Hl]|[[Hn Hl]|[Hn Hl]]]];
    fold n in Hn; fold label in Hl; rewrite Hl;
    repeat split; intros; try lia; try reflexivity; try discriminate; auto;
    repeat match goal with H : _ \/ _ |- _ => destruct H end; discriminate.
Qed.

(** X15.  [recommendNextSteps] always returns exactly three steps: the
    steps of a mature project from five facets on, and those of an
    initial project with at most one. *)
Theorem recommendNextSteps_three_steps :
  forall m : ContextMemory.t,
    List.length (ContextMemory.recommendNextSteps m) = 3
    /\ (ContextMemory.recommendNextSteps m
        = ["Consider microservices architecture";
           "Implement advanced security features";
           "Add comprehensive documentation"]
        <-> 5 <= Notions.facetCount (ContextMemory.context m))
    /\ (ContextMemory.recommendNextSteps m
        = ["Define your project structure and main components";
           "Set up basic authentication";
           "Create your first API endpoints"]
        <-> Notions.facetCount (ContextMemory.context m) <= 1).
Proof.
  intro m. unfold ContextMemory.recommendNextSteps.
  destruct (maturity_cases m) as [[Hn Hl]|[[Hn Hl]|[[Hn Hl]|[Hn Hl]]]];
    cbv zeta in Hl; rewrite Hl; clear Hl;
    set (n := Notions.facetCount (ContextMemory.context m)) in *; clearbody n; cbn;
    repeat split; intros; try lia; try reflexivity; discriminate.
Qed.

Section Frame.


End Frame.


(** X17.  The two recorders disagree on the order: [recordAiInteraction]
    appends at the end of the list [ContextMemory] reads newest first.
    So with fewer than 50 interactions stored and at least [limit] of
    them for an action, [getInteractionsByAction] returns for that
    action what it returned before the call, whatever was recorded. *)
Theorem recordAiInteraction_unseen_by_getInteractionsByAction :
  forall (ctx : ProjectContext.t) (call : Call) (action : string) (limit : Z)
         (maxInteractions : option Z),
    (0 <= limit)%Z ->
    Z.to_nat limit <= Notions.occurrences action (Run.stored ctx) ->
    List.length (Run.stored ctx) < 50 ->
    ContextMemory.getInteractionsByAction action (Some limit)
      (ContextMemory.create (Run.recordAi ctx call) maxInteractions)
    = ContextMemory.getInteractionsByAction action (Some limit)
        (ContextMemory.create ctx maxInteractions).
Proof.
  intros ctx call action limit cap Hlimit Hocc Hlen.
  rewrite !getInteractionsByAction_stored, !slice0_pos by exact Hlimit.
  cbn [ContextMemory.create ContextMemory.context].
  rewrite recordAi_stored. unfold JS.sliceLast.
  replace (List.length (Run.stored ctx ++ [Run.aiInteractionOf call]) - 50) with 0
    by (rewrite length_app; simpl; lia).
  cbn [skipn]. rewrite filter_app, firstn_app.
  unfold Notions.occurrences in Hocc.
  replace (Z.to_nat limit - _) with 0 by lia.
  rewrite firstn_0, app_nil_r. reflexivity.
Qed.

Lemma recordAiInteraction_unseen_by_getInteractionsByAction_witness :
  ContextMemory.getInteractionsByAction "component-creation" (Some 2%Z)
    (ContextMemory.create (Run.recordAi Sample.threeStored Sample.call2) None)
  = ContextMemory.getInteractionsByAction "component-creation" (Some 2%Z)
      (ContextMemory.create Sample.threeStored None).
Proof.
  apply (recordAiInteraction_unseen_by_getInteractionsByAction
           Sample.threeStored Sample.call2 "component-creation" 2%Z None).
  - lia.
  - vm_compute. lia.
  - vm_compute. lia.
Defined.

(* ================================================================== *)
(** * Further properties of the validation *)
(* ================================================================== *)

Section Validation.

Variable mgr : ProjectContextManager.t.
Variable c : ProjectContext.t.

(** The errors of the two business rules, by what the context holds. *)
Lemma businessErrors_cases :
  match ProjectContext.security c with
  | None =>
      if Notions.sensitive c || isSome (ProjectContextManager.production c)
      then exists e, ProjectContextManager.businessErrors c = Throw e
      else ProjectContextManager.businessErrors c = Ok []
  | Some _ =>
      ProjectContextManager.businessErrors c
      = Ok ((if Notions.sensitive c
                && negb (Notions.ruleOn SecurityRules.inputSanitization c)
             then [ProjectContextManager.inputSanitizationError] else [])
            ++ (if isSome (ProjectContextManager.production c)
                   && negb (Notions.ruleOn SecurityRules.enforceHttps c)
                then [ProjectContextManager.enforceHttpsError] else []))
  end.
Proof.
  unfold ProjectContextManager.businessErrors, ProjectContextManager.securityRules,
    Notions.sensitive, Notions.ruleOn, ProjectContext.securityRules,
    ProjectContextManager.ruleOf.
  destruct (ProjectContext.security c) as [sec|];
    destruct (ProjectContext.databaseModels c) as [models|];
    try destruct (ProjectContextManager.hasSensitiveData models);
    destruct (ProjectContextManager.production c); cbn; eauto;
    try (destruct (SecurityConfiguration.rules sec) as [rules|]; cbn;
         try destruct (truthyBool (SecurityRules.inputSanitization rules));
         try destruct (truthyBool (SecurityRules.enforceHttps rules)); reflexivity).
Qed.

Lemma validateContext_unfold :
  ProjectContextManager.validateContext mgr c
  = (errors <- ProjectContextManager.businessErrors c ;;
     Ok (ValidationResult.mk
           (Nat.eqb (List.length (ProjectContextManager.schemaErrors mgr c ++ errors)) 0)
           (ProjectContextManager.schemaErrors mgr c ++ errors)
           (ProjectContextManager.endpointWarnings c))).
Proof.
  unfold ProjectContextManager.validateContext, ProjectContextManager.validateBusinessLogic.
  destruct (ProjectContextManager.businessErrors c); reflexivity.
Qed.

Lemma endpointWarnings_paths_protected :
  map ValidationError.path (ProjectContextManager.endpointWarnings c)
  = (if Notions.authIsNone c
     then map (fun e => ("api.endpoints[" ++ ApiEndpoint.path e ++ "]")%string)
              (Notions.protectedEndpoints c)
     else [])
  /\ Forall (fun w => ValidationError.severity w = warning)
            (ProjectContextManager.endpointWarnings c).
Proof.
  unfold ProjectContextManager.endpointWarnings, Notions.authIsNone,
    Notions.protectedEndpoints, Reconcile.declared.
  destruct (ProjectContext.apiEndpoints c) as [es|],
    (ProjectContext.authentication c) as [auth|]; cbn; auto.
  - destruct (match AuthenticationConfiguration.type auth with
              | Some t => String.eqb t "none" | None => false end).
    + induction es as [|e es [IH1 IH2]]; [split; [reflexivity|constructor]|].
      cbn [flat_map filter]. destruct (truthyBool (ApiEndpoint.authentication e)); cbn;
        [rewrite IH1; split; [reflexivity|constructor; [reflexivity|exact IH2]] | auto].
    + induction es as [|e es [IH1 IH2]]; [split; [reflexivity|constructor]|].
      cbn [flat_map]. rewrite andb_false_r. cbn. auto.
  - destruct (match AuthenticationConfiguration.type auth with
              | Some t => String.eqb t "none" | None => false end); auto.
Qed.

End Validation.

Lemma hasSensitiveField_sensitive c :
  Notions.hasSensitiveField c -> Notions.sensitive c = true.
Proof.
  intros [d [models [model [field [term [Hd [Hm [Hmodel [Hfield [Hterm Hinc]]]]]]]]]].
  unfold Notions.sensitive, ProjectContext.databaseModels. rewrite Hd, Hm.
  unfold ProjectContextManager.hasSensitiveData.
  apply existsb_exists. exists model. split; [exact Hmodel|].
  apply existsb_exists. exists field. split; [exact Hfield|].
  apply existsb_exists. exists term. split; [exact Hterm|exact Hinc].
Qed.

Lemma productionDeclared_production c :
  Notions.productionDeclared c -> isSome (ProjectContextManager.production c) = true.
Proof.
  intros [d [env [production [Hd [He Hp]]]]].
  unfold ProjectContextManager.production. now rewrite Hd, He, Hp.
Qed.

(** X18.  A context without its security section makes
    [validateContext] throw as soon as a business rule has to read the
    security rules: when some model has a field whose name, in lower
    case, contains password, email, phone, ssn or credit_card, or when a
    production environment is declared. *)
Theorem validateContext_throws_when_rules_are_read :
  forall (mgr : ProjectContextManager.t) (c : ProjectContext.t),
    ProjectContext.security c = None ->
    Notions.hasSensitiveField c \/ Notions.productionDeclared c ->
    exists e, ProjectContextManager.validateContext mgr c = Throw e.
Proof.
  intros mgr c Hsec H. rewrite validateContext_unfold.
  pose proof (businessErrors_cases c) as B. rewrite Hsec in B.
  assert (Hor : Notions.sensitive c || isSome (ProjectContextManager.production c) = true).
  { apply orb_true_iff. destruct H as [H|H];
      [left; apply hasSensitiveField_sensitive, H
      |right; apply productionDeclared_production, H]. }
  rewrite Hor in B. destruct B as [e B]. rewrite B. cbn. eauto.
Qed.

Lemma validateContext_throws_when_rules_are_read_witness :
  exists e,
    ProjectContextManager.validateContext Sample.noSchema
      Sample.unguardedProductionContext = Throw e.
Proof.
  apply (validateContext_throws_when_rules_are_read Sample.noSchema
           Sample.unguardedProductionContext).
  - reflexivity.
  - right. unfold Notions.productionDeclared. cbn.
    eexists. eexists. eexists. repeat split.
Defined.



(** X20.  The warnings of a validation that returns: with the
    authentication type none, one warning for each declared endpoint
    that requires authentication, in order, whose path names the
    endpoint; otherwise none.  Every one has severity warning. *)
Theorem validateContext_warnings :
  forall (mgr : ProjectContextManager.t) (c : ProjectContext.t)
         (r : ValidationResult.t),
    ProjectContextManager.validateContext mgr c = Ok r ->
    map ValidationError.path (ValidationResult.warnings r)
    = (if Notions.authIsNone c
       then map (fun e => ("api.endpoints[" ++ ApiEndpoint.path e ++ "]")%string)
                (Notions.protectedEndpoints c)
       else [])
    /\ Forall (fun w => ValidationError.severity w = warning)
              (ValidationResult.warnings r).
Proof.
  intros mgr c r. rewrite validateContext_unfold.
  destruct (ProjectContextManager.businessErrors c); [|discriminate].
  cbn. intro H. injection H as <-. cbn. apply endpointWarnings_paths_protected.
Qed.

Lemma validateContext_warnings_witness :
  exists r,
    ProjectContextManager.validateContext Sample.noSchema Sample.protectedContext = Ok r
    /\ map ValidationError.path (ValidationResult.warnings r) = ["api.endpoints[/api/orders]"]
    /\ Forall (fun w => ValidationError.severity w = warning)
              (ValidationResult.warnings r).
Proof.
  eexists. split; [reflexivity|].
  apply (validateContext_warnings Sample.noSchema Sample.protectedContext).
  reflexivity.
Defined.

(* ================================================================== *)
(** * The action counts *)
(* ================================================================== *)

Section Counts.

Lemma increment_countOf a k : forall counts,
  Notions.countOf k (ContextMemory.increment a counts)
  = Notions.countOf k counts + (if String.eqb a k then 1 else 0).
Proof.
  induction counts as [|[k' n] rest IH]; cbn [ContextMemory.increment Notions.countOf].
  - destruct (String.eqb a k); reflexivity.
  - destruct (String.eqb_spec k' a) as [->|Hne]; cbn [Notions.countOf].
    + destruct (String.eqb a k); lia.
    + destruct (String.eqb_spec k' k) as [->|Hk].
      * destruct (String.eqb_spec a k) as [->|_]; [congruence|lia].
      * exact IH.
Qed.

Lemma increment_keys a k : forall counts,
  In k (map fst (ContextMemory.increment a counts)) <-> k = a \/ In k (map fst counts).
Proof.
  induction counts as [|[k' n] rest IH]; cbn [ContextMemory.increment map fst In].
  - intuition.
  - destruct (String.eqb_spec k' a) as [->|Hne]; cbn [map fst In]; [intuition|].
    rewrite IH. intuition.
Qed.

Lemma increment_NoDup a : forall counts,
  NoDup (map fst counts) -> NoDup (map fst (ContextMemory.increment a counts)).
Proof.
  induction counts as [|[k' n] rest IH]; cbn [ContextMemory.increment map fst]; intro H.
  - constructor; [intros []|constructor].
  - inversion H as [|? ? Hnin Hrest]; subst.
    destruct (String.eqb_spec k' a) as [->|Hne]; cbn [map fst].
    + constructor; assumption.
    + constructor; [|apply IH, Hrest].
      rewrite increment_keys. intros [->|Hin]; [congruence|contradiction].
Qed.

Lemma increment_positive a : forall counts,
  Forall (fun kv => 1 <= snd kv) counts ->
  Forall (fun kv => 1 <= snd kv) (ContextMemory.increment a counts).
Proof.
  induction counts as [|[k' n] rest IH]; cbn [ContextMemory.increment]; intro H.
  - constructor; [cbn; lia|constructor].
  - inversion H as [|? ? Hn Hrest]; subst.
    destruct (String.eqb k' a); constructor; cbn in *; auto; lia.
Qed.

Lemma occurrences_cons k i l :
  Notions.occurrences k (i :: l)
  = (if String.eqb (AiInteraction.action i) k then 1 else 0) + Notions.occurrences k l.
Proof.
  unfold Notions.occurrences. cbn [filter].
  destruct (String.eqb (AiInteraction.action i) k); reflexivity.
Qed.

Lemma countActions_from : forall l acc,
  NoDup (map fst acc) ->
  Forall (fun kv => 1 <= snd kv) acc ->
  let counts :=
    fold_left (fun counts i => ContextMemory.increment (AiInteraction.action i) counts)
              l acc in
  NoDup (map fst counts)
  /\ Forall (fun kv => 1 <= snd kv) counts
  /\ forall k, Notions.countOf k counts = Notions.countOf k acc + Notions.occurrences k l.
Proof.
  induction l as [|i l IH]; intros acc Hnd Hpos; cbn [fold_left].
  - repeat split; auto; intro k; unfold Notions.occurrences; cbn; lia.
  - destruct (IH (ContextMemory.increment (AiInteraction.action i) acc)) as [H1 [H2 H3]].
    + apply increment_NoDup, Hnd.
    + apply increment_positive, Hpos.
    + repeat split; auto. intro k.
      rewrite H3, increment_countOf, occurrences_cons. lia.
Qed.

Lemma countActions_spec l :
  NoDup (map fst (ContextMemory.countActions l))
  /\ Forall (fun kv => 1 <= snd kv) (ContextMemory.countActions l)
  /\ forall k, Notions.countOf k (ContextMemory.countActions l) = Notions.occurrences k l.
Proof.
  destruct (countActions_from l []) as [H1 [H2 H3]]; [constructor|constructor|].
  repeat split; auto.
Qed.

Lemma countOf_absent k : forall counts,
  ~ In k (map fst counts) -> Notions.countOf k counts = 0.
Proof.
  induction counts as [|[k' n] rest IH]; cbn [Notions.countOf map fst In]; intro H.
  - reflexivity.
  - destruct (String.eqb_spec k' k) as [->|_]; [exfalso; auto|]. apply IH. auto.
Qed.

Lemma countOf_In k n : forall counts,
  NoDup (map fst counts) -> In (k, n) counts -> Notions.countOf k counts = n.
Proof.
  induction counts as [|[k' n'] rest IH]; cbn [Notions.countOf map fst]; intros Hnd Hin.
  - contradiction.
  - inversion Hnd as [|? ? Hnin Hrest]; subst. destruct Hin as [E|Hin].
    + injection E as -> ->. now rewrite String.eqb_refl.
    + destruct (String.eqb_spec k' k) as [->|_]; [|apply IH; assumption].
      exfalso. apply Hnin. apply in_map_iff. exists (k, n). auto.
Qed.

Lemma countOf_present (k : string) : forall counts : list (string * nat),
  In k (map fst counts) -> exists n, In (k, n) counts.
Proof.
  intros counts H. apply in_map_iff in H. destruct H as [[k' n] [E Hin]].
  cbn in E. subst. eauto.
Qed.

Lemma insertIndex_perm e : forall l,
  Permutation (ContextMemory.insertIndex e l) (e :: l).
Proof.
  induction l as [|x l IH]; cbn [ContextMemory.insertIndex]; [reflexivity|].
  destruct (fst e <? fst x)%N; [reflexivity|].
  rewrite IH. apply perm_swap.
Qed.

Lemma filter_split_perm {A : Type} (f : A -> bool) : forall l,
  Permutation (filter f l ++ filter (fun x => negb (f x)) l) l.
Proof.
  induction l as [|x l IH]; cbn [filter]; [reflexivity|].
  destruct (f x); cbn [negb app].
  - now constructor.
  - symmetry. apply Permutation_cons_app. now symmetry.
Qed.

Lemma entries_perm counts : Permutation (ContextMemory.entries counts) counts.
Proof.
  unfold ContextMemory.entries.
  rewrite <- (filter_split_perm (fun kv => isSome (ContextMemory.arrayIndex (fst kv))) counts)
    at 3.
  apply Permutation_app_tail.
  induction counts as [|kv counts IH]; cbn [fold_right filter]; [reflexivity|].
  destruct (ContextMemory.arrayIndex (fst kv)) as [n|]; cbn [isSome]; [|exact IH].
  rewrite (Permutation_map snd (insertIndex_perm (n, kv) _)). cbn [map snd].
  now constructor.
Qed.

Lemma insertByCount_perm e : forall l,
  Permutation (ContextMemory.insertByCount e l) (e :: l).
Proof.
  induction l as [|x l IH]; cbn [ContextMemory.insertByCount]; [reflexivity|].
  destruct (snd x <=? snd e); [reflexivity|].
  rewrite IH. apply perm_swap.
Qed.

Lemma sortByCount_perm : forall l, Permutation (ContextMemory.sortByCount l) l.
Proof.
  unfold ContextMemory.sortByCount.
  induction l as [|x l IH]; cbn [fold_right]; [reflexivity|].
  rewrite insertByCount_perm. now constructor.
Qed.

Lemma insertByCount_sorted e : forall l,
  StronglySorted Notions.byCount l ->
  StronglySorted Notions.byCount (ContextMemory.insertByCount e l).
Proof.
  induction l as [|x l IH]; cbn [ContextMemory.insertByCount]; intro H.
  - constructor; constructor.
  - apply StronglySorted_inv in H as Hinv. destruct Hinv as [Hl Hx].
    destruct (snd x <=? snd e) eqn:E.
    + apply Nat.leb_le in E. constructor; [exact H|].
      constructor; [exact E|].
      eapply Forall_impl; [|exact Hx]. unfold Notions.byCount. intros y Hy. lia.
    + apply Nat.leb_gt in E. constructor; [apply IH, Hl|].
      eapply Permutation_Forall; [symmetry; apply insertByCount_perm|].
      constructor; [unfold Notions.byCount; lia | exact Hx].
Qed.

Lemma sortByCount_sorted : forall l,
  StronglySorted Notions.byCount (ContextMemory.sortByCount l).
Proof.
  unfold ContextMemory.sortByCount.
  induction l as [|x l IH]; cbn [fold_right]; [constructor|].
  apply insertByCount_sorted, IH.
Qed.

Lemma In_firstn {A : Type} (x : A) n l : In x (firstn n l) -> In x l.
Proof.
  intro H. rewrite <- (firstn_skipn n l). apply in_or_app. now left.
Qed.

Lemma firstn_sorted {A : Type} (R : A -> A -> Prop) : forall n l,
  StronglySorted R l -> StronglySorted R (firstn n l).
Proof.
  induction n as [|n IH]; intros l H; [constructor|].
  destruct l as [|x l]; [constructor|]. cbn [firstn].
  apply StronglySorted_inv in H. destruct H as [Hl Hx].
  constructor; [apply IH, Hl|].
  apply Forall_forall. intros y Hy. apply In_firstn in Hy.
  rewrite Forall_forall in Hx. auto.
Qed.

Lemma commonActions_stored m :
  ContextMemory.commonActions m
  = firstn 5 (ContextMemory.sortByCount
                (ContextMemory.entries
                   (ContextMemory.countActions (Run.stored (ContextMemory.context m))))).
Proof.
  rewrite <- interactions_stored. unfold ContextMemory.commonActions.
  destruct (ContextMemory.interactions m) as [[|i l]|]; reflexivity.
Qed.

(** The sorted table of the stored interactions. *)
Lemma sorted_counts_spec l :
  let sorted := ContextMemory.sortByCount (ContextMemory.entries (ContextMemory.countActions l)) in
  NoDup (map fst sorted)
  /\ StronglySorted Notions.byCount sorted
  /\ (forall a n, In (a, n) sorted -> n = Notions.occurrences a l /\ 1 <= n)
  /\ (forall a, 1 <= Notions.occurrences a l ->
                In (a, Notions.occurrences a l) sorted).
Proof.
  intro sorted.
  destruct (countActions_spec l) as [Hnd [Hpos Hcount]].
  assert (P : Permutation sorted (ContextMemory.countActions l)).
  { subst sorted. rewrite sortByCount_perm. apply entries_perm. }
  split; [|split; [|split]].
  - eapply Permutation_NoDup; [apply Permutation_map; symmetry; exact P | exact Hnd].
  - apply sortByCount_sorted.
  - intros a n Hin. apply (Permutation_in _ P) in Hin. split.
    + rewrite <- Hcount. symmetry. now apply countOf_In.
    + rewrite Forall_forall in Hpos. apply (Hpos (a, n) Hin).
  - intros a Ha. apply (Permutation_in _ (Permutation_sym P)).
    destruct (in_dec string_dec a (map fst (ContextMemory.countActions l))) as [Hin|Hout].
    + apply countOf_present in Hin. destruct Hin as [n Hin].
      rewrite <- Hcount, (countOf_In a n _ Hnd Hin). exact Hin.
    + apply countOf_absent in Hout. rewrite Hcount in Hout. lia.
Qed.

End Counts.

(** X21.  The common actions of [analyzeInteractionPatterns], for
    stored actions that are not names inherited from [Object.prototype]
    (for these a count read from the table is a number): at most five
    entries, each an action with the number of stored interactions that
    have it, no action twice, by decreasing count; the first entry is an
    action that occurs most often, and there is none only when nothing
    is stored. *)
Theorem commonActions_most_frequent_first :
  forall m : ContextMemory.t,
    Forall (fun i => ~ In (AiInteraction.action i) Notions.inheritedKeys)
           (Run.stored (ContextMemory.context m)) ->
    List.length (ContextMemory.commonActions m) <= 5
    /\ (forall a n, In (a, n) (ContextMemory.commonActions m) ->
                    n = Notions.occurrences a (Run.stored (ContextMemory.context m))
                    /\ 1 <= n)
    /\ NoDup (map fst (ContextMemory.commonActions m))
    /\ StronglySorted Notions.byCount (ContextMemory.commonActions m)
    /\ match ContextMemory.commonActions m with
       | top :: _ =>
           forall a, Notions.occurrences a (Run.stored (ContextMemory.context m)) <= snd top
       | [] => Run.stored (ContextMemory.context m) = []
       end.
Proof.
  intros m _. rewrite commonActions_stored.
  set (l := Run.stored (ContextMemory.context m)).
  destruct (sorted_counts_spec l) as [Hnd [Hsorted [Hin Hall]]].
  set (sorted := ContextMemory.sortByCount _) in *.
  split; [rewrite length_firstn; lia|]. split; [|split; [|split]].
  - intros a n H. apply In_firstn in H. auto.
  - rewrite <- firstn_map. rewrite <- (firstn_skipn 5 (map fst sorted)) in Hnd.
    eapply NoDup_app_remove_r, Hnd.
  - apply firstn_sorted, Hsorted.
  - destruct sorted as [|top rest] eqn:E; cbn [firstn].
    + destruct l as [|i l']; [reflexivity|]. exfalso.
      apply (Hall (AiInteraction.action i)).
      rewrite occurrences_cons, String.eqb_refl. lia.
    + intro a. apply StronglySorted_inv in Hsorted. destruct Hsorted as [_ Htop].
      destruct (Nat.eq_dec (Notions.occurrences a l) 0) as [Z|NZ]; [lia|].
      destruct (Hall a) as [Heq|Hrest]; [lia| |].
      * subst top. cbn. lia.
      * rewrite Forall_forall in Htop. apply (Htop _ Hrest).
Qed.

Lemma commonActions_most_frequent_first_witness :
  List.length (ContextMemory.commonActions
                 (ContextMemory.create Sample.threeStored None)) <= 5
  /\ (forall a n,
        In (a, n) (ContextMemory.commonActions
                     (ContextMemory.create Sample.threeStored None)) ->
        n = Notions.occurrences a
              (Run.stored (ContextMemory.context
                             (ContextMemory.create Sample.threeStored None)))
        /\ 1 <= n)
  /\ NoDup (map fst (ContextMemory.commonActions
                       (ContextMemory.create Sample.threeStored None)))
  /\ StronglySorted Notions.byCount
       (ContextMemory.commonActions (ContextMemory.create Sample.threeStored None))
  /\ match ContextMemory.commonActions (ContextMemory.create Sample.threeStored None) with
     | top :: _ =>
         forall a,
           Notions.occurrences a
             (Run.stored (ContextMemory.context
                            (ContextMemory.create Sample.threeStored None)))
           <= snd top
     | [] => Run.stored (ContextMemory.context
                           (ContextMemory.create Sample.threeStored None)) = []
     end.
Proof.
  apply (commonActions_most_frequent_first (ContextMemory.create Sample.threeStored None)).
  vm_compute. repeat constructor; intro H; intuition discriminate.
Defined.

(* ================================================================== *)
(** * The suggestions *)
(* ================================================================== *)

Section SuggestionRules.

Lemma actionSuggestion_forAction action :
  ContextMemory.actionSuggestion action = Suggestions.forAction action.
Proof.
  unfold ContextMemory.actionSuggestion, Suggestions.forAction, Suggestions.ofAction.
  cbn [Suggestions.lookup].
  repeat match goal with
         | |- context [String.eqb action ?k] => destruct (String.eqb action k)
         end; reflexivity.
Qed.

(** The five completeness tests of [generateSuggestions] are the rules
    read off the fields. *)
Lemma allSuggestions_missing m :
  ContextMemory.allSuggestions m
  = (match ContextMemory.commonActions m with
     | top :: _ => Suggestions.forAction (fst top)
     | [] => []
     end)
    ++ Suggestions.missing (ContextMemory.context m).
Proof.
  unfold ContextMemory.allSuggestions, Suggestions.missing, Suggestions.completeness.
  cbv zeta. f_equal.
  - destruct (ContextMemory.commonActions m); [reflexivity|apply actionSuggestion_forAction].
  - cbn [filter map fst snd].
    destruct (criteria_facets (ContextMemory.context m)) as [-> [-> [-> [-> [-> _]]]]].
    unfold Facet.endpointsPresent, Facet.authConfigured, Facet.httpsEnforced,
      Facet.modelsPresent, Facet.componentsPresent.
    rewrite !negb_involutive.
    destruct (ContextMemory.isEmpty (ProjectContext.apiEndpoints _));
    destruct (ContextMemory.authMissingOrNone _);
    destruct (truthyBool _);
    destruct (ContextMemory.isEmpty (ProjectContext.frontendComponents _));
    destruct (ContextMemory.isEmpty (ProjectContext.databaseModels _)); reflexivity.
Qed.

(** The first of the common actions is an action that occurs most
    often. *)
Lemma commonActions_top m :
  match ContextMemory.commonActions m with
  | top :: _ => Notions.mostFrequent (fst top) (Run.stored (ContextMemory.context m))
  | [] => Run.stored (ContextMemory.context m) = []
  end.
Proof.
  rewrite commonActions_stored.
  set (l := Run.stored (ContextMemory.context m)).
  destruct (sorted_counts_spec l) as [_ [Hsorted [Hin Hall]]].
  set (sorted := ContextMemory.sortByCount _) in *.
  destruct sorted as [|[a n] rest] eqn:E; cbn [firstn fst].
  - destruct l as [|i l']; [reflexivity|]. exfalso.
    apply (Hall (AiInteraction.action i)).
    rewrite occurrences_cons, String.eqb_refl. lia.
  - destruct (Hin a n) as [Hn Hpos]; [left; reflexivity|].
    apply StronglySorted_inv in Hsorted. destruct Hsorted as [_ Htop].
    split; [lia|]. intro b.
    destruct (Nat.eq_dec (Notions.occurrences b l) 0) as [Z|NZ]; [lia|].
    destruct (Hall b) as [Heq|Hrest]; [lia| |].
    + injection Heq as _ Hb. lia.
    + rewrite Forall_forall in Htop. specialize (Htop _ Hrest).
      unfold Notions.byCount in Htop. cbn [snd] in Htop. lia.
Qed.

Lemma forAction_length action : List.length (Suggestions.forAction action) <= 1.
Proof.
  unfold Suggestions.forAction. destruct (Suggestions.lookup _ _); cbn; lia.
Qed.

Lemma missing_nil c :
  Suggestions.missing c = [] <-> Suggestions.nothingMissing c = true.
Proof.
  unfold Suggestions.missing, Suggestions.nothingMissing, Suggestions.completeness.
  cbn [filter map forallb fst snd].
  destruct (Criteria.endpointsPresent c), (Criteria.authConfigured c),
    (Criteria.httpsEnforced c), (Criteria.componentsPresent c),
    (Criteria.modelsPresent c); cbn; split; intro H; try discriminate; reflexivity.
Qed.

End SuggestionRules.

(** C9, as amended.  For every context whose recorded actions are not
    property names inherited from [Object.prototype] (for these the
    count read from the table of counts is a number),
    [generateSuggestions] returns the first five of the suggestions of
    the rules that fire, in the fixed evaluation order: first the
    suggestion of the most-frequent-action rule, which is the suggestion
    attached to an action that occurs most often among the recorded
    interactions if that action has one, and nothing when nothing is
    recorded; then those of the completeness rules for missing
    endpoints, missing or none authentication, HTTPS not enforced, no
    components, no database models.  So it returns at most five
    suggestions; and it returns none exactly when the first rule
    suggests nothing and no completeness rule fires. *)
Theorem generateSuggestions_at_most_5_in_order :
  forall (m : ContextMemory.t),
    Forall (fun i => ~ In (AiInteraction.action i) Notions.inheritedKeys)
           (Run.stored (ContextMemory.context m)) ->
    exists top : list string,
      ContextMemory.generateSuggestions m
      = firstn 5 (top ++ Suggestions.missing (ContextMemory.context m))
      /\ match Run.stored (ContextMemory.context m) with
         | [] => top = []
         | _ :: _ =>
             exists action,
               Notions.mostFrequent action (Run.stored (ContextMemory.context m))
               /\ top = Suggestions.forAction action
         end
      /\ List.length top <= 1
      /\ List.length (ContextMemory.generateSuggestions m) <= 5
      /\ (ContextMemory.generateSuggestions m = []
          <-> top = [] /\ Suggestions.nothingMissing (ContextMemory.context m) = true).
Proof.
  intros m _.
  exists (match ContextMemory.commonActions m with
          | top :: _ => Suggestions.forAction (fst top)
          | [] => []
          end).
  assert (Hg : ContextMemory.generateSuggestions m
               = firstn 5 ((match ContextMemory.commonActions m with
                            | top :: _ => Suggestions.forAction (fst top)
                            | [] => []
                            end) ++ Suggestions.missing (ContextMemory.context m))).
  { unfold ContextMemory.generateSuggestions. now rewrite allSuggestions_missing. }
  pose proof (commonActions_top m) as Htop.
  split; [exact Hg|]. split; [|split; [|split]].
  - destruct (ContextMemory.commonActions m) as [|top rest].
    + rewrite Htop. reflexivity.
    + destruct (Run.stored (ContextMemory.context m)) as [|i l] eqn:E.
      * destruct Htop as [Hpos _]. unfold Notions.occurrences in Hpos. cbn in Hpos. lia.
      * exists (fst top). split; [exact Htop|reflexivity].
  - destruct (ContextMemory.commonActions m); [cbn; lia|apply forAction_length].
  - rewrite Hg, length_firstn. lia.
  - rewrite Hg, firstn_nil_iff by lia. rewrite <- missing_nil.
    split; [apply app_eq_nil | intros [-> ->]; reflexivity].
Qed.

Lemma generateSuggestions_at_most_5_in_order_witness :
  exists top : list string,
    ContextMemory.generateSuggestions (ContextMemory.create Sample.threeStored None)
    = firstn 5 (top ++ Suggestions.missing Sample.threeStored)
    /\ (exists action,
          Notions.mostFrequent action (Run.stored Sample.threeStored)
          /\ top = Suggestions.forAction action)
    /\ List.length top <= 1
    /\ List.length (ContextMemory.generateSuggestions
                      (ContextMemory.create Sample.threeStored None)) <= 5
    /\ (ContextMemory.generateSuggestions (ContextMemory.create Sample.threeStored None) = []
        <-> top = [] /\ Suggestions.nothingMissing Sample.threeStored = true).
Proof.
  apply (generateSuggestions_at_most_5_in_order
           (ContextMemory.create Sample.threeStored None)).
  vm_compute. repeat constructor; intro H; intuition discriminate.
Defined.

(* ================================================================== *)
(** * The shape of what is reported *)
(* ================================================================== *)

Section Shapes.

Variable filePath : string.
Variable pattern : SecurityPattern.t.

Lemma applyLines_ascending : forall lines re index,
  Forall (fun issue => exists n, SecurityIssue.line issue = Some n /\ index < n)
         (SecurityValidator.applyLines filePath pattern re index lines)
  /\ StronglySorted
       (fun a b => exists x y, SecurityIssue.line a = Some x
                               /\ SecurityIssue.line b = Some y /\ x < y)
       (SecurityValidator.applyLines filePath pattern re index lines).
Proof.
  induction lines as [|l lines IH]; intros re index; cbn [SecurityValidator.applyLines].
  - split; constructor.
  - destruct (RegExp.test re l) as [hit re'].
    destruct (IH re' (S index)) as [Hlow Hsorted].
    assert (Hlow' : Forall (fun issue => exists n, SecurityIssue.line issue = Some n
                                                   /\ index < n)
                      (SecurityValidator.applyLines filePath pattern re' (S index) lines)).
    { eapply Forall_impl; [|exact Hlow]. intros issue [n [Hn Hlt]]. exists n. split; [auto|lia]. }
    destruct hit; cbn [app]; [|auto].
    split.
    + constructor; [|exact Hlow']. exists (index + 1). split; [reflexivity|lia].
    + constructor; [exact Hsorted|].
      eapply Forall_impl; [|exact Hlow]. intros issue [n [Hn Hlt]].
      exists (index + 1), n. repeat split; auto. lia.
Qed.

End Shapes.

(** X22.  A declared pattern is reported once for a line at most, and
    its issues come by ascending line number, however many times the
    pattern matches in a line. *)
Theorem applySecurityPattern_ascending_lines :
  forall (filePath content : string) (lines : list string) (pattern : SecurityPattern.t),
    StronglySorted
      (fun a b => exists x y, SecurityIssue.line a = Some x
                              /\ SecurityIssue.line b = Some y /\ x < y)
      (SecurityValidator.applySecurityPattern filePath content lines pattern)
    /\ List.length (SecurityValidator.applySecurityPattern filePath content lines pattern)
       <= List.length lines.
Proof.
  intros filePath content lines pattern. unfold SecurityValidator.applySecurityPattern.
  split; [apply applyLines_ascending|].
  generalize (RegExp.create (SecurityPattern.pattern pattern) true true) as re.
  generalize 0 as index.
  induction lines as [|l lines IH]; intros index re; cbn [SecurityValidator.applyLines].
  - reflexivity.
  - destruct (RegExp.test re l) as [hit re']. specialize (IH (S index) re').
    destruct hit; cbn [app List.length]; lia.
Qed.

(** X23.  The errors of a validation that returns are complete records:
    each has severity error, a path and a message that are not empty;
    an error of the schema validation without an instance path is
    reported at root, and one without a message as an unknown
    validation error. *)
Theorem validateContext_errors_filled :
  forall (mgr : ProjectContextManager.t) (c : ProjectContext.t)
         (r : ValidationResult.t),
    ProjectContextManager.validateContext mgr c = Ok r ->
    Forall (fun e => ValidationError.severity e = error
                     /\ ValidationError.path e <> EmptyString
                     /\ ValidationError.message e <> EmptyString)
           (ValidationResult.errors r).
Proof.
  intros mgr c r. rewrite validateContext_unfold.
  pose proof (businessErrors_cases c) as B.
  assert (Hschema : Forall (fun e => ValidationError.severity e = error
                                     /\ ValidationError.path e <> EmptyString
                                     /\ ValidationError.message e <> EmptyString)
                      (ProjectContextManager.schemaErrors mgr c)).
  { unfold ProjectContextManager.schemaErrors.
    destruct (ProjectContextManager.validate mgr) as [validate|]; [|constructor].
    apply Forall_forall. intros e He. apply in_map_iff in He.
    destruct He as [eo [<- _]]. cbn. split; [reflexivity|]. split.
    - destruct (String.eqb_spec (ProjectContextManager.instancePath eo) EmptyString);
        [discriminate|assumption].
    - destruct (ProjectContextManager.eo_message eo) as [[|ch msg]|]; discriminate. }
  destruct (ProjectContextManager.businessErrors c) as [errors|e] eqn:E; [|discriminate].
  cbn. intro H. injection H as <-. cbn. apply Forall_app. split; [exact Hschema|].
  destruct (ProjectContext.security c) as [sec|].
  - injection B as ->. apply Forall_app.
    split; match goal with |- Forall _ (if ?b then _ else _) => destruct b end;
      repeat constructor; discriminate.
  - destruct (Notions.sensitive c || isSome (ProjectContextManager.production c)).
    + destruct B as [e B]. discriminate.
    + injection B as ->. constructor.
Qed.

Lemma validateContext_errors_filled_witness :
  exists r,
    ProjectContextManager.validateContext
      (ProjectContextManager.mk
         (Some (fun _ => [ProjectContextManager.mkErrorObject EmptyString None])))
      Sample.unsanitizedProductionContext = Ok r
    /\ List.length (ValidationResult.errors r) = 3
    /\ Forall (fun e => ValidationError.severity e = error
                        /\ ValidationError.path e <> EmptyString
                        /\ ValidationError.message e <> EmptyString)
              (ValidationResult.errors r).
Proof.
  eexists. split; [reflexivity|]. split; [reflexivity|].
  apply (validateContext_errors_filled
           (ProjectContextManager.mk
              (Some (fun _ => [ProjectContextManager.mkErrorObject EmptyString None])))
           Sample.unsanitizedProductionContext).
  reflexivity.
Defined.
